(** * hotwakes: the SST-window extraction pipeline and its read-only consumers

    A shallow embedding of
      - [single_TC/extract_sst.py] and [single_TC/extract_HYCOM_sst.py]
        (coordinate parser, window sampler, track reader, record writer),
      - [find_mixed_missing_sst.py] (missing-value scanner),
      - the line tests of the aggregators and plotting tools,
      - [count_tc_types.py] and [count_tc_status.py] (the tally and its
        report),
      - the loaders of [plot_sst_window.py], [plot_sst_diff_pdfs.py] and
        [plot_single_track_sst.py],
    together with the Python built-ins they rest on ([str.strip],
    [str.split], [float], [int], the ["6.2f"] format, [datetime]).

    Conventions.
      - Text is ASCII: a Python [str] is a [string], one [ascii] per
        character, and a file's contents are the decoded text the program
        iterates over (newlines already translated to ["\n"]).
      - A Python [float] is an IEEE 754 binary64 value, a [spec_float]
        at precision 53 and maximal exponent 1024.
      - A call that can raise returns an [outcome].
      - Dates are formatted as the C library of Linux does it: [%Y]
        writes the year without padding. *)

From Stdlib Require Import ZArith NArith List Bool Ascii String Lia.
From Stdlib Require Import Decimal DecimalString.
From Stdlib Require Import SpecFloat.
From Stdlib Require Import Sorted Permutation.
Import ListNotations.

Local Open Scope string_scope.
Local Open Scope Z_scope.

(** ** Exceptions and results *)

Inductive exn : Type :=
| ValueError
| IndexError
| OverflowError
| FileExistsError
| SystemExit (msg : string)
| EEException (msg : string).

Inductive outcome (A : Type) : Type :=
| Returned (a : A)
| Raised (e : exn).

Arguments Returned {A} a.
Arguments Raised {A} e.

Definition bind {A B : Type} (c : outcome A) (k : A -> outcome B) : outcome B :=
  match c with
  | Returned a => k a
  | Raised e => Raised e
  end.

Notation "x <- c ;; k" := (bind c (fun x => k))
  (at level 61, c at next level, right associativity).

(** [for x in xs: ys.append(f x)], stopping at the first exception. *)
Fixpoint for_each {A B : Type} (f : A -> outcome B) (xs : list A) : outcome (list B) :=
  match xs with
  | [] => Returned []
  | x :: rest =>
      y <- f x ;;
      ys <- for_each f rest ;;
      Returned (y :: ys)
  end.

(** ** Python strings *)

Module PyStr.

Definition newline : ascii := "010"%char.
Definition comma : ascii := ","%char.

Definition code (c : ascii) : N := N_of_ascii c.

Definition in_range (lo hi : N) (c : ascii) : bool :=
  (lo <=? code c)%N && (code c <=? hi)%N.

(** ['0'..'9']: what [\d] and [str.isdigit] accept on ASCII text. *)
Definition is_digit (c : ascii) : bool := in_range 48 57 c.

(** [str.isspace] on ASCII: TAB..CR, FS..US and the blank. *)
Definition is_space (c : ascii) : bool := in_range 9 13 c || in_range 28 32 c.

(** C's [isspace], which [float] and [int] use on ASCII input. *)
Definition is_cspace (c : ascii) : bool := in_range 9 13 c || (code c =? 32)%N.

Definition upper_char (c : ascii) : ascii :=
  if in_range 97 122 c then ascii_of_N (code c - 32) else c.

Definition lower_char (c : ascii) : ascii :=
  if in_range 65 90 c then ascii_of_N (code c + 32) else c.

Fixpoint map_chars (f : ascii -> ascii) (s : string) : string :=
  match s with
  | EmptyString => EmptyString
  | String c r => String (f c) (map_chars f r)
  end.

Definition upper : string -> string := map_chars upper_char.
Definition lower : string -> string := map_chars lower_char.

Definition is_empty (s : string) : bool :=
  match s with EmptyString => true | _ => false end.

Fixpoint lstrip_with (p : ascii -> bool) (s : string) : string :=
  match s with
  | EmptyString => EmptyString
  | String c r => if p c then lstrip_with p r else s
  end.

Fixpoint rstrip_with (p : ascii -> bool) (s : string) : string :=
  match s with
  | EmptyString => EmptyString
  | String c r =>
      match rstrip_with p r with
      | EmptyString => if p c then EmptyString else String c EmptyString
      | r' => String c r'
      end
  end.

(** [s.strip()] *)
Definition strip (s : string) : string := lstrip_with is_space (rstrip_with is_space s).

(** [s.rstrip("\n")] *)
Definition rstrip_nl (s : string) : string := rstrip_with (Ascii.eqb newline) s.

(** [s.split(sep)] for a one-character separator: never empty. *)
Fixpoint split (sep : ascii) (s : string) : list string :=
  match s with
  | EmptyString => [EmptyString]
  | String c r =>
      if Ascii.eqb c sep then EmptyString :: split sep r
      else match split sep r with
           | f :: fs => String c f :: fs
           | [] => [String c EmptyString]
           end
  end.

(** [sep.join(xs)] *)
Fixpoint join (sep : string) (xs : list string) : string :=
  match xs with
  | [] => EmptyString
  | [x] => x
  | x :: rest => x ++ sep ++ join sep rest
  end.

(** [s[:n]] *)
Fixpoint take (n : nat) (s : string) : string :=
  match n, s with
  | S k, String c r => String c (take k r)
  | _, _ => EmptyString
  end.

(** [s[n:]] *)
Fixpoint drop (n : nat) (s : string) : string :=
  match n, s with
  | S k, String _ r => drop k r
  | _, _ => s
  end.

(** [s[:-1]] *)
Fixpoint init (s : string) : string :=
  match s with
  | EmptyString => EmptyString
  | String _ EmptyString => EmptyString
  | String c r => String c (init r)
  end.

(** [s[-1]], an [IndexError] on the empty string. *)
Fixpoint last (s : string) : outcome ascii :=
  match s with
  | EmptyString => Raised IndexError
  | String c EmptyString => Returned c
  | String _ r => last r
  end.

Fixpoint all_chars (p : ascii -> bool) (s : string) : bool :=
  match s with
  | EmptyString => true
  | String c r => p c && all_chars p r
  end.

(** [s.isdigit()]: every character a digit, and at least one. *)
Definition isdigit (s : string) : bool := negb (is_empty s) && all_chars is_digit s.

Fixpoint mem (c : ascii) (s : string) : bool :=
  match s with
  | EmptyString => false
  | String d r => Ascii.eqb c d || mem c r
  end.

(** The lines a text file yields when iterated: each keeps its ["\n"];
    only the last may lack one. *)
Fixpoint readlines (s : string) : list string :=
  match s with
  | EmptyString => []
  | String c r =>
      if Ascii.eqb c newline then String c EmptyString :: readlines r
      else match readlines r with
           | [] => [String c EmptyString]
           | l :: ls => String c l :: ls
           end
  end.

(** [xs[-n:]] *)
Definition last_n {A : Type} (n : nat) (xs : list A) : list A :=
  skipn (List.length xs - n) xs.

(** [xs[i]] for [i >= 0]. *)
Definition index {A : Type} (xs : list A) (i : nat) : outcome A :=
  match nth_error xs i with
  | Some x => Returned x
  | None => Raised IndexError
  end.

End PyStr.

(** ** Python floats: binary64 *)

Module PyFloat.
Import PyStr.

Definition prec : Z := 53.
Definition emax : Z := 1024.

Definition float : Type := spec_float.

Definition nan : float := S754_nan.
Definition neg : float -> float := SFopp.
Definition mul : float -> float -> float := SFmul prec emax.
Definition add : float -> float -> float := SFadd prec emax.
(** Python's [==] on floats. *)
Definition eqb : float -> float -> bool := SFeqb.

Definition is_nan (v : float) : bool :=
  match v with S754_nan => true | _ => false end.

(** The binary64 nearest to [m * 10^e], ties to even: the value
    [strtod] computes from the digits of a decimal numeral. *)
Definition magnitude (m : N) (e : Z) : float :=
  match m with
  | N0 => S754_zero false
  | Npos p =>
      if 0 <=? e
      then binary_normalize prec emax (Zpos p * 10 ^ e) 0 false
      else
        let '(q, e', l) := SFdiv_core_binary prec emax (Zpos p) 0 (10 ^ (- e)) 0 in
        binary_round_aux prec emax false q e' l
  end.

Definition of_decimal (sign : bool) (m : N) (e : Z) : float :=
  if sign then neg (magnitude m e) else magnitude m e.

Definition digit_value (c : ascii) : N := (code c - 48)%N.

Fixpoint digits_value_from (acc : N) (s : string) : N :=
  match s with
  | EmptyString => acc
  | String c r => digits_value_from (10 * acc + digit_value c)%N r
  end.

Definition digits_value (s : string) : N := digits_value_from 0%N s.

Fixpoint span_digits (s : string) : string * string :=
  match s with
  | EmptyString => (EmptyString, EmptyString)
  | String c r =>
      if is_digit c
      then let (ds, rest) := span_digits r in (String c ds, rest)
      else (EmptyString, s)
  end.

Definition underscore : ascii := "_"%char.

(** PEP 515: an underscore is legal only between two digits. *)
Fixpoint drop_underscores (prev : ascii) (s : string) : option string :=
  match s with
  | EmptyString => if Ascii.eqb prev underscore then None else Some EmptyString
  | String c r =>
      if Ascii.eqb c underscore
      then if is_digit prev then drop_underscores c r else None
      else if Ascii.eqb prev underscore && negb (is_digit c) then None
           else option_map (String c) (drop_underscores c r)
  end.

Definition without_underscores (s : string) : option string :=
  if mem underscore s then drop_underscores "000"%char s else Some s.

Definition cstrip (s : string) : string :=
  lstrip_with is_cspace (rstrip_with is_cspace s).

Definition parse_sign (s : string) : bool * string :=
  match s with
  | String "-" r => (true, r)
  | String "+" r => (false, r)
  | _ => (false, s)
  end.

(** An exponent needs a digit; otherwise the ["e"] is left unread. *)
Definition parse_exponent (s : string) : Z * string :=
  match s with
  | String c r =>
      if Ascii.eqb (lower_char c) "e"
      then
        let (sg, r1) := parse_sign r in
        let (ds, r2) := span_digits r1 in
        if is_empty ds then (0, s)
        else ((if sg then - Z.of_N (digits_value ds) else Z.of_N (digits_value ds)), r2)
      else (0, s)
  | EmptyString => (0, s)
  end.

(** [strtod]: sign, digits, optional point and digits, optional exponent. *)
Definition parse_decimal (s : string) : option (float * string) :=
  let (sg, s1) := parse_sign s in
  let (ip, s2) := span_digits s1 in
  let (fp, s3) :=
    match s2 with
    | String "." r => span_digits r
    | _ => (EmptyString, s2)
    end in
  if is_empty ip && is_empty fp then None
  else
    let (ex, s4) := parse_exponent s3 in
    Some (of_decimal sg (digits_value (ip ++ fp)) (ex - Z.of_nat (String.length fp)), s4).

(** ["inf"], ["infinity"], ["nan"], signed, in any case. *)
Definition parse_inf_or_nan (s : string) : option (float * string) :=
  let (sg, s1) := parse_sign s in
  if String.eqb (lower (take 3 s1)) "inf"
  then
    let s2 := drop 3 s1 in
    Some (S754_infinity sg,
          if String.eqb (lower (take 5 s2)) "inity" then drop 5 s2 else s2)
  else if String.eqb (lower (take 3 s1)) "nan"
       then Some (S754_nan, drop 3 s1)
       else None.

Definition parse_float (s : string) : option float :=
  match parse_decimal s with
  | Some (v, rest) => if is_empty rest then Some v else None
  | None =>
      match parse_inf_or_nan s with
      | Some (v, rest) => if is_empty rest then Some v else None
      | None => None
      end
  end.

(** [float(s)] *)
Definition of_string (s : string) : outcome float :=
  match without_underscores s with
  | None => Raised ValueError
  | Some t =>
      match parse_float (cstrip t) with
      | Some v => Returned v
      | None => Raised ValueError
      end
  end.

(** *** The format [6.2f] *)

Definition digit_char (n : N) : ascii := ascii_of_N (48 + n).

Definition string_of_N (n : N) : string := NilZero.string_of_uint (N.to_uint n).

(** [num / den] to the nearest integer, ties to even. *)
Definition round_half_even (num den : Z) : Z :=
  let q := num / den in
  match (2 * (num mod den)) ?= den with
  | Lt => q
  | Gt => q + 1
  | Eq => if Z.even q then q else q + 1
  end.

(** [m * 2^e] in hundredths, correctly rounded. *)
Definition hundredths (m : positive) (e : Z) : N :=
  Z.to_N (if 0 <=? e then Zpos m * 2 ^ e * 100
          else round_half_even (Zpos m * 100) (2 ^ (- e))).

Definition fixed2 (h : N) : string :=
  string_of_N (h / 100)
  ++ String "." (String (digit_char ((h / 10) mod 10)) (String (digit_char (h mod 10)) EmptyString)).

Definition sign_prefix (s : bool) : string := if s then "-" else "".

(** [format(v, ".2f")] *)
Definition format_2f (v : float) : string :=
  match v with
  | S754_nan => "nan"
  | S754_infinity s => sign_prefix s ++ "inf"
  | S754_zero s => sign_prefix s ++ "0.00"
  | S754_finite s m e => sign_prefix s ++ fixed2 (hundredths m e)
  end.

Fixpoint spaces (n : nat) : string :=
  match n with
  | O => EmptyString
  | S k => String " " (spaces k)
  end.

(** Right-aligned in a field of [w] characters. *)
Definition pad_left (w : nat) (s : string) : string :=
  spaces (w - String.length s) ++ s.

(** [f"{v:6.2f}"] *)
Definition format_6_2f (v : float) : string := pad_left 6 (format_2f v).

End PyFloat.

(** ** Python integers from text, calendar dates *)

Module PyInt.
Import PyStr.

(** [int(s)] in base ten: blanks around, a sign, digits with single
    underscores between them. *)
Definition of_string (s : string) : outcome Z :=
  let (sg, body) := PyFloat.parse_sign (PyFloat.cstrip s) in
  match PyFloat.drop_underscores "000"%char body with
  | Some ds =>
      if isdigit ds
      then Returned (if sg then - Z.of_N (PyFloat.digits_value ds)
                     else Z.of_N (PyFloat.digits_value ds))
      else Raised ValueError
  | None => Raised ValueError
  end.

End PyInt.

Module PyDate.
Import PyStr.

Record date : Type := { year : Z; month : Z; day : Z }.

Definition MINYEAR : Z := 1.
Definition MAXYEAR : Z := 9999.
Definition MAXORDINAL : Z := 3652059.

Definition is_leap (y : Z) : bool :=
  (y mod 4 =? 0) && (negb (y mod 100 =? 0) || (y mod 400 =? 0)).

Definition days_in_month (y m : Z) : Z :=
  if m =? 2 then (if is_leap y then 29 else 28)
  else if (m =? 4) || (m =? 6) || (m =? 9) || (m =? 11) then 30
  else 31.

Definition days_before_year (y : Z) : Z :=
  let p := y - 1 in p * 365 + p / 4 - p / 100 + p / 400.

(** Days of a non-leap year before the first of month [m]. *)
Definition DAYS_BEFORE_MONTH (m : Z) : Z :=
  match m with
  | 1 => 0 | 2 => 31 | 3 => 59 | 4 => 90 | 5 => 120 | 6 => 151
  | 7 => 181 | 8 => 212 | 9 => 243 | 10 => 273 | 11 => 304 | 12 => 334
  | _ => 0
  end.

Definition DAYS_IN_MONTH (m : Z) : Z :=
  match m with
  | 2 => 28
  | 4 | 6 | 9 | 11 => 30
  | _ => 31
  end.

Definition days_before_month (y m : Z) : Z :=
  DAYS_BEFORE_MONTH m + (if (2 <? m) && is_leap y then 1 else 0).

(** [date.toordinal()]: 1 for 0001-01-01. *)
Definition toordinal (d : date) : Z :=
  days_before_year (year d) + days_before_month (year d) (month d) + day d.

(** [date.fromordinal(n)], for [1 <= n <= MAXORDINAL]. *)
Definition fromordinal (ord : Z) : date :=
  let n := ord - 1 in
  let n400 := n / 146097 in
  let n := n mod 146097 in
  let y := n400 * 400 + 1 in
  let n100 := n / 36524 in
  let n := n mod 36524 in
  let n4 := n / 1461 in
  let n := n mod 1461 in
  let n1 := n / 365 in
  let n := n mod 365 in
  let y := y + n100 * 100 + n4 * 4 + n1 in
  if (n1 =? 4) || (n100 =? 4)
  then {| year := y - 1; month := 12; day := 31 |}
  else
    let leapyear := (n1 =? 3) && (negb (n4 =? 24) || (n100 =? 3)) in
    let m := Z.shiftr (n + 50) 5 in
    let preceding := DAYS_BEFORE_MONTH m + (if (2 <? m) && leapyear then 1 else 0) in
    if n <? preceding
    then
      let m' := m - 1 in
      let preceding' :=
        preceding - (DAYS_IN_MONTH m' + (if (m' =? 2) && leapyear then 1 else 0)) in
      {| year := y; month := m'; day := n - preceding' + 1 |}
    else {| year := y; month := m; day := n - preceding + 1 |}.

(** [d + timedelta(days=off)] *)
Definition add_days (d : date) (off : Z) : outcome date :=
  let o := toordinal d + off in
  if (0 <? o) && (o <=? MAXORDINAL) then Returned (fromordinal o)
  else Raised OverflowError.

(** [datetime(y, m, d)]: the constructor's range checks. *)
Definition make (y m d : Z) : outcome date :=
  if (MINYEAR <=? y) && (y <=? MAXYEAR) && (1 <=? m) && (m <=? 12)
     && (1 <=? d) && (d <=? days_in_month y m)
  then Returned {| year := y; month := m; day := d |}
  else Raised ValueError.

Definition dval (c : ascii) : Z := Z.of_N (PyFloat.digit_value c).

(** The directive [%m], the regular expression [1[0-2]|0[1-9]|[1-9]]:
    every way it can match at the head of [s], in the order the
    matcher tries them. *)
Definition month_matches (s : string) : list (Z * string) :=
  match s with
  | String a r =>
      (match r with
       | String b r' =>
           (if Ascii.eqb a "1" && in_range 48 50 b then [(10 + dval b, r')] else [])
           ++ (if Ascii.eqb a "0" && in_range 49 57 b then [(dval b, r')] else [])
       | EmptyString => []
       end)
      ++ (if in_range 49 57 a then [(dval a, r)] else [])
  | EmptyString => []
  end.

(** The directive [%d]: [3[0-1]|[1-2]\d|0[1-9]|[1-9]| [1-9]]. *)
Definition day_matches (s : string) : list (Z * string) :=
  match s with
  | String a r =>
      (match r with
       | String b r' =>
           (if Ascii.eqb a "3" && in_range 48 49 b then [(30 + dval b, r')] else [])
           ++ (if in_range 49 50 a && is_digit b then [(10 * dval a + dval b, r')] else [])
           ++ (if Ascii.eqb a "0" && in_range 49 57 b then [(dval b, r')] else [])
       | EmptyString => []
       end)
      ++ (if in_range 49 57 a then [(dval a, r)] else [])
      ++ (match r with
          | String b r' =>
              if Ascii.eqb a " " && in_range 49 57 b then [(dval b, r')] else []
          | EmptyString => []
          end)
  | EmptyString => []
  end.

(** [datetime.strptime(s, "%Y%m%d")]: four digits of year, then the
    first month and day alternatives that match; what is left over
    must be empty. *)
Definition strptime (s : string) : outcome date :=
  let y := take 4 s in
  if (String.length y =? 4)%nat && all_chars is_digit y
  then
    match flat_map (fun mr => map (fun dr => (fst mr, fst dr, snd dr)) (day_matches (snd mr)))
                   (month_matches (drop 4 s)) with
    | (m, d, rest) :: _ =>
        if is_empty rest then make (Z.of_N (PyFloat.digits_value y)) m d
        else Raised ValueError
    | [] => Raised ValueError
    end
  else Raised ValueError.

Definition dchar (n : Z) : ascii := PyFloat.digit_char (Z.to_N (n mod 10)).

Definition pad2 (n : Z) : string :=
  String (dchar (n / 10)) (String (dchar n) EmptyString).

Definition pad4 (n : Z) : string :=
  String (dchar (n / 1000)) (String (dchar (n / 100)) (pad2 n)).

(** [%Y] as the C library of Linux writes it: the year in decimal
    without padding, so that a year below 1000 has fewer than four
    digits ([0999-12-31] gives ["9991231"]). *)
Definition year_text (y : Z) : string :=
  if y <? 1000 then PyFloat.string_of_N (Z.to_N y) else pad4 y.

(** [d.strftime("%Y%m%d")] *)
Definition strftime (d : date) : string :=
  year_text (year d) ++ pad2 (month d) ++ pad2 (day d).

End PyDate.

(** ** The raster service and the file system *)

Module EE.
Import PyFloat.

Definition image : Type := nat.

Record point : Type := { point_lon : float; point_lat : float }.

(** What the program sees of the Earth Engine client, call by call.
    [first_image c y m d] stands for
    [ee.ImageCollection(c).filterDate(d0, d0.advance(1, "day")).first()]
    with [d0 = ee.Date.fromYMD(y, m, d)];
    [cell_value img band pt] for
    [img.select(band).reduceRegion(ee.Reducer.first(), pt, scale=20_000).get(band)]
    once evaluated, [None] being a masked cell. *)
Record client : Type := {
  initialize : outcome unit;
  first_image : string -> Z -> Z -> Z -> outcome (option image);
  make_point : float -> float -> outcome point;
  cell_value : image -> string -> point -> outcome (option float)
}.

(** [ee.Number(val)...getInfo()]: arithmetic on a null value is an error. *)
Definition number (val : option float) : outcome float :=
  match val with
  | Some raw => Returned raw
  | None => Raised (EEException "Parameter 'left' is required")
  end.

End EE.

(** [except Exception] lets [SystemExit] through. *)
Definition is_Exception (e : exn) : bool :=
  match e with
  | SystemExit _ => false
  | _ => true
  end.

(** [try: body except Exception: handler] *)
Definition try_except {A : Type} (body : outcome A) (handler : outcome A) : outcome A :=
  match body with
  | Returned a => Returned a
  | Raised e => if is_Exception e then handler else Raised e
  end.

Module FS.
Import PyStr.

(** A resolved absolute path, component by component. *)
Definition path : Type := list string.

Definition path_eqb (p q : path) : bool :=
  if list_eq_dec string_dec p q then true else false.

Record world : Type := {
  files : path -> option string;
  dirs : path -> bool
}.

Definition is_file (w : world) (p : path) : bool :=
  match files w p with Some _ => true | None => false end.

(** [p.parent] *)
Definition parent (p : path) : path := removelast p.

(** [p.name] *)
Definition name (p : path) : string := List.last p EmptyString.

(** The text before and after the last ["."] of a name. *)
Fixpoint rsplit_dot (s : string) : option (string * string) :=
  match s with
  | EmptyString => None
  | String c r =>
      match rsplit_dot r with
      | Some (b, a) => Some (String c b, a)
      | None => if Ascii.eqb c "." then Some (EmptyString, r) else None
      end
  end.

(** [p.stem] *)
Definition stem (p : path) : string :=
  match rsplit_dot (name p) with
  | Some (b, a) => if is_empty b || is_empty a then name p else b
  | None => name p
  end.

Fixpoint prefixes (p : path) : list path :=
  match p with
  | [] => [[]]
  | c :: r => [] :: map (cons c) (prefixes r)
  end.

(** [p.mkdir(parents=True, exist_ok=True)] *)
Definition mkdir_p (w : world) (p : path) : outcome world :=
  if existsb (is_file w) (prefixes p) then Raised FileExistsError
  else Returned {| files := files w;
                   dirs := fun q => dirs w q || existsb (path_eqb q) (prefixes p) |}.

(** [with p.open("w") as f: f.write(text)] *)
Definition write_text (w : world) (p : path) (text : string) : world :=
  {| files := fun q => if path_eqb q p then Some text else files w q;
     dirs := dirs w |}.

End FS.

(** ** Shared pieces of the tools *)

(** A matcher for [\d{n}] followed by what [k] accepts. *)
Fixpoint digits_then (n : nat) (k : string -> bool) (s : string) : bool :=
  match n with
  | O => k s
  | S n' =>
      match s with
      | String c r => PyStr.is_digit c && digits_then n' k r
      | EmptyString => false
      end
  end.

Definition starts_with (c : ascii) (s : string) : bool :=
  match s with
  | String d _ => Ascii.eqb d c
  | EmptyString => false
  end.

(** [re.compile(r"^\d{8},").match(line)] *)
Definition date_line_match (line : string) : bool :=
  digits_then 8 (starts_with PyStr.comma) line.

(** [[p.strip() for p in line.split(",")]] *)
Definition fields (line : string) : list string :=
  map PyStr.strip (PyStr.split PyStr.comma line).

(** [range(-15, 16)] *)
Definition window : list Z := map (fun k => Z.of_nat k - 15) (seq 0 31).

Record row : Type := {
  raw : string;
  ymd : string;
  lat : PyFloat.float;
  lon : PyFloat.float
}.

Definition headers_of (items : list (string + row)) : list string :=
  flat_map (fun it => match it with inl h => [h] | inr _ => [] end) items.

Definition rows_of (items : list (string + row)) : list row :=
  flat_map (fun it => match it with inl _ => [] | inr r => [r] end) items.

Definition lines_text (ls : list string) : string :=
  fold_right (fun l acc => l ++ String PyStr.newline acc) EmptyString ls.

(** The literals [0.01], [0.001] and [20] as binary64 values. *)
Definition f_0_01 : PyFloat.float := Eval vm_compute in PyFloat.of_decimal false 1 (-2).
Definition f_0_001 : PyFloat.float := Eval vm_compute in PyFloat.of_decimal false 1 (-3).
Definition f_20 : PyFloat.float := Eval vm_compute in PyFloat.of_decimal false 20 0.
Definition f_0 : PyFloat.float := S754_zero false.

(** ** single_TC/extract_sst.py *)

Module ExtractSST.
Import PyStr PyFloat.

Definition parse_latlon (token : string) : outcome float :=
  v <- PyFloat.of_string (init token) ;;
  c <- last token ;;
  let hemi := upper_char c in
  Returned (if Ascii.eqb hemi "N" || Ascii.eqb hemi "E" then v else neg v).

Definition get_daily_sst (ee : EE.client) (imgcol : string) (ymd : string)
    (lon lat : float) : outcome float :=
  y <- PyInt.of_string (take 4 ymd) ;;
  m <- PyInt.of_string (take 2 (drop 4 ymd)) ;;
  d <- PyInt.of_string (drop 6 ymd) ;;
  img <- EE.first_image ee imgcol y m d ;;
  match img with
  | None => Returned nan
  | Some im =>
      pt <- EE.make_point ee lon lat ;;
      try_except
        (val <- EE.cell_value ee im "sst" pt ;;
         raw <- EE.number val ;;
         Returned (mul raw f_0_01))
        (Returned nan)
  end.

Definition oisst : string := "NOAA/CDR/OISST/V2_1".

(** The body of the reading loop, for one line of the file. *)
Definition read_line (line : string) : outcome (string + row) :=
  if date_line_match line
  then
    let parts := fields line in
    p0 <- index parts 0 ;;
    p4 <- index parts 4 ;;
    la <- parse_latlon p4 ;;
    p5 <- index parts 5 ;;
    lo <- parse_latlon p5 ;;
    Returned (inr {| raw := rstrip_nl line; ymd := p0; lat := la; lon := lo |})
  else Returned (inl (rstrip_nl line)).

Definition sst_window (ee : EE.client) (r : row) : outcome (list float) :=
  base <- PyDate.strptime (ymd r) ;;
  for_each (fun off =>
              d <- PyDate.add_days base off ;;
              get_daily_sst ee oisst (PyDate.strftime d) (lon r) (lat r))
           window.

(** [df[sst_cols] = df.apply(sst_window, axis=1, result_type="expand")]:
    on a frame without rows [apply] hands back the empty frame and the
    assignment of its zero columns to 31 keys is a [ValueError]. *)
Definition sample_rows (ee : EE.client) (rows : list row) : outcome (list (list float)) :=
  match rows with
  | [] => Raised ValueError
  | _ => for_each (sst_window ee) rows
  end.

Definition fix_line (r : row) (vals : list float) : string :=
  raw r ++ ", " ++ join ", " (map format_6_2f vals).

Definition output_text (header : list string) (rows : list row)
    (cols : list (list float)) : string :=
  lines_text (header ++ map (fun rc => fix_line (fst rc) (snd rc)) (combine rows cols)).

Definition out_dir (in_path : FS.path) : FS.path :=
  (FS.parent (FS.parent in_path) ++ ["t_data"])%list.

Definition out_file (in_path : FS.path) : FS.path :=
  (out_dir in_path ++ [(FS.stem in_path ++ "_SST.txt")%string])%list.

(** Everything between [ee.Initialize()] and the opening of the output. *)
Definition extract (ee : EE.client) (text : string) : outcome string :=
  _ <- EE.initialize ee ;;
  items <- for_each read_line (readlines text) ;;
  cols <- sample_rows ee (rows_of items) ;;
  Returned (output_text (headers_of items) (rows_of items) cols).

(** [main(infile)] on the resolved path, up to the writing of the output.
    The lines after it, which print where the output went, read and
    change no file, and are taken to return; the message of
    [SystemExit], which in the code names the argument as typed, is
    cut down to its last words. *)
Definition main (ee : EE.client) (in_path : FS.path) (w : FS.world)
    : FS.world * outcome unit :=
  match FS.files w in_path with
  | None => (w, Raised (SystemExit "not found"))
  | Some text =>
      match FS.mkdir_p w (out_dir in_path) with
      | Raised e => (w, Raised e)
      | Returned w1 =>
          match extract ee text with
          | Raised e => (w1, Raised e)
          | Returned out => (FS.write_text w1 (out_file in_path) out, Returned tt)
          end
      end
  end.

End ExtractSST.

(** ** single_TC/extract_HYCOM_sst.py *)

Module ExtractHYCOM.
Import PyStr PyFloat.

Definition parse_latlon (token : string) : outcome float :=
  v <- PyFloat.of_string (init token) ;;
  c <- last token ;;
  let hemi := upper_char c in
  Returned (if Ascii.eqb hemi "N" || Ascii.eqb hemi "E" then v else neg v).

Definition get_daily_water_temp (ee : EE.client) (imgcol : string) (ymd : string)
    (lon lat : float) : outcome float :=
  y <- PyInt.of_string (take 4 ymd) ;;
  m <- PyInt.of_string (take 2 (drop 4 ymd)) ;;
  d <- PyInt.of_string (drop 6 ymd) ;;
  img <- EE.first_image ee imgcol y m d ;;
  match img with
  | None => Returned nan
  | Some im =>
      pt <- EE.make_point ee lon lat ;;
      try_except
        (val <- EE.cell_value ee im "water_temp_0" pt ;;
         raw <- EE.number val ;;
         Returned (add (mul raw f_0_001) f_20))
        (Returned nan)
  end.

Definition hycom : string := "HYCOM/sea_temp_salinity".

Definition read_line (line : string) : outcome (string + row) :=
  if date_line_match line
  then
    let parts := fields line in
    p0 <- index parts 0 ;;
    p4 <- index parts 4 ;;
    la <- parse_latlon p4 ;;
    p5 <- index parts 5 ;;
    lo <- parse_latlon p5 ;;
    Returned (inr {| raw := rstrip_nl line; ymd := p0; lat := la; lon := lo |})
  else Returned (inl (rstrip_nl line)).

Definition temp_window (ee : EE.client) (r : row) : outcome (list float) :=
  base <- PyDate.strptime (ymd r) ;;
  for_each (fun off =>
              d <- PyDate.add_days base off ;;
              get_daily_water_temp ee hycom (PyDate.strftime d) (lon r) (lat r))
           window.

Definition sample_rows (ee : EE.client) (rows : list row) : outcome (list (list float)) :=
  match rows with
  | [] => Raised ValueError
  | _ => for_each (temp_window ee) rows
  end.

Definition fix_line (r : row) (vals : list float) : string :=
  raw r ++ ", " ++ join ", " (map format_6_2f vals).

Definition output_text (header : list string) (rows : list row)
    (cols : list (list float)) : string :=
  lines_text (header ++ map (fun rc => fix_line (fst rc) (snd rc)) (combine rows cols)).

Definition out_dir (in_path : FS.path) : FS.path :=
  (FS.parent (FS.parent in_path) ++ ["t_data"])%list.

Definition out_file (in_path : FS.path) : FS.path :=
  (out_dir in_path ++ [(FS.stem in_path ++ "_HYCOM.txt")%string])%list.

Definition extract (ee : EE.client) (text : string) : outcome string :=
  _ <- EE.initialize ee ;;
  items <- for_each read_line (readlines text) ;;
  cols <- sample_rows ee (rows_of items) ;;
  Returned (output_text (headers_of items) (rows_of items) cols).

(** [main(infile)] on the resolved path, up to the writing of the output.
    The lines after it, which print where the output went, read and
    change no file, and are taken to return; the message of
    [SystemExit], which in the code names the argument as typed, is
    cut down to its last words. *)
Definition main (ee : EE.client) (in_path : FS.path) (w : FS.world)
    : FS.world * outcome unit :=
  match FS.files w in_path with
  | None => (w, Raised (SystemExit "not found"))
  | Some text =>
      match FS.mkdir_p w (out_dir in_path) with
      | Raised e => (w, Raised e)
      | Returned w1 =>
          match extract ee text with
          | Raised e => (w1, Raised e)
          | Returned out => (FS.write_text w1 (out_file in_path) out, Returned tt)
          end
      end
  end.

End ExtractHYCOM.

(** ** The two extractors as one pipeline under a configuration *)

Module Pipeline.
Import PyStr PyFloat.

Record config : Type := {
  collection : string;
  band : string;
  rescale : float -> float;
  suffix : string
}.

Definition oisst_config : config :=
  {| collection := "NOAA/CDR/OISST/V2_1";
     band := "sst";
     rescale := fun raw => mul raw f_0_01;
     suffix := "_SST.txt" |}.

Definition hycom_config : config :=
  {| collection := "HYCOM/sea_temp_salinity";
     band := "water_temp_0";
     rescale := fun raw => add (mul raw f_0_001) f_20;
     suffix := "_HYCOM.txt" |}.

Definition parse_latlon (token : string) : outcome float :=
  v <- PyFloat.of_string (init token) ;;
  c <- last token ;;
  let hemi := upper_char c in
  Returned (if Ascii.eqb hemi "N" || Ascii.eqb hemi "E" then v else neg v).

Section WithConfig.
Variable cfg : config.
Variable ee : EE.client.

Definition get_daily (ymd : string) (lon lat : float) : outcome float :=
  y <- PyInt.of_string (take 4 ymd) ;;
  m <- PyInt.of_string (take 2 (drop 4 ymd)) ;;
  d <- PyInt.of_string (drop 6 ymd) ;;
  img <- EE.first_image ee (collection cfg) y m d ;;
  match img with
  | None => Returned nan
  | Some im =>
      pt <- EE.make_point ee lon lat ;;
      try_except
        (val <- EE.cell_value ee im (band cfg) pt ;;
         raw <- EE.number val ;;
         Returned (rescale cfg raw))
        (Returned nan)
  end.

Definition read_line (line : string) : outcome (string + row) :=
  if date_line_match line
  then
    let parts := fields line in
    p0 <- index parts 0 ;;
    p4 <- index parts 4 ;;
    la <- parse_latlon p4 ;;
    p5 <- index parts 5 ;;
    lo <- parse_latlon p5 ;;
    Returned (inr {| raw := rstrip_nl line; ymd := p0; lat := la; lon := lo |})
  else Returned (inl (rstrip_nl line)).

Definition sample_window (r : row) : outcome (list float) :=
  base <- PyDate.strptime (ymd r) ;;
  for_each (fun off =>
              d <- PyDate.add_days base off ;;
              get_daily (PyDate.strftime d) (lon r) (lat r))
           window.

Definition sample_rows (rows : list row) : outcome (list (list float)) :=
  match rows with
  | [] => Raised ValueError
  | _ => for_each sample_window rows
  end.

Definition fix_line (r : row) (vals : list float) : string :=
  raw r ++ ", " ++ join ", " (map format_6_2f vals).

Definition output_text (header : list string) (rows : list row)
    (cols : list (list float)) : string :=
  lines_text (header ++ map (fun rc => fix_line (fst rc) (snd rc)) (combine rows cols)).

Definition out_dir (in_path : FS.path) : FS.path :=
  (FS.parent (FS.parent in_path) ++ ["t_data"])%list.

Definition out_file (in_path : FS.path) : FS.path :=
  (out_dir in_path ++ [(FS.stem in_path ++ suffix cfg)%string])%list.

Definition extract (text : string) : outcome string :=
  _ <- EE.initialize ee ;;
  items <- for_each read_line (readlines text) ;;
  cols <- sample_rows (rows_of items) ;;
  Returned (output_text (headers_of items) (rows_of items) cols).

(** [main] of either script, up to the writing of the output (the lines
    after it are taken to return, and the message of [SystemExit] is cut
    down, as above). *)
Definition main (in_path : FS.path) (w : FS.world) : FS.world * outcome unit :=
  match FS.files w in_path with
  | None => (w, Raised (SystemExit "not found"))
  | Some text =>
      match FS.mkdir_p w (out_dir in_path) with
      | Raised e => (w, Raised e)
      | Returned w1 =>
          match extract text with
          | Raised e => (w1, Raised e)
          | Returned out => (FS.write_text w1 (out_file in_path) out, Returned tt)
          end
      end
  end.

End WithConfig.

End Pipeline.

(** ** find_mixed_missing_sst.py *)

Module FindMixed.
Import PyStr.

Definition MISSING_STRINGS : list string := ["nan"; ""; "-999"].

Definition is_missing (tok : string) : bool :=
  existsb (String.eqb (lower (strip tok))) MISSING_STRINGS.

(** [any(mask)] and [all(mask)] *)
Definition any (mask : list bool) : bool := existsb (fun b => b) mask.
Definition all (mask : list bool) : bool := forallb (fun b => b) mask.

(** The body of the loop of [mixed_rows]: is the line yielded? *)
Definition yields (line : string) : bool :=
  if negb (date_line_match line) then false
  else
    let parts := fields line in
    if (List.length parts <? 31)%nat then false
    else
      let sst_tokens := last_n 31 parts in
      let miss_mask := map is_missing sst_tokens in
      any miss_mask && negb (all miss_mask).

Fixpoint mixed_rows_from (lineno : nat) (lines : list string) : list (nat * string) :=
  match lines with
  | [] => []
  | line :: rest =>
      if yields line
      then (lineno, rstrip_nl line) :: mixed_rows_from (S lineno) rest
      else mixed_rows_from (S lineno) rest
  end.

(** [mixed_rows(path)] on the text of the file. *)
Definition mixed_rows (text : string) : list (nat * string) :=
  mixed_rows_from 1 (readlines text).

End FindMixed.

(** ** The line tests of the read-only tools *)

(** [count_tc_types.py], [count_tc_status.py], [plot_sst_window.py],
    [plot_sst_diff_pdfs.py]: a line goes on when [re.match(r"^\d{8},", line)]. *)
Module Aggregators.
Definition keeps_line (line : string) : bool := date_line_match line.
End Aggregators.

(** [plot_single_track_sst.py]: a line goes on when [line[:8].isdigit()]. *)
Module PlotSingleTrack.
Definition keeps_line (line : string) : bool := PyStr.isdigit (PyStr.take 8 line).

(** [len(parts) < 31] is the only other test before the numbers are read. *)
Definition reaches_conversion (line : string) : bool :=
  keeps_line line && negb (List.length (fields line) <? 31)%nat.
End PlotSingleTrack.

(** ** Notions of the specification *)

(** One of N, S, E, W, in either case. *)
Definition compass_letter (c : ascii) : bool :=
  existsb (Ascii.eqb (PyStr.upper_char c)) ["N"; "S"; "E"; "W"]%char.

Definition north_or_east (c : ascii) : bool :=
  existsb (Ascii.eqb (PyStr.upper_char c)) ["N"; "E"]%char.



(** The two parts of a track file, as texts without their line ends. *)
Definition header_lines (text : string) : list string :=
  map PyStr.rstrip_nl (filter (fun l => negb (date_line_match l)) (PyStr.readlines text)).


(** The first eight characters are digits and the ninth is a comma. *)
Definition eight_digits_then_comma (line : string) : Prop :=
  exists (d : string) (rest : string),
    String.length d = 8%nat /\ PyStr.all_chars PyStr.is_digit d = true
    /\ line = d ++ String PyStr.comma rest.

(** The fix of the end-to-end example. *)
Definition f_13_4 : PyFloat.float := Eval vm_compute in PyFloat.of_decimal false 134 (-1).
Definition f_82_7 : PyFloat.float := Eval vm_compute in PyFloat.of_decimal false 827 (-1).
Definition f_5 : PyFloat.float := Eval vm_compute in PyFloat.of_decimal false 5 0.
Definition f_500 : PyFloat.float := Eval vm_compute in PyFloat.of_decimal false 500 0.

Definition sample_fix : row :=
  {| raw := "19840901,AL,13,HU,13.4N,82.7W";
     ymd := "19840901";
     lat := f_13_4;
     lon := PyFloat.neg f_82_7 |}.

(** ** Further notions used by the statements *)

Import PyStr.

(** [v] is a number, not a NaN, and its sign bit is [s]. *)
Definition signed_as (s : bool) (v : spec_float) : Prop :=
  match v with
  | S754_nan => False
  | S754_zero s' | S754_infinity s' | S754_finite s' _ _ => s' = s
  end.



(** [s] fits on one line. *)
Definition no_newline (s : string) : Prop := mem newline s = false.

(** A line as the iteration yields it: text without a newline, then a
    newline unless the file ends there. *)
Definition line_shape (l : string) : Prop :=
  exists b, no_newline b /\ (l = b ++ String newline "" \/ l = b).

(** The 31 values of a fix are its samples at the offsets -15, ..., 15,
    in that order. *)
Definition window_in_order (sample : string -> PyFloat.float -> PyFloat.float
                                     -> outcome PyFloat.float)
    (r : row) (vals : list PyFloat.float) : Prop :=
  exists base,
    PyDate.strptime (ymd r) = Returned base
    /\ List.length vals = 31%nat
    /\ forall k, (k < 31)%nat ->
         exists d, PyDate.add_days base (Z.of_nat k - 15) = Returned d
                   /\ sample (PyDate.strftime d) (lon r) (lat r)
                      = Returned (nth k vals PyFloat.nan).




(** The first day whose year takes four digits on every platform. *)
Definition first_padded_day : PyDate.date :=
  {| PyDate.year := 1000; PyDate.month := 1; PyDate.day := 1 |}.

(** The date of the fix is a date, and the 31 days around it lie between
    1000-01-01 and 9999-12-31. *)
Definition window_dates_exist (r : row) : Prop :=
  exists base,
    PyDate.strptime (ymd r) = Returned base
    /\ PyDate.toordinal first_padded_day + 15 <= PyDate.toordinal base
    /\ PyDate.toordinal base + 15 <= PyDate.MAXORDINAL.

(** Checking a property of the integers below a bound by enumeration. *)
Definition returns_Z (o : outcome Z) (z : Z) : bool :=
  match o with Returned a => a =? z | Raised _ => false end.

Definition below (n : Z) : list Z := map Z.of_nat (seq 0 (Z.to_nat n)).

(** Clients, files and lines for the examples. *)
Definition here (lo la : PyFloat.float) : outcome EE.point :=
  Returned {| EE.point_lon := lo; EE.point_lat := la |}.

(** Every cell holds the raw value 500. *)
Definition constant_500 : EE.client :=
  {| EE.initialize := Returned tt;
     EE.first_image := fun _ _ _ _ => Returned (Some 0%nat);
     EE.make_point := here;
     EE.cell_value := fun _ _ _ => Returned (Some f_500) |}.


(** No image on the 1st of a month, an error on the 2nd, a masked cell
    on the 3rd, 500 otherwise. *)
Definition patchy : EE.client :=
  {| EE.initialize := Returned tt;
     EE.first_image := fun _ _ _ d =>
       Returned (if d =? 1 then None else Some (Z.to_nat d));
     EE.make_point := here;
     EE.cell_value := fun im _ _ =>
       match im with
       | 2%nat => Raised (EEException "reduceRegion")
       | 3%nat => Returned None
       | _ => Returned (Some f_500)
       end |}.

Definition one_file (p : FS.path) (text : string) : FS.world :=
  {| FS.files := fun q => if FS.path_eqb q p then Some text else None;
     FS.dirs := fun q => existsb (FS.path_eqb q) (FS.prefixes (FS.parent p)) |}.

Definition track_path : FS.path := ["data"; "single_TC"; "AL131984.txt"].

Definition track_text : string :=
  lines_text ["AL131984, LILI"; "19840901,AL,13,HU,13.4N,82.7W"].

Definition short_text : string := lines_text ["HEADER"; "19840901,AL,13,HU"].
Definition short_bad_text : string := lines_text ["19840901,AL,13,HU,xx"].

(** A run that ends in an exception and leaves every file as it was. *)
Definition aborts_without_output (run : FS.world * outcome unit) (w : FS.world) : Prop :=
  exists e, snd run = Raised e /\ forall q, FS.files (fst run) q = FS.files w q.

(** A client that answers every query with the same raw value. *)
Definition constant_source (ee : EE.client) (raw : PyFloat.float) : Prop :=
  EE.initialize ee = Returned tt
  /\ (forall c y m d, exists im, EE.first_image ee c y m d = Returned (Some im))
  /\ (forall lon lat, exists pt, EE.make_point ee lon lat = Returned pt)
  /\ (forall im band pt, EE.cell_value ee im band pt = Returned (Some raw)).

(** The fix line of the end-to-end example, up to its longitude. *)
Definition lili_fix : string := "19840901,AL,13,HU,13.4N,82.7W".

(** Nine digits, then the fields of a fix and a full window. *)
Definition nine_digit_line : string :=
  "198409010,AL,13,HU,13.4N,82.7W, " ++ join ", " (repeat "  5.00" 31).

(** The characters a formatted value is made of. *)
Definition format_char (c : ascii) : bool := is_digit c || mem c " -.nanif".

Definition point : ascii := "."%char.

(** ** count_tc_types.py, count_tc_status.py *)

(** [collections.Counter] over strings: keys in insertion order, a
    missing key counts 0. *)
Module Counter.

Definition t : Type := list (string * nat).

(** [counts[k]] *)
Definition get (c : t) (k : string) : nat :=
  match find (fun kv => String.eqb (fst kv) k) c with
  | Some kv => snd kv
  | None => 0%nat
  end.

(** [counts[k] += 1] *)
Fixpoint incr (c : t) (k : string) : t :=
  match c with
  | [] => [(k, 1%nat)]
  | (k', n) :: rest =>
      if String.eqb k' k then (k', S n) :: rest else (k', n) :: incr rest k
  end.

(** [sum(counts.values())] *)
Definition total (c : t) : nat := fold_right (fun kv acc => (snd kv + acc)%nat) 0%nat c.

(** One step of a stable sort by decreasing count: [kv] stood before
    everything in [sorted]. *)
Fixpoint insert_desc (kv : string * nat) (sorted : t) : t :=
  match sorted with
  | [] => [kv]
  | x :: rest =>
      if (snd kv <? snd x)%nat then x :: insert_desc kv rest else kv :: sorted
  end.

(** [counts.most_common()]:
    [sorted(counts.items(), key=itemgetter(1), reverse=True)]. *)
Definition most_common (c : t) : t := fold_right insert_desc [] c.

End Counter.

Module CountStatus.

(** The body of the loop of [accumulate_counts]. *)
Definition count_line (counts : Counter.t) (line : string) : Counter.t :=
  if negb (date_line_match line) then counts
  else
    let parts := fields line in
    if (4 <=? List.length parts)%nat && negb (PyStr.is_empty (nth 3 parts EmptyString))
    then Counter.incr counts (nth 3 parts EmptyString)
    else counts.

(** [accumulate_counts(path, counts)] on the text of the file. *)
Definition accumulate_counts (text : string) (counts : Counter.t) : Counter.t :=
  fold_left count_line (PyStr.readlines text) counts.

(** The counter [main] builds from the files of the directory, in the
    order [glob] yields them. *)
Definition count_all (texts : list string) : Counter.t :=
  fold_left (fun counts text => accumulate_counts text counts) texts [].

(** [f'{status:>3} : {n}'] *)
Definition count_row (kv : string * nat) : string :=
  PyFloat.pad_left 3 (fst kv) ++ " : " ++ PyFloat.string_of_N (N.of_nat (snd kv)).

(** What [main] of [count_tc_types.py] prints, line by line
    ([count_tc_status.py] prints the directory first). *)
Definition report (texts : list string) : list string :=
  let counts := count_all texts in
  let total := Counter.total counts in
  if (total =? 0)%nat then ["No status codes found."]
  else
    ("Tropical cyclone status counts:" :: map count_row (Counter.most_common counts))
    ++ ["--------------------"; "Total : " ++ PyFloat.string_of_N (N.of_nat total)].

End CountStatus.

(** ** plot_sst_window.py, plot_sst_diff_pdfs.py, plot_single_track_sst.py:
       the loaders *)

Module PlotWindows.

Definition VALID_STATUSES : list string := ["TS"; "HU"].

Section Numpy.

(** The conversion of one string by [np.array(..., dtype=float)];
    [None] stands for its [ValueError]. *)
Variable to_float : string -> option PyFloat.float.

(** [np.array(tokens, dtype=float)] *)
Fixpoint np_array (tokens : list string) : option (list PyFloat.float) :=
  match tokens with
  | [] => Some []
  | t :: rest =>
      match to_float t, np_array rest with
      | Some v, Some vs => Some (v :: vs)
      | _, _ => None
      end
  end.

(** The body of the loop of [load_windows] in [plot_sst_window.py] and
    [plot_sst_diff_pdfs.py]: the window appended for a line, if any. *)
Definition window_of_line (line : string) : option (list PyFloat.float) :=
  if negb (date_line_match line) then None
  else
    let parts := fields line in
    if (List.length parts <? 31)%nat
       || negb (existsb (String.eqb (nth 3 parts EmptyString)) VALID_STATUSES)
    then None
    else np_array (PyStr.last_n 31 parts).

(** The body of the loop of [load_windows] in [plot_single_track_sst.py]. *)
Definition single_window_of_line (line : string) : option (list PyFloat.float) :=
  if negb (PlotSingleTrack.keeps_line line) then None
  else
    let parts := fields line in
    if (List.length parts <? 31)%nat then None
    else np_array (PyStr.last_n 31 parts).

Definition windows_of (pick : string -> option (list PyFloat.float)) (text : string)
    : list (list PyFloat.float) :=
  flat_map (fun line => match pick line with Some w => [w] | None => [] end)
           (PyStr.readlines text).

(** [np.stack] of the rows, or [None] for the [RuntimeError] raised when
    there is none. *)
Definition stacked (rows : list (list PyFloat.float)) : option (list (list PyFloat.float)) :=
  match rows with
  | [] => None
  | _ => Some rows
  end.

(** [load_windows(t_data_dir)] on the texts of the [*_SST.txt] files,
    sorted by name. *)
Definition load_windows (texts : list string) : option (list (list PyFloat.float)) :=
  stacked (flat_map (windows_of window_of_line) texts).

(** [load_windows(txt_path)] of [plot_single_track_sst.py]. *)
Definition load_single (text : string) : option (list (list PyFloat.float)) :=
  stacked (windows_of single_window_of_line text).

End Numpy.

End PlotWindows.

(** The status a line adds to the tally, if it adds one. *)
Definition status_of (line : string) : option string :=
  if date_line_match line
     && (4 <=? List.length (fields line))%nat
     && negb (PyStr.is_empty (nth 3 (fields line) EmptyString))
  then Some (nth 3 (fields line) EmptyString)
  else None.

Definition counts_as (s : string) (line : string) : bool :=
  match status_of line with
  | Some s' => String.eqb s' s
  | None => false
  end.

Definition counted (line : string) : bool :=
  match status_of line with Some _ => true | None => false end.

(** The value of the token the writer makes of [v], as the scanner and
    the loaders cut it out of the line. *)
Definition written_token (v : PyFloat.float) : string :=
  PyStr.strip (String " " (PyFloat.format_6_2f v)).

Definition plotted_status (line : string) : bool :=
  existsb (String.eqb (nth 3 (fields line) EmptyString)) PlotWindows.VALID_STATUSES.

(** ** Calendar notions *)

(** The dates [datetime] can hold. *)
Definition valid_date (d : PyDate.date) : Prop :=
  1 <= PyDate.year d <= 9999 /\ 1 <= PyDate.month d <= 12
  /\ 1 <= PyDate.day d <= PyDate.days_in_month (PyDate.year d) (PyDate.month d).

(** The month and the day [date.fromordinal] finds for day [n] of a
    year, counted from 0. *)
Definition month_day (n : Z) (leapyear : bool) : Z * Z :=
  let m := Z.shiftr (n + 50) 5 in
  let preceding := PyDate.DAYS_BEFORE_MONTH m + (if (2 <? m) && leapyear then 1 else 0) in
  if n <? preceding
  then
    let m' := m - 1 in
    let preceding' :=
      preceding - (PyDate.DAYS_IN_MONTH m' + (if (m' =? 2) && leapyear then 1 else 0)) in
    (m', n - preceding' + 1)
  else (m, n - preceding + 1).

Definition year_length (leapyear : bool) : Z := if leapyear then 366 else 365.

Definition month_length (m : Z) (leapyear : bool) : Z :=
  PyDate.DAYS_IN_MONTH m + (if (m =? 2) && leapyear then 1 else 0).

Definition days_before (m : Z) (leapyear : bool) : Z :=
  PyDate.DAYS_BEFORE_MONTH m + (if (2 <? m) && leapyear then 1 else 0).

(** [month_day] inverts the count of the days before a date, on every
    day of a year. *)
Definition month_day_ok (leapyear : bool) (n : Z) : bool :=
  negb (n <? year_length leapyear)
  || (let md := month_day n leapyear in
      (1 <=? fst md) && (fst md <=? 12) && (1 <=? snd md)
      && (snd md <=? month_length (fst md) leapyear)
      && (days_before (fst md) leapyear + snd md =? n + 1)).

Definition day_month_ok (leapyear : bool) (m d : Z) : bool :=
  negb ((1 <=? m) && (1 <=? d) && (d <=? month_length m leapyear))
  || (let md := month_day (days_before m leapyear + d - 1) leapyear in
      (fst md =? m) && (snd md =? d)
      && (0 <=? days_before m leapyear + d - 1)
      && (days_before m leapyear + d - 1 <? year_length leapyear)).

(** What [get_daily_sst] does once it has the day [d0] as three
    integers. *)
Definition sample_at (cfg : Pipeline.config) (ee : EE.client) (y m d : Z)
    (lon lat : PyFloat.float) : outcome PyFloat.float :=
  img <- EE.first_image ee (Pipeline.collection cfg) y m d ;;
  match img with
  | None => Returned PyFloat.nan
  | Some im =>
      pt <- EE.make_point ee lon lat ;;
      try_except
        (val <- EE.cell_value ee im (Pipeline.band cfg) pt ;;
         raw <- EE.number val ;;
         Returned (Pipeline.rescale cfg raw))
        (Returned PyFloat.nan)
  end.

(** The statuses the lines add to the tally, in order. *)
Definition statuses (lines : list string) : list string :=
  flat_map (fun l => match status_of l with Some s => [s] | None => [] end) lines.

(** The number of lines of [text] counted under [s]. *)
Definition tally_of (s : string) (text : string) : nat :=
  List.length (filter (counts_as s) (readlines text)).

(** [a] may stand before [b] in a list of decreasing counts. *)
Definition by_count_desc (a b : string * nat) : Prop := (snd b <= snd a)%nat.

(** The fix [r] as it is read back from the line written for it. *)
Definition reread (r r' : row) (vals : list PyFloat.float) : Prop :=
  raw r' = Pipeline.fix_line r vals
  /\ ymd r' = ymd r /\ lat r' = lat r /\ lon r' = lon r.

(** The windows the aggregate loaders make of the written fix of a line
    and its samples. *)
Definition written_window (to_float : string -> option PyFloat.float)
    (lv : string * list PyFloat.float) : list (list PyFloat.float) :=
  if plotted_status (fst lv)
  then match PlotWindows.np_array to_float (map written_token (snd lv)) with
       | Some w => [w]
       | None => []
       end
  else [].

(** A conversion for the examples: Python's [float]. *)
Definition python_float (s : string) : option PyFloat.float :=
  match PyFloat.of_string s with
  | Returned v => Some v
  | Raised _ => None
  end.

(** A track whose second fix is a tropical storm, and a track without
    fixes. *)
Definition two_fix_text : string :=
  lines_text ["AL131984, LILI"; "19840901,AL,13,HU,13.4N,82.7W";
              "19840902,AL,13,TS,14.0N,83.1W"].


(** The ways [%m%d] can match at the head of [s], in the order the
    matcher tries them: what [strptime] chooses from. *)
Definition month_day_matches (s : string) : list (Z * Z * string) :=
  flat_map (fun mr => map (fun dr => (fst mr, fst dr, snd dr)) (PyDate.day_matches (snd mr)))
           (PyDate.month_matches s).

(** [int(s)] for a string of digits. *)
Definition digits_int (s : string) : Z := Z.of_N (PyFloat.digits_value s).

Definition two_digits (a b : Z) : string :=
  String (PyDate.dchar a) (String (PyDate.dchar b) EmptyString).

Definition four_digits (a b c e : Z) : string :=
  String (PyDate.dchar a) (String (PyDate.dchar b) (two_digits c e)).

Definition month_and_day (m d : Z) : bool :=
  (1 <=? m) && (m <=? 12) && (1 <=? d) && (d <=? 31).

(** On the four digits [a b c e], [%m%d] finds the month [ab] and the
    day [ce] and nothing is left over, or [ab] and [ce] are no month
    and day and the match fails or leaves something over. *)
Definition mmdd_ok (a b c e : Z) : bool :=
  let m := digits_int (two_digits a b) in
  let d := digits_int (two_digits c e) in
  match month_day_matches (four_digits a b c e) with
  | (m', d', rest) :: _ =>
      if is_empty rest then (m' =? m) && (d' =? d) else negb (month_and_day m d)
  | [] => negb (month_and_day m d)
  end.

(** Padding gives back the digits of a number. *)
Definition pad4_ok (a b c e : Z) : bool :=
  String.eqb (PyDate.pad4 (digits_int (four_digits a b c e))) (four_digits a b c e)
  && (digits_int (four_digits a b c e) =? 1000 * a + 100 * b + 10 * c + e).

Definition pad2_ok (a b : Z) : bool :=
  String.eqb (PyDate.pad2 (digits_int (two_digits a b))) (two_digits a b).

(** The spellings of ["nan"] when the case of the letters is ignored. *)
Definition nan_spellings : list string :=
  ["nan"; "naN"; "nAn"; "nAN"; "Nan"; "NaN"; "NAn"; "NAN"].

(** The missing-token set of the specification: the empty string, the
    literal ["-999"], and ["nan"] in any case. *)
Definition missing_core (s : string) : Prop :=
  s = "" \/ s = "-999" \/ In s nan_spellings.

(** A token is missing when what is left of it once the white space at
    both ends is taken away is in that set. *)
Definition missing_token (tok : string) : Prop :=
  exists a core b,
    tok = a ++ core ++ b
    /\ all_chars is_space a = true /\ all_chars is_space b = true
    /\ missing_core core.

(** The fix of the example followed by the given 31 tokens. *)
Definition fix_with_tokens (toks : list string) : string :=
  lili_fix ++ ", " ++ join ", " toks.

(** The [MalformedRecordError] of the specification: a fix line that
    lacks the fields of its latitude and longitude, which the code
    signals by the [IndexError] of [parts[4]] or [parts[5]], or whose
    latitude or longitude does not parse, the [ValueError] of [float]. *)
Definition MalformedRecordError (e : exn) : Prop := e = IndexError \/ e = ValueError.


(** Does the loader make a window of the line? *)
Definition converts (pick : string -> option (list PyFloat.float)) (l : string) : bool :=
  match pick l with Some _ => true | None => false end.

(** * Properties *)

(** ** Characters and strings *)

Ltac char_cases c :=
  destruct c as [[|] [|] [|] [|] [|] [|] [|] [|]];
  vm_compute; try reflexivity; try discriminate; auto.


Lemma append_nil_r (s : string) : s ++ "" = s.
Proof. induction s; simpl; congruence. Qed.

Lemma all_chars_app p a b :
  all_chars p (a ++ b) = all_chars p a && all_chars p b.
Proof. induction a; simpl; [reflexivity | rewrite IHa, andb_assoc; reflexivity]. Qed.

Lemma all_chars_impl (p q : ascii -> bool) s :
  (forall c, p c = true -> q c = true) -> all_chars p s = true -> all_chars q s = true.
Proof.
  intros Hpq. induction s as [|c s IH]; simpl; [reflexivity|].
  rewrite !andb_true_iff. intros [H1 H2]. auto.
Qed.

Lemma init_snoc s c : init (s ++ String c "") = s.
Proof.
  induction s as [|a s IH]; simpl; [reflexivity|].
  rewrite IH. destruct s; reflexivity.
Qed.

Lemma last_snoc s c : last (s ++ String c "") = Returned c.
Proof.
  induction s as [|a s IH]; simpl; [reflexivity|].
  rewrite IH. destruct s; reflexivity.
Qed.

Lemma snoc_init_last s : s <> "" -> exists c, last s = Returned c /\ s = init s ++ String c "".
Proof.
  induction s as [|a s IH]; [congruence|]. intros _.
  destruct s as [|b s].
  - exists a. split; reflexivity.
  - destruct IH as [c [Hl Hs]]; [discriminate|].
    exists c. split; [exact Hl|].
    change (init (String a (String b s))) with (String a (init (String b s))).
    simpl. f_equal. exact Hs.
Qed.

Lemma lstrip_none p s : all_chars (fun c => negb (p c)) s = true -> lstrip_with p s = s.
Proof.
  destruct s as [|c s]; simpl; [reflexivity|].
  destruct (p c); simpl; [discriminate | reflexivity].
Qed.

Lemma rstrip_none p s : all_chars (fun c => negb (p c)) s = true -> rstrip_with p s = s.
Proof.
  induction s as [|c s IH]; simpl; [reflexivity|].
  rewrite andb_true_iff. intros [Hc Hs]. rewrite (IH Hs).
  destruct s; [destruct (p c); [discriminate | reflexivity] | reflexivity].
Qed.

Lemma mem_false_all c s :
  all_chars (fun d => negb (Ascii.eqb c d)) s = true -> mem c s = false.
Proof.
  induction s as [|d s IH]; simpl; [reflexivity|].
  rewrite andb_true_iff. intros [H1 H2]. rewrite (IH H2).
  destruct (Ascii.eqb c d); [discriminate | reflexivity].
Qed.

(** ** Rounding never invents a NaN or a sign *)

Lemma iter_pos_invariant {A} (P : A -> Prop) (f : A -> A) :
  (forall x, P x -> P (f x)) -> forall p x, P x -> P (iter_pos f p x).
Proof.
  intros Hf. induction p as [p IH | p IH | ]; intros x Hx; simpl; auto.
Qed.

Lemma shr_1_nonneg mrs : 0 <= shr_m mrs -> 0 <= shr_m (shr_1 mrs).
Proof.
  destruct mrs as [m r s]. simpl. intros Hm.
  destruct m as [|[p|p|]|p]; simpl; lia.
Qed.

Lemma shr_nonneg mrs e n : 0 <= shr_m mrs -> 0 <= shr_m (fst (shr mrs e n)).
Proof.
  intros Hm. unfold shr. destruct n; simpl; auto.
  apply (iter_pos_invariant (fun x => 0 <= shr_m x)); auto using shr_1_nonneg.
Qed.

Lemma shr_record_of_loc_m m l : shr_m (shr_record_of_loc m l) = m.
Proof. destruct l as [|[ | | ]]; reflexivity. Qed.

Lemma shr_fexp_nonneg prec emax m e l :
  0 <= m -> 0 <= shr_m (fst (shr_fexp prec emax m e l)).
Proof.
  intros Hm. unfold shr_fexp. apply shr_nonneg.
  rewrite shr_record_of_loc_m. exact Hm.
Qed.

Lemma round_nearest_even_nonneg m l : 0 <= m -> 0 <= round_nearest_even m l.
Proof.
  intros Hm. destruct l as [|[ | | ]]; simpl; try lia.
  destruct (Z.even m); lia.
Qed.

Lemma binary_round_aux_signed prec emax sx mx ex lx :
  0 <= mx -> signed_as sx (binary_round_aux prec emax sx mx ex lx).
Proof.
  intros Hm. unfold binary_round_aux.
  pose proof (shr_fexp_nonneg prec emax mx ex lx Hm) as H1.
  destruct (shr_fexp prec emax mx ex lx) as [mrs' e']. simpl in H1.
  pose proof (shr_fexp_nonneg prec emax
                (round_nearest_even (shr_m mrs') (loc_of_shr_record mrs')) e' loc_Exact
                (round_nearest_even_nonneg _ _ H1)) as H2.
  destruct (shr_fexp prec emax _ e' loc_Exact) as [mrs'' e'']. simpl in H2.
  destruct (shr_m mrs'') as [|p|p]; simpl; [reflexivity | | lia].
  destruct (e'' <=? emax - prec); reflexivity.
Qed.



Lemma float_eqb_refl x : PyFloat.is_nan x = false -> PyFloat.eqb x x = true.
Proof.
  destruct x as [s|s| |s m e]; simpl; try discriminate; intros _;
    unfold PyFloat.eqb, SFeqb, SFcompare.
  - reflexivity.
  - destruct s; reflexivity.
  - rewrite Z.compare_refl.
    change (Pos.compare_cont Eq m m) with (Pos.compare m m).
    rewrite Pos.compare_refl. destruct s; reflexivity.
Qed.

Lemma signed_not_nan s x : signed_as s x -> PyFloat.is_nan x = false.
Proof. destruct x; simpl; [reflexivity | reflexivity | intros [] | reflexivity]. Qed.



(** A product with a finite factor is a NaN only if the other factor is. *)
Lemma mul_finite_not_nan x s m e :
  PyFloat.is_nan x = false ->
  PyFloat.is_nan (PyFloat.mul x (S754_finite s m e)) = false.
Proof.
  destruct x as [sx|sx| |sx mx ex]; simpl; try discriminate; intros _; try reflexivity.
  apply (signed_not_nan (xorb sx s)).
  unfold PyFloat.mul, SFmul. apply binary_round_aux_signed. lia.
Qed.

(** Adding [+0.0] changes nothing that [==] can see. *)
Lemma add_zero_eqb x :
  PyFloat.is_nan x = false -> PyFloat.eqb x (PyFloat.add x f_0) = true.
Proof.
  destruct x as [[|]|[|]| |s m e]; simpl; try discriminate; intros _; try reflexivity.
  change (PyFloat.add (S754_finite s m e) f_0) with (S754_finite s m e).
  apply float_eqb_refl. reflexivity.
Qed.

(** ** [float] on decimal numerals *)








(** ** The coordinate parser *)

Lemma parse_latlon_snoc num c x :
  PyFloat.of_string num = Returned x ->
  ExtractSST.parse_latlon (num ++ String c "") =
  Returned (if north_or_east c then x else PyFloat.neg x).
Proof.
  intros Hx. unfold ExtractSST.parse_latlon.
  rewrite init_snoc, last_snoc, Hx. simpl.
  unfold north_or_east. simpl. rewrite orb_false_r. reflexivity.
Qed.





(** C2, as the code has it: the trailing character is never checked. A
    token ending in a letter that is not a compass letter parses to a
    number. *)
Lemma parse_latlon_accepts_unknown_letter :
  compass_letter "X" = false
  /\ ExtractSST.parse_latlon "13.4X" = Returned (PyFloat.neg f_13_4)
  /\ ExtractHYCOM.parse_latlon "13.4X" = Returned (PyFloat.neg f_13_4).
Proof. repeat split; vm_compute; reflexivity. Qed.

Lemma of_string_raises_ValueError s e : PyFloat.of_string s = Raised e -> e = ValueError.
Proof.
  unfold PyFloat.of_string.
  destruct (PyFloat.without_underscores s); [|congruence].
  destruct (PyFloat.parse_float _); [discriminate | congruence].
Qed.

Lemma of_string_empty : PyFloat.of_string "" = Raised ValueError.
Proof. reflexivity. Qed.

(** C2, amended. The parser fails exactly when [float] rejects the text
    before the last character, and then with [ValueError]; otherwise it
    returns that value for a trailing N or E, in either case, and the
    negated value for every other trailing character. *)
Theorem parse_latlon_fails_only_on_numeral : forall token : string,
  (forall e, ExtractSST.parse_latlon token = Raised e
             <-> PyFloat.of_string (init token) = Raised e)
  /\ (forall e, ExtractSST.parse_latlon token = Raised e -> e = ValueError)
  /\ (forall v, PyFloat.of_string (init token) = Returned v ->
        exists c, last token = Returned c
                  /\ ExtractSST.parse_latlon token =
                     Returned (if north_or_east c then v else PyFloat.neg v))
  /\ ExtractHYCOM.parse_latlon token = ExtractSST.parse_latlon token.
Proof.
  intros token.
  assert (Hret : forall v, PyFloat.of_string (init token) = Returned v ->
            exists c, last token = Returned c
                  /\ ExtractSST.parse_latlon token =
                     Returned (if north_or_east c then v else PyFloat.neg v)).
  { intros v Hv. destruct token as [|a token].
    - simpl in Hv. rewrite of_string_empty in Hv. discriminate.
    - destruct (snoc_init_last (String a token)) as [c [Hl Hs]]; [discriminate|].
      exists c. split; [exact Hl|].
      rewrite Hs at 1. apply parse_latlon_snoc. exact Hv. }
  assert (Hiff : forall e, ExtractSST.parse_latlon token = Raised e
             <-> PyFloat.of_string (init token) = Raised e).
  { intros e. destruct (PyFloat.of_string (init token)) as [v|e'] eqn:Hof.
    - destruct (Hret v eq_refl) as [c [_ Hp]]. rewrite Hp. split; discriminate.
    - unfold ExtractSST.parse_latlon. rewrite Hof. simpl. reflexivity. }
  repeat split; try apply Hiff; auto.
  intros e He. apply Hiff in He. eapply of_string_raises_ValueError; eauto.
Qed.

(** ** The linear rescale *)

(** C8. When the cell holds a raw value, the sample is that value
    rescaled: [raw * 0.01], equal ([==]) to [raw * 0.01 + 0], from the
    OISST script, and [raw * 0.001 + 20] from the HYCOM script.  Either
    script is the one pipeline at its configuration (collection and
    band, rescale constants, output suffix). *)
Theorem rescale_is_linear :
  forall (ee : EE.client) (ymd : string) (lon lat : PyFloat.float)
         (y m d : Z) (pt : EE.point) (raw : PyFloat.float),
    PyInt.of_string (take 4 ymd) = Returned y ->
    PyInt.of_string (take 2 (drop 4 ymd)) = Returned m ->
    PyInt.of_string (drop 6 ymd) = Returned d ->
    EE.make_point ee lon lat = Returned pt ->
    PyFloat.is_nan raw = false ->
    (forall im,
        EE.first_image ee ExtractSST.oisst y m d = Returned (Some im) ->
        EE.cell_value ee im "sst" pt = Returned (Some raw) ->
        ExtractSST.get_daily_sst ee ExtractSST.oisst ymd lon lat
        = Returned (PyFloat.mul raw f_0_01)
        /\ PyFloat.eqb (PyFloat.mul raw f_0_01)
                       (PyFloat.add (PyFloat.mul raw f_0_01) f_0) = true)
    /\ (forall im,
        EE.first_image ee ExtractHYCOM.hycom y m d = Returned (Some im) ->
        EE.cell_value ee im "water_temp_0" pt = Returned (Some raw) ->
        ExtractHYCOM.get_daily_water_temp ee ExtractHYCOM.hycom ymd lon lat
        = Returned (PyFloat.add (PyFloat.mul raw f_0_001) f_20))
    /\ (forall p w,
        ExtractSST.main ee p w = Pipeline.main Pipeline.oisst_config ee p w
        /\ ExtractHYCOM.main ee p w = Pipeline.main Pipeline.hycom_config ee p w).
Proof.
  intros ee ymd lon lat y m d pt raw Hy Hm Hd Hpt Hraw.
  split; [intros im Hi Hc; split | split; [intros im Hi Hc | intros p w; split; reflexivity]].
  - unfold ExtractSST.get_daily_sst. rewrite Hy, Hm, Hd. simpl.
    rewrite Hi. simpl. rewrite Hpt. simpl. rewrite Hc. reflexivity.
  - apply add_zero_eqb. apply mul_finite_not_nan. exact Hraw.
  - unfold ExtractHYCOM.get_daily_water_temp. rewrite Hy, Hm, Hd. simpl.
    rewrite Hi. simpl. rewrite Hpt. simpl. rewrite Hc. reflexivity.
Qed.

(** ** Lines *)

Lemma mem_app c a b : mem c (a ++ b) = mem c a || mem c b.
Proof. induction a; simpl; [reflexivity | rewrite IHa, orb_assoc; reflexivity]. Qed.

Lemma no_newline_cons c s :
  no_newline (String c s) <-> Ascii.eqb c newline = false /\ no_newline s.
Proof.
  unfold no_newline. cbn [mem]. rewrite orb_false_iff, (Ascii.eqb_sym newline c). tauto.
Qed.

Lemma no_newline_app a b : no_newline (a ++ b) <-> no_newline a /\ no_newline b.
Proof. unfold no_newline. rewrite mem_app, orb_false_iff. tauto. Qed.

Lemma readlines_line l rest :
  no_newline l ->
  readlines (l ++ String newline rest) = (l ++ String newline "") :: readlines rest.
Proof.
  induction l as [|c l IH]; intros Hl.
  - reflexivity.
  - apply no_newline_cons in Hl as [Hc Hl].
    change (readlines (String c (l ++ String newline rest))
            = String c (l ++ String newline "") :: readlines rest).
    cbn [readlines]. rewrite Hc, (IH Hl). reflexivity.
Qed.

Lemma readlines_lines_text ls :
  Forall no_newline ls ->
  readlines (lines_text ls) = map (fun l => l ++ String newline "") ls.
Proof.
  induction 1 as [|l ls Hl Hls IH]; simpl; [reflexivity|].
  rewrite readlines_line by exact Hl. rewrite IH. reflexivity.
Qed.

Lemma rstrip_nl_plain b : no_newline b -> rstrip_nl b = b.
Proof.
  intros Hb. unfold rstrip_nl. apply rstrip_none.
  induction b as [|c b IH]; [reflexivity|].
  apply no_newline_cons in Hb as [Hc Hb]. cbn [all_chars].
  rewrite (Ascii.eqb_sym newline c), Hc. simpl. auto.
Qed.

Lemma rstrip_nl_line b : no_newline b -> rstrip_nl (b ++ String newline "") = b.
Proof.
  unfold rstrip_nl. induction b as [|c b IH]; intros Hb; [reflexivity|].
  apply no_newline_cons in Hb as [Hc Hb].
  change (rstrip_with (Ascii.eqb newline) (String c (b ++ String newline "")) = String c b).
  cbn [rstrip_with]. rewrite (IH Hb).
  destruct b; [rewrite (Ascii.eqb_sym newline c), Hc|]; reflexivity.
Qed.

Lemma readlines_shape s : Forall line_shape (readlines s).
Proof.
  induction s as [|c s IH]; simpl; [constructor|].
  destruct (Ascii.eqb c newline) eqn:Hc.
  - apply Ascii.eqb_eq in Hc. subst c. constructor; [|exact IH].
    exists "". split; [reflexivity | left; reflexivity].
  - destruct (readlines s) as [|l ls].
    + constructor; [|constructor]. exists (String c ""). split; [|right; reflexivity].
      apply no_newline_cons. split; [exact Hc | reflexivity].
    + inversion IH as [|? ? [b [Hb Hl]] Hls]; subst. constructor; [|exact Hls].
      exists (String c b). split; [apply no_newline_cons; auto|].
      destruct Hl as [-> | ->]; [left | right]; reflexivity.
Qed.

Lemma line_shape_rstrip l : line_shape l -> no_newline (rstrip_nl l).
Proof.
  intros [b [Hb [-> | ->]]];
    [rewrite rstrip_nl_line | rewrite rstrip_nl_plain]; assumption.
Qed.

(** ** The date test *)

Lemma digits_then_app n s t :
  digits_then n (starts_with comma) s = true ->
  digits_then n (starts_with comma) (s ++ t) = true.
Proof.
  revert s. induction n as [|n IH]; intros s; simpl.
  - destruct s; simpl; [discriminate | auto].
  - destruct s as [|c s]; simpl; [discriminate|].
    rewrite !andb_true_iff. intros [Hc Hs]. auto.
Qed.

Lemma digits_then_newline n s t :
  digits_then n (starts_with comma) (s ++ String newline t)
  = digits_then n (starts_with comma) s.
Proof.
  revert s. induction n as [|n IH]; intros s; simpl.
  - destruct s; reflexivity.
  - destruct s as [|c s]; simpl; [reflexivity | rewrite IH; reflexivity].
Qed.

Lemma date_line_match_line l :
  line_shape l -> date_line_match (rstrip_nl l) = date_line_match l.
Proof.
  intros [b [Hb [-> | ->]]]; unfold date_line_match.
  - rewrite rstrip_nl_line by exact Hb. rewrite digits_then_newline. reflexivity.
  - rewrite rstrip_nl_plain by exact Hb. reflexivity.
Qed.

Lemma digits_then_spec n s :
  digits_then n (starts_with comma) s = true <->
  exists d rest, String.length d = n /\ all_chars is_digit d = true
                 /\ s = d ++ String comma rest.
Proof.
  revert s. induction n as [|n IH]; intros s; simpl.
  - split.
    + destruct s as [|c s]; simpl; [discriminate|]. intros H.
      apply Ascii.eqb_eq in H. subst c. exists "", s. auto.
    + intros [d [rest [Hd [_ ->]]]]. destruct d; [|discriminate].
      reflexivity.
  - destruct s as [|c s].
    + split; [discriminate|]. intros [d [rest [Hd [_ Hs]]]].
      destruct d; discriminate.
    + rewrite andb_true_iff, IH. split.
      * intros [Hc [d [rest [Hd [Hall ->]]]]].
        exists (String c d), rest. simpl. rewrite Hc, Hall, Hd. auto.
      * intros [d [rest [Hd [Hall Hs]]]]. destruct d as [|c' d]; [discriminate|].
        simpl in *. inversion Hs; subst. apply andb_true_iff in Hall as [H1 H2].
        split; [exact H1|]. exists d, rest. auto.
Qed.

(** ** Loops that may raise *)

Lemma for_each_Forall2 {A B} (f : A -> outcome B) xs ys :
  for_each f xs = Returned ys -> Forall2 (fun x y => f x = Returned y) xs ys.
Proof.
  revert ys. induction xs as [|x xs IH]; simpl; intros ys H.
  - inversion H. constructor.
  - destruct (f x) as [y|e] eqn:Hx; simpl in H; [|discriminate].
    destruct (for_each f xs) as [ys'|e]; simpl in H; [|discriminate].
    inversion H; subst. constructor; auto.
Qed.


Lemma for_each_raises {A B} (f : A -> outcome B) xs x e :
  In x xs -> f x = Raised e -> exists e', for_each f xs = Raised e'.
Proof.
  induction xs as [|a xs IH]; simpl; [intros []|].
  intros [-> | Hin] Hx.
  - rewrite Hx. simpl. eauto.
  - destruct (f a); simpl; [|eauto].
    destruct (IH Hin Hx) as [e' ->]. simpl. eauto.
Qed.

Lemma for_each_first_raise {A B} (f : A -> outcome B) pre x post ys e :
  for_each f pre = Returned ys -> f x = Raised e ->
  for_each f (pre ++ x :: post) = Raised e.
Proof.
  revert ys. induction pre as [|a pre IH]; simpl; intros ys Hpre Hx.
  - rewrite Hx. reflexivity.
  - destruct (f a); simpl in *; [|discriminate].
    destruct (for_each f pre) eqn:Hp; simpl in *; [|discriminate].
    rewrite (IH _ eq_refl Hx). reflexivity.
Qed.

Lemma Forall2_nth_error {A B} (R : A -> B -> Prop) xs ys i x :
  Forall2 R xs ys -> nth_error xs i = Some x ->
  exists y, nth_error ys i = Some y /\ R x y.
Proof.
  intros H. revert i. induction H as [|a b xs ys Hab H IH]; intros i Hi.
  - destruct i; discriminate.
  - destruct i; simpl in *; [inversion Hi; subst; eauto | auto].
Qed.

(** ** Reading the track *)

Lemma read_line_header l :
  date_line_match l = false ->
  Pipeline.read_line l = Returned (inl (rstrip_nl l)).
Proof. intros H. unfold Pipeline.read_line. rewrite H. reflexivity. Qed.

Lemma read_line_row l it :
  date_line_match l = true -> Pipeline.read_line l = Returned it ->
  exists r, it = inr r /\ raw r = rstrip_nl l.
Proof.
  intros H. unfold Pipeline.read_line. rewrite H.
  destruct (index (fields l) 0); simpl; [|discriminate].
  destruct (index (fields l) 4); simpl; [|discriminate].
  destruct (Pipeline.parse_latlon _); simpl; [|discriminate].
  destruct (index (fields l) 5); simpl; [|discriminate].
  destruct (Pipeline.parse_latlon _); simpl; [|discriminate].
  intros Heq. inversion Heq. eexists. split; reflexivity.
Qed.

Lemma read_track lines items :
  for_each (Pipeline.read_line) lines = Returned items ->
  headers_of items = map rstrip_nl (filter (fun l => negb (date_line_match l)) lines)
  /\ Forall2 (fun l r => Pipeline.read_line l = Returned (inr r)
                         /\ raw r = rstrip_nl l)
             (filter date_line_match lines) (rows_of items).
Proof.
  revert items. induction lines as [|l lines IH]; simpl; intros items H.
  - inversion H. split; [reflexivity | constructor].
  - destruct (Pipeline.read_line l) as [it|e] eqn:Hl; simpl in H; [|discriminate].
    destruct (for_each _ lines) as [its|e]; simpl in H; [|discriminate].
    inversion H; subst. destruct (IH its eq_refl) as [IH1 IH2].
    destruct (date_line_match l) eqn:Hm; simpl.
    + destruct (read_line_row l it Hm Hl) as [r [-> Hr]]. simpl.
      split; [exact IH1 | constructor; auto].
    + rewrite (read_line_header l Hm) in Hl. inversion Hl; subst. simpl.
      split; [f_equal; exact IH1 | exact IH2].
Qed.

(** ** The written text *)

Lemma date_line_match_newline l :
  date_line_match (l ++ String newline "") = date_line_match l.
Proof. apply digits_then_newline. Qed.


Lemma filter_none {A} (p : A -> bool) l : (forall x, In x l -> p x = false) -> filter p l = [].
Proof.
  induction l as [|a l IH]; simpl; intros H; [reflexivity|].
  rewrite (H a (or_introl eq_refl)). apply IH. auto.
Qed.



(** *** What a formatted value is made of *)

Lemma format_chars_spaces n : all_chars format_char (PyFloat.spaces n) = true.
Proof. induction n; simpl; auto. Qed.

Lemma format_chars_uint d : all_chars format_char (NilEmpty.string_of_uint d) = true.
Proof. induction d; simpl; auto. Qed.

Lemma format_chars_string_of_N n : all_chars format_char (PyFloat.string_of_N n) = true.
Proof.
  unfold PyFloat.string_of_N, NilZero.string_of_uint.
  destruct (N.to_uint n) eqn:E; try reflexivity; rewrite <- E; apply format_chars_uint.
Qed.

Lemma format_char_digit n : (n < 10)%N -> format_char (PyFloat.digit_char n) = true.
Proof.
  intros H. rewrite <- (N2Nat.id n).
  assert (Hk : (N.to_nat n < 10)%nat) by lia.
  revert Hk. generalize (N.to_nat n). intros k Hk.
  do 10 (destruct k as [|k]; [reflexivity|]). lia.
Qed.

Lemma format_chars_fixed2 h : all_chars format_char (PyFloat.fixed2 h) = true.
Proof.
  unfold PyFloat.fixed2. rewrite all_chars_app, format_chars_string_of_N.
  cbn [all_chars andb].
  rewrite !format_char_digit by (apply N.mod_lt; lia). reflexivity.
Qed.

Lemma format_chars v : all_chars format_char (PyFloat.format_6_2f v) = true.
Proof.
  unfold PyFloat.format_6_2f, PyFloat.pad_left.
  rewrite all_chars_app, format_chars_spaces.
  destruct v as [[|]|[|]| |[|] m e]; try reflexivity; cbn [PyFloat.format_2f andb].
  - change (PyFloat.sign_prefix true ++ PyFloat.fixed2 (PyFloat.hundredths m e))
      with (String "-" (PyFloat.fixed2 (PyFloat.hundredths m e))).
    cbn [all_chars]. rewrite format_chars_fixed2. reflexivity.
  - apply format_chars_fixed2.
Qed.

Lemma format_char_not_comma c : format_char c = true -> negb (Ascii.eqb comma c) = true.
Proof. char_cases c. Qed.

Lemma format_no_comma v : mem comma (PyFloat.format_6_2f v) = false.
Proof.
  apply mem_false_all.
  eapply all_chars_impl; [apply format_char_not_comma | apply format_chars].
Qed.

Lemma format_char_not_newline c : format_char c = true -> negb (Ascii.eqb newline c) = true.
Proof. char_cases c. Qed.

Lemma no_newline_format v : no_newline (PyFloat.format_6_2f v).
Proof.
  apply mem_false_all.
  eapply all_chars_impl; [apply format_char_not_newline | apply format_chars].
Qed.

Lemma no_newline_join sep xs :
  no_newline sep -> Forall no_newline xs -> no_newline (join sep xs).
Proof.
  intros Hsep. induction 1 as [|x xs Hx Hxs IH]; [reflexivity|].
  destruct xs as [|y ys]; [exact Hx|].
  change (no_newline (x ++ sep ++ join sep (y :: ys))).
  rewrite !no_newline_app. auto.
Qed.

Lemma no_newline_fix_line r vals :
  no_newline (raw r) -> no_newline (Pipeline.fix_line r vals).
Proof.
  intros Hr. unfold Pipeline.fix_line. rewrite !no_newline_app.
  split; [exact Hr | split; [reflexivity|]].
  apply no_newline_join; [reflexivity|].
  apply Forall_forall. intros x Hx. apply in_map_iff in Hx as [v [<- _]].
  apply no_newline_format.
Qed.

(** ** The window *)

Lemma window_nth k : (k < 31)%nat -> nth_error window k = Some (Z.of_nat k - 15).
Proof. do 31 (destruct k as [|k]; [reflexivity|]). lia. Qed.

Lemma window_length : List.length window = 31%nat.
Proof. reflexivity. Qed.

Lemma sample_window_in_order cfg ee r vals :
  Pipeline.sample_window cfg ee r = Returned vals ->
  window_in_order (Pipeline.get_daily cfg ee) r vals.
Proof.
  unfold Pipeline.sample_window.
  destruct (PyDate.strptime (ymd r)) as [base|e] eqn:Hb; cbn [bind]; [|discriminate].
  intros H. apply for_each_Forall2 in H.
  exists base. split; [exact Hb|].
  split; [rewrite <- (Forall2_length H); apply window_length|].
  intros k Hk.
  destruct (Forall2_nth_error _ _ _ k _ H (window_nth k Hk)) as [y [Hy Hs]].
  destruct (PyDate.add_days base (Z.of_nat k - 15)) as [d|e]; simpl in Hs; [|discriminate].
  exists d. split; [reflexivity|].
  rewrite (nth_error_nth _ _ _ Hy). exact Hs.
Qed.

(** ** Runs that return *)

Lemma path_eqb_refl p : FS.path_eqb p p = true.
Proof. unfold FS.path_eqb. destruct (list_eq_dec string_dec p p); congruence. Qed.

Lemma main_returns cfg ee p w w' :
  Pipeline.main cfg ee p w = (w', Returned tt) ->
  exists text w1 out,
    FS.files w p = Some text
    /\ FS.mkdir_p w (Pipeline.out_dir p) = Returned w1
    /\ Pipeline.extract cfg ee text = Returned out
    /\ w' = FS.write_text w1 (Pipeline.out_file cfg p) out.
Proof.
  unfold Pipeline.main.
  destruct (FS.files w p) as [text|] eqn:Ht; [|intros H; inversion H].
  destruct (FS.mkdir_p w (Pipeline.out_dir p)) as [w1|e] eqn:Hd; [|intros H; inversion H].
  destruct (Pipeline.extract cfg ee text) as [out|e] eqn:Hx; intros H; inversion H.
  exists text, w1, out. auto.
Qed.

Lemma extract_returns cfg ee text out :
  Pipeline.extract cfg ee text = Returned out ->
  exists items cols,
    EE.initialize ee = Returned tt
    /\ for_each Pipeline.read_line (readlines text) = Returned items
    /\ rows_of items <> []
    /\ for_each (Pipeline.sample_window cfg ee) (rows_of items) = Returned cols
    /\ out = Pipeline.output_text (headers_of items) (rows_of items) cols.
Proof.
  unfold Pipeline.extract.
  destruct (EE.initialize ee) as [[]|e]; simpl; [|discriminate].
  destruct (for_each Pipeline.read_line (readlines text)) as [items|e]; simpl; [|discriminate].
  unfold Pipeline.sample_rows.
  destruct (rows_of items) as [|r rows] eqn:Hrows; [discriminate|].
  destruct (for_each _ (r :: rows)) as [cols|e] eqn:Hc; simpl; [|discriminate].
  intros H. inversion H. exists items, cols. rewrite Hrows.
  repeat split; auto. discriminate.
Qed.


Lemma Forall2_In_r {A B} (R : A -> B -> Prop) xs ys y :
  Forall2 R xs ys -> In y ys -> exists x, In x xs /\ R x y.
Proof.
  induction 1 as [|a b xs ys Hab H IH]; simpl; [intros []|].
  intros [<- | Hin]; [eauto|]. destruct (IH Hin) as [x [Hx HR]]. eauto.
Qed.

Lemma nth_error_combine {A B} (xs : list A) (ys : list B) i x y :
  nth_error xs i = Some x -> nth_error ys i = Some y ->
  nth_error (combine xs ys) i = Some (x, y).
Proof.
  revert ys i. induction xs as [|a xs IH]; intros ys i Hx Hy.
  - destruct i; discriminate.
  - destruct ys as [|b ys]; [destruct i; discriminate|].
    destruct i; simpl in *; [congruence | auto].
Qed.


Lemma below_forall (P : Z -> bool) (n : Z) :
  forallb P (below n) = true -> forall z, 0 <= z < n -> P z = true.
Proof.
  intros H z Hz. rewrite forallb_forall in H. apply H.
  unfold below. rewrite in_map_iff. exists (Z.to_nat z). split; [lia|].
  apply in_seq. lia.
Qed.

Lemma returns_Z_eq o z : returns_Z o z = true -> o = Returned z.
Proof. destruct o; simpl; [intros H; apply Z.eqb_eq in H; congruence | discriminate]. Qed.

Lemma int_of_pad4 y : 0 <= y < 10000 -> PyInt.of_string (PyDate.pad4 y) = Returned y.
Proof.
  intros Hy. apply returns_Z_eq.
  apply (below_forall (fun y => returns_Z (PyInt.of_string (PyDate.pad4 y)) y) 10000); [|lia].
  vm_compute. reflexivity.
Qed.

Lemma int_of_pad2 m : 0 <= m < 100 -> PyInt.of_string (PyDate.pad2 m) = Returned m.
Proof.
  intros Hm. apply returns_Z_eq.
  apply (below_forall (fun y => returns_Z (PyInt.of_string (PyDate.pad2 y)) y) 100); [|lia].
  vm_compute. reflexivity.
Qed.

Lemma fromordinal_in_range n :
  1 <= n <= PyDate.MAXORDINAL ->
  let d := PyDate.fromordinal n in
  0 <= PyDate.year d < 10000 /\ 0 <= PyDate.month d < 100 /\ 0 <= PyDate.day d < 100.
Proof.
  unfold PyDate.MAXORDINAL, PyDate.fromordinal. intros Hn.
  set (n0 := n - 1).
  set (q1 := n0 / 146097). set (r1 := n0 mod 146097).
  set (q2 := r1 / 36524). set (r2 := r1 mod 36524).
  set (q3 := r2 / 1461). set (r3 := r2 mod 1461).
  set (q4 := r3 / 365). set (r4 := r3 mod 365).
  assert (H1 : n0 = 146097 * q1 + r1 /\ 0 <= r1 < 146097)
    by (subst q1 r1; split; [apply Z.div_mod; lia | apply Z.mod_pos_bound; lia]).
  assert (H2 : r1 = 36524 * q2 + r2 /\ 0 <= r2 < 36524)
    by (subst q2 r2; split; [apply Z.div_mod; lia | apply Z.mod_pos_bound; lia]).
  assert (H3 : r2 = 1461 * q3 + r3 /\ 0 <= r3 < 1461)
    by (subst q3 r3; split; [apply Z.div_mod; lia | apply Z.mod_pos_bound; lia]).
  assert (H4 : r3 = 365 * q4 + r4 /\ 0 <= r4 < 365)
    by (subst q4 r4; split; [apply Z.div_mod; lia | apply Z.mod_pos_bound; lia]).
  assert (Hn0 : 0 <= n0 <= 3652058) by (subst n0; lia).
  clearbody q1 r1 q2 r2 q3 r3 q4 r4 n0.
  destruct ((q4 =? 4) || (q2 =? 4)) eqn:Hsp.
  - simpl. apply orb_true_iff in Hsp. rewrite !Z.eqb_eq in Hsp. lia.
  - apply orb_false_iff in Hsp. rewrite !Z.eqb_neq in Hsp.
    rewrite Z.shiftr_div_pow2 by lia. change (2 ^ 5) with 32.
    set (m := (r4 + 50) / 32).
    assert (Hm : r4 + 50 = 32 * m + (r4 + 50) mod 32 /\ 0 <= (r4 + 50) mod 32 < 32)
      by (subst m; split; [apply Z.div_mod; lia | apply Z.mod_pos_bound; lia]).
    set (rm := (r4 + 50) mod 32) in *. clearbody m rm.
    assert (Hmr : 1 <= m <= 12) by lia.
    assert (Hcases : m = 1 \/ m = 2 \/ m = 3 \/ m = 4 \/ m = 5 \/ m = 6 \/ m = 7 \/ m = 8
                     \/ m = 9 \/ m = 10 \/ m = 11 \/ m = 12) by lia.
    set (leap := (q4 =? 3) && (negb (q3 =? 24) || (q2 =? 3))). clearbody leap.
    repeat (destruct Hcases as [-> | Hcases]); try subst m;
      destruct leap; simpl;
      match goal with |- context [ ?a <? ?b ] => destruct (Z.ltb_spec a b) end;
      simpl; lia.
Qed.

(** From 1000-01-01 on the year has four digits. *)
Lemma fromordinal_year_padded n :
  PyDate.toordinal first_padded_day <= n <= PyDate.MAXORDINAL ->
  1000 <= PyDate.year (PyDate.fromordinal n).
Proof.
  change (PyDate.toordinal first_padded_day) with 364878.
  unfold PyDate.MAXORDINAL, PyDate.fromordinal. intros Hn.
  set (n0 := n - 1).
  set (q1 := n0 / 146097). set (r1 := n0 mod 146097).
  set (q2 := r1 / 36524). set (r2 := r1 mod 36524).
  set (q3 := r2 / 1461). set (r3 := r2 mod 1461).
  set (q4 := r3 / 365). set (r4 := r3 mod 365).
  assert (H1 : n0 = 146097 * q1 + r1 /\ 0 <= r1 < 146097)
    by (subst q1 r1; split; [apply Z.div_mod; lia | apply Z.mod_pos_bound; lia]).
  assert (H2 : r1 = 36524 * q2 + r2 /\ 0 <= r2 < 36524)
    by (subst q2 r2; split; [apply Z.div_mod; lia | apply Z.mod_pos_bound; lia]).
  assert (H3 : r2 = 1461 * q3 + r3 /\ 0 <= r3 < 1461)
    by (subst q3 r3; split; [apply Z.div_mod; lia | apply Z.mod_pos_bound; lia]).
  assert (H4 : r3 = 365 * q4 + r4 /\ 0 <= r4 < 365)
    by (subst q4 r4; split; [apply Z.div_mod; lia | apply Z.mod_pos_bound; lia]).
  assert (Hn0 : 364877 <= n0 <= 3652058) by (subst n0; lia).
  clearbody q1 r1 q2 r2 q3 r3 q4 r4 n0.
  destruct ((q4 =? 4) || (q2 =? 4)) eqn:Hsp.
  - cbn [PyDate.year]. apply orb_true_iff in Hsp. rewrite !Z.eqb_eq in Hsp. lia.
  - apply orb_false_iff in Hsp. rewrite !Z.eqb_neq in Hsp.
    assert (Hy : 1000 <= q1 * 400 + 1 + q2 * 100 + q3 * 4 + q4) by lia.
    cbv zeta. destruct (_ <? _); cbn [PyDate.year]; exact Hy.
Qed.

(** ** Dates as the sampler receives them *)

Lemma strftime_ints d :
  1000 <= PyDate.year d ->
  0 <= PyDate.year d < 10000 -> 0 <= PyDate.month d < 100 -> 0 <= PyDate.day d < 100 ->
  PyInt.of_string (take 4 (PyDate.strftime d)) = Returned (PyDate.year d)
  /\ PyInt.of_string (take 2 (drop 4 (PyDate.strftime d))) = Returned (PyDate.month d)
  /\ PyInt.of_string (drop 6 (PyDate.strftime d)) = Returned (PyDate.day d).
Proof.
  intros Hp Hy Hm Hd. unfold PyDate.strftime, PyDate.year_text.
  destruct (Z.ltb_spec (PyDate.year d) 1000) as [Hlt | _]; [lia|].
  change (take 4 (PyDate.pad4 (PyDate.year d) ++ PyDate.pad2 (PyDate.month d)
                  ++ PyDate.pad2 (PyDate.day d)))
    with (PyDate.pad4 (PyDate.year d)).
  change (take 2 (drop 4 (PyDate.pad4 (PyDate.year d) ++ PyDate.pad2 (PyDate.month d)
                          ++ PyDate.pad2 (PyDate.day d))))
    with (PyDate.pad2 (PyDate.month d)).
  change (drop 6 (PyDate.pad4 (PyDate.year d) ++ PyDate.pad2 (PyDate.month d)
                  ++ PyDate.pad2 (PyDate.day d)))
    with (PyDate.pad2 (PyDate.day d)).
  auto using int_of_pad4, int_of_pad2.
Qed.

Lemma add_days_in_range base off :
  15 < PyDate.toordinal base -> PyDate.toordinal base + 15 <= PyDate.MAXORDINAL ->
  -15 <= off <= 15 ->
  PyDate.add_days base off = Returned (PyDate.fromordinal (PyDate.toordinal base + off))
  /\ 1 <= PyDate.toordinal base + off <= PyDate.MAXORDINAL.
Proof.
  intros H1 H2 Hoff. unfold PyDate.add_days.
  destruct (Z.ltb_spec 0 (PyDate.toordinal base + off)); [|lia].
  destruct (Z.leb_spec (PyDate.toordinal base + off) PyDate.MAXORDINAL); [|lia].
  simpl. split; [reflexivity | lia].
Qed.

Lemma window_offsets off : In off window -> -15 <= off <= 15.
Proof.
  unfold window. rewrite in_map_iff. intros [k [<- Hk]]. apply in_seq in Hk. lia.
Qed.

(** ** One sample *)

Section OneSample.
Variable cfg : Pipeline.config.
Variable ee : EE.client.
Variables (ymd : string) (lon lat : PyFloat.float) (y m d : Z).
Hypothesis Hy : PyInt.of_string (take 4 ymd) = Returned y.
Hypothesis Hm : PyInt.of_string (take 2 (drop 4 ymd)) = Returned m.
Hypothesis Hd : PyInt.of_string (drop 6 ymd) = Returned d.



Lemma get_daily_guarded im pt :
  EE.first_image ee (Pipeline.collection cfg) y m d = Returned (Some im) ->
  EE.make_point ee lon lat = Returned pt ->
  Pipeline.get_daily cfg ee ymd lon lat =
  try_except
    (val <- EE.cell_value ee im (Pipeline.band cfg) pt ;;
     raw <- EE.number val ;;
     Returned (Pipeline.rescale cfg raw))
    (Returned PyFloat.nan).
Proof.
  intros H1 H2. unfold Pipeline.get_daily. rewrite Hy, Hm, Hd. cbn [bind].
  rewrite H1. cbn [bind]. rewrite H2. reflexivity.
Qed.


End OneSample.

(** ** A whole window, a whole file *)



(** Clients for the examples. *)




Lemma sample_fix_window : window_dates_exist sample_fix.
Proof.
  eexists. split; [vm_compute; reflexivity | vm_compute; split; discriminate].
Qed.

(** ** Short fix lines *)

Lemma split_not_nil sep s : split sep s <> [].
Proof.
  destruct s as [|c s]; simpl; [discriminate|].
  destruct (Ascii.eqb c sep); [discriminate|]. destruct (split sep s); discriminate.
Qed.

Lemma index_short {A} (xs : list A) i :
  (List.length xs <= i)%nat -> index xs i = Raised IndexError.
Proof. intros H. unfold index. rewrite (proj2 (nth_error_None xs i) H). reflexivity. Qed.

Lemma index_first_field l : exists p0, index (fields l) 0 = Returned p0.
Proof.
  unfold fields, index. destruct (split comma l) eqn:E; [|simpl; eauto].
  exfalso. exact (split_not_nil _ _ E).
Qed.

Lemma read_line_short l :
  date_line_match l = true -> (List.length (fields l) < 6)%nat ->
  exists e, Pipeline.read_line l = Raised e.
Proof.
  intros Hm Hlen. unfold Pipeline.read_line. rewrite Hm.
  rewrite (index_short (fields l) 5) by lia.
  destruct (index (fields l) 0); simpl; [|eauto].
  destruct (index (fields l) 4); simpl; [|eauto].
  destruct (Pipeline.parse_latlon _); simpl; eauto.
Qed.

Lemma read_line_no_latitude l :
  date_line_match l = true -> (List.length (fields l) <= 4)%nat ->
  Pipeline.read_line l = Raised IndexError.
Proof.
  intros Hm Hlen. unfold Pipeline.read_line. rewrite Hm.
  destruct (index_first_field l) as [p0 ->]. simpl.
  rewrite index_short by exact Hlen. reflexivity.
Qed.

Lemma read_line_no_longitude l p4 v :
  date_line_match l = true -> (List.length (fields l) < 6)%nat ->
  index (fields l) 4 = Returned p4 -> Pipeline.parse_latlon p4 = Returned v ->
  Pipeline.read_line l = Raised IndexError.
Proof.
  intros Hm Hlen H4 Hv. unfold Pipeline.read_line. rewrite Hm.
  destruct (index_first_field l) as [p0 ->]. simpl.
  rewrite H4. simpl. rewrite Hv. simpl.
  rewrite index_short by lia. reflexivity.
Qed.

Lemma mkdir_keeps_files w p w1 q :
  FS.mkdir_p w p = Returned w1 -> FS.files w1 q = FS.files w q.
Proof.
  unfold FS.mkdir_p. destruct (existsb _ _); [discriminate|].
  intros H. inversion H. reflexivity.
Qed.

Lemma main_aborts cfg ee p w text :
  FS.files w p = Some text ->
  (exists e, Pipeline.extract cfg ee text = Raised e) ->
  aborts_without_output (Pipeline.main cfg ee p w) w.
Proof.
  intros Ht [e He]. unfold aborts_without_output, Pipeline.main. rewrite Ht.
  destruct (FS.mkdir_p w (Pipeline.out_dir p)) as [w1|e1] eqn:Hd.
  - rewrite He. simpl. exists e. split; [reflexivity|].
    intros q. eapply mkdir_keeps_files; eauto.
  - simpl. exists e1. auto.
Qed.

Lemma extract_aborts_on_short_line cfg ee text l :
  In l (readlines text) -> date_line_match l = true ->
  (List.length (fields l) < 6)%nat ->
  exists e, Pipeline.extract cfg ee text = Raised e.
Proof.
  intros Hin Hm Hlen. unfold Pipeline.extract.
  destruct (EE.initialize ee) as [[]|e]; simpl; [|eauto].
  destruct (read_line_short l Hm Hlen) as [e He].
  destruct (for_each_raises Pipeline.read_line _ l e Hin He) as [e' ->].
  simpl. eauto.
Qed.

Lemma extract_IndexError cfg ee text pre l post items :
  EE.initialize ee = Returned tt ->
  readlines text = (pre ++ l :: post)%list ->
  for_each Pipeline.read_line pre = Returned items ->
  Pipeline.read_line l = Raised IndexError ->
  Pipeline.extract cfg ee text = Raised IndexError.
Proof.
  intros Hi Hl Hpre He. unfold Pipeline.extract. rewrite Hi, Hl. cbn [bind].
  rewrite (for_each_first_raise _ _ _ _ _ _ Hpre He). reflexivity.
Qed.

(** A fix line of five fields whose fifth is not a coordinate ends the
    run with the parser's [ValueError]: the record is malformed by its
    latitude, before the missing longitude is looked for. *)
Lemma short_line_can_fail_in_the_parser :
  date_line_match "19840901,AL,13,HU,xx" = true
  /\ List.length (fields "19840901,AL,13,HU,xx") = 5%nat
  /\ ExtractSST.extract constant_500 short_bad_text = Raised ValueError
  /\ snd (ExtractSST.main constant_500 track_path (one_file track_path short_bad_text))
     = Raised ValueError.
Proof. repeat split; vm_compute; reflexivity. Qed.

(** ** The end-to-end example *)

Lemma for_each_constant {A B} (f : A -> outcome B) xs v :
  (forall x, In x xs -> f x = Returned v) ->
  for_each f xs = Returned (repeat v (List.length xs)).
Proof.
  induction xs as [|x xs IH]; simpl; intros H; [reflexivity|].
  rewrite (H x (or_introl eq_refl)). simpl.
  rewrite IH by (intros; apply H; auto). reflexivity.
Qed.

Lemma constant_sample ee raw off base lon lat cfg :
  constant_source ee raw ->
  PyDate.toordinal first_padded_day + 15 <= PyDate.toordinal base ->
  PyDate.toordinal base + 15 <= PyDate.MAXORDINAL ->
  In off window ->
  (d <- PyDate.add_days base off ;;
   Pipeline.get_daily cfg ee (PyDate.strftime d) lon lat)
  = Returned (Pipeline.rescale cfg raw).
Proof.
  intros [_ [Hf [Hp Hc]]] H0 H2 Hoff. apply window_offsets in Hoff.
  assert (H1 : 15 < PyDate.toordinal base)
    by (change (PyDate.toordinal first_padded_day) with 364878 in H0; lia).
  destruct (add_days_in_range base off H1 H2 Hoff) as [-> Hr]. cbn [bind].
  pose proof (fromordinal_in_range _ Hr) as [Hy [Hm Hd]].
  assert (Hpad : 1000 <= PyDate.year (PyDate.fromordinal (PyDate.toordinal base + off)))
    by (apply fromordinal_year_padded; lia).
  destruct (strftime_ints _ Hpad Hy Hm Hd) as [Iy [Im Id]].
  destruct (Hf (Pipeline.collection cfg) (PyDate.year (PyDate.fromordinal (PyDate.toordinal base + off)))
               (PyDate.month (PyDate.fromordinal (PyDate.toordinal base + off)))
               (PyDate.day (PyDate.fromordinal (PyDate.toordinal base + off)))) as [im Hi].
  destruct (Hp lon lat) as [pt Hpt].
  rewrite (get_daily_guarded cfg ee _ lon lat _ _ _ Iy Im Id im pt Hi Hpt).
  rewrite Hc. reflexivity.
Qed.

Lemma lili_fields rest :
  rest = "" \/ starts_with comma rest = true ->
  index (fields ((lili_fix ++ rest) ++ String newline "")) 0 = Returned "19840901"
  /\ index (fields ((lili_fix ++ rest) ++ String newline "")) 4 = Returned "13.4N"
  /\ index (fields ((lili_fix ++ rest) ++ String newline "")) 5 = Returned "82.7W".
Proof.
  intros [-> | H].
  - repeat split.
  - destruct rest as [|c rest]; [discriminate|]. simpl in H.
    apply Ascii.eqb_eq in H. subst c. repeat split.
Qed.

Lemma lili_row rest :
  no_newline rest -> rest = "" \/ starts_with comma rest = true ->
  ExtractSST.read_line ((lili_fix ++ rest) ++ String newline "")
  = Returned (inr {| raw := lili_fix ++ rest; ymd := "19840901";
                     lat := f_13_4; lon := PyFloat.neg f_82_7 |}).
Proof.
  intros Hnl Hrest. unfold ExtractSST.read_line.
  change (date_line_match ((lili_fix ++ rest) ++ String newline "")) with true.
  destruct (lili_fields rest Hrest) as [-> [-> ->]]. cbn [bind].
  change (ExtractSST.parse_latlon "13.4N") with (Returned f_13_4).
  change (ExtractSST.parse_latlon "82.7W") with (Returned (PyFloat.neg f_82_7)).
  cbn [bind]. rewrite rstrip_nl_line; [reflexivity|].
  apply no_newline_app. split; [reflexivity | exact Hnl].
Qed.

(** C4, as the code has it: the values are six characters wide; with the
    blank of the separator a column reads ["   5.00"], never [" 5.00"]. *)
Lemma constant_500_columns_are_six_wide :
  exists out,
    ExtractSST.extract constant_500 (lines_text [lili_fix]) = Returned out
    /\ last_n 31 (split comma (rstrip_nl out)) = repeat "   5.00" 31
    /\ ~ In " 5.00" (last_n 31 (split comma (rstrip_nl out)))
    /\ PyFloat.format_6_2f (PyFloat.mul f_500 f_0_01) <> " 5.00".
Proof.
  eexists. split; [vm_compute; reflexivity|].
  split; [vm_compute; reflexivity|].
  split.
  - vm_compute. intuition discriminate.
  - vm_compute. discriminate.
Qed.

(** C4, amended. For the fix line [19840901,AL,13,HU,13.4N,82.7W] and
    whatever fields follow it, a source that answers 500 everywhere makes
    the OISST script write the line unchanged, then [", "], then 31 times
    the six characters ["  5.00"] joined by [", "]. *)
Theorem constant_500_gives_5_00 :
  forall (ee : EE.client) (rest : string),
    constant_source ee f_500 ->
    no_newline rest ->
    rest = "" \/ starts_with comma rest = true ->
    ExtractSST.extract ee (lines_text [lili_fix ++ rest])
    = Returned (lines_text [(lili_fix ++ rest) ++ ", " ++ join ", " (repeat "  5.00" 31)])
    /\ PyFloat.format_6_2f (PyFloat.mul f_500 f_0_01) = "  5.00".
Proof.
  intros ee rest Hsrc Hnl Hrest. split; [|reflexivity].
  unfold ExtractSST.extract.
  rewrite (proj1 Hsrc). cbn [bind].
  rewrite readlines_lines_text
    by (constructor; [apply no_newline_app; split; [reflexivity | exact Hnl] | constructor]).
  cbn [map for_each]. rewrite (lili_row rest Hnl Hrest). cbn [bind rows_of headers_of flat_map List.app].
  unfold ExtractSST.sample_rows. cbn [for_each]. unfold ExtractSST.sst_window.
  cbn [ymd lon lat].
  replace (PyDate.strptime "19840901")
    with (Returned {| PyDate.year := 1984; PyDate.month := 9; PyDate.day := 1 |})
    by (vm_compute; reflexivity).
  cbn [bind].
  rewrite (for_each_constant _ window (PyFloat.mul f_500 f_0_01)).
  - reflexivity.
  - intros off Hoff.
    apply (constant_sample ee f_500 off _ _ _ Pipeline.oisst_config Hsrc);
      [vm_compute; discriminate | vm_compute; discriminate | exact Hoff].
Qed.

Lemma constant_500_is_constant : constant_source constant_500 f_500.
Proof.
  split; [reflexivity|]. split; [intros; eexists; reflexivity|].
  split; [intros; eexists; reflexivity | reflexivity].
Qed.

Lemma constant_500_gives_5_00_witness :
  constant_source constant_500 f_500
  /\ no_newline ", 30, 1000"
  /\ ExtractSST.extract constant_500 (lines_text [lili_fix ++ ", 30, 1000"])
     = Returned (lines_text [(lili_fix ++ ", 30, 1000") ++ ", "
                             ++ join ", " (repeat "  5.00" 31)]).
Proof.
  split; [exact constant_500_is_constant|]. split; [reflexivity|].
  exact (proj1 (constant_500_gives_5_00 constant_500 ", 30, 1000"
                  constant_500_is_constant eq_refl (or_intror eq_refl))).
Defined.

(** ** Which lines the tools keep *)

Lemma date_line_match_spec line :
  date_line_match line = true <-> eight_digits_then_comma line.
Proof. apply digits_then_spec. Qed.

(** C6. The tools that test [^\d{8},] go on with a line exactly when its
    first eight characters are digits and the ninth is a comma; the
    extractors file every other line under the header and the scanner
    never yields one.  [plot_single_track_sst.py] tests only
    [line[:8].isdigit()]: a line of nine digits and 31 numbers passes its
    test and its length test although it is no fix line. *)
Theorem plot_single_track_test_ignores_comma :
  (forall line, Aggregators.keeps_line line = true <-> eight_digits_then_comma line)
  /\ (forall line, ~ eight_digits_then_comma line ->
        ExtractSST.read_line line = Returned (inl (rstrip_nl line))
        /\ ExtractHYCOM.read_line line = Returned (inl (rstrip_nl line))
        /\ FindMixed.yields line = false)
  /\ PlotSingleTrack.keeps_line nine_digit_line = true
  /\ PlotSingleTrack.reaches_conversion nine_digit_line = true
  /\ Aggregators.keeps_line nine_digit_line = false
  /\ ~ eight_digits_then_comma nine_digit_line.
Proof.
  split; [exact date_line_match_spec|].
  split.
  { intros line Hno.
    assert (Hm : date_line_match line = false).
    { destruct (date_line_match line) eqn:E; [|reflexivity].
      exfalso. apply Hno. apply date_line_match_spec. exact E. }
    unfold ExtractSST.read_line, ExtractHYCOM.read_line, FindMixed.yields.
    rewrite Hm. repeat split. }
  split; [reflexivity|]. split; [reflexivity|]. split; [reflexivity|].
  intros H. apply date_line_match_spec in H. discriminate H.
Qed.

Lemma rescale_is_linear_witness :
  PyInt.of_string (take 4 "19840901") = Returned 1984
  /\ PyInt.of_string (take 2 (drop 4 "19840901")) = Returned 9
  /\ PyInt.of_string (drop 6 "19840901") = Returned 1
  /\ EE.make_point constant_500 f_13_4 f_82_7 = here f_13_4 f_82_7
  /\ PyFloat.is_nan f_500 = false
  /\ ExtractSST.get_daily_sst constant_500 ExtractSST.oisst "19840901" f_13_4 f_82_7
     = Returned (PyFloat.mul f_500 f_0_01)
  /\ ExtractHYCOM.get_daily_water_temp constant_500 ExtractHYCOM.hycom "19840901"
       f_13_4 f_82_7
     = Returned (PyFloat.add (PyFloat.mul f_500 f_0_001) f_20).
Proof.
  destruct (rescale_is_linear constant_500 "19840901" f_13_4 f_82_7 1984 9 1
              {| EE.point_lon := f_13_4; EE.point_lat := f_82_7 |} f_500
              eq_refl eq_refl eq_refl eq_refl eq_refl) as [Hs [Hh _]].
  split; [reflexivity|]. split; [reflexivity|]. split; [reflexivity|].
  split; [reflexivity|]. split; [reflexivity|]. split.
  - exact (proj1 (Hs 0%nat eq_refl eq_refl)).
  - exact (Hh 0%nat eq_refl eq_refl).
Defined.

(** ** From the writer to the scanner *)

Lemma split_app_sep sep a b :
  split sep (a ++ String sep b) = (split sep a ++ split sep b)%list.
Proof.
  induction a as [|c a IH].
  - simpl. rewrite Ascii.eqb_refl. reflexivity.
  - change (split sep (String c (a ++ String sep b))
            = (split sep (String c a) ++ split sep b)%list).
    cbn [split]. rewrite IH. destruct (Ascii.eqb c sep); [reflexivity|].
    destruct (split sep a) eqn:E; [exfalso; exact (split_not_nil _ _ E) | reflexivity].
Qed.

Lemma split_no_sep sep s : mem sep s = false -> split sep s = [s].
Proof.
  induction s as [|c s IH]; [reflexivity|]. cbn [mem split].
  rewrite orb_false_iff, (Ascii.eqb_sym sep c). intros [-> Hs].
  rewrite (IH Hs). reflexivity.
Qed.

Lemma split_joined xs :
  xs <> [] -> Forall (fun x => mem comma x = false) xs ->
  split comma (String " " (join ", " xs)) = map (String " ") xs.
Proof.
  intros Hne H. induction H as [|x xs Hx Hxs IH]; [congruence|].
  destruct xs as [|y ys].
  - simpl join. rewrite split_no_sep; [reflexivity|]. simpl. exact Hx.
  - change (String " " (join ", " (x :: y :: ys)))
      with (String " " x ++ String comma (String " " (join ", " (y :: ys)))).
    rewrite split_app_sep, IH by discriminate.
    rewrite split_no_sep; [reflexivity | simpl; exact Hx].
Qed.

Lemma written_fields r vals :
  vals <> [] ->
  fields (ExtractSST.fix_line r vals)
  = (fields (raw r) ++ map (fun v => strip (String " " (PyFloat.format_6_2f v))) vals)%list.
Proof.
  intros Hne. unfold fields, ExtractSST.fix_line.
  change (raw r ++ ", " ++ join ", " (map PyFloat.format_6_2f vals))
    with (raw r ++ String comma (String " " (join ", " (map PyFloat.format_6_2f vals)))).
  rewrite split_app_sep, split_joined.
  - rewrite map_app, !map_map. reflexivity.
  - destruct vals; [congruence | discriminate].
  - apply Forall_forall. intros x Hx. apply in_map_iff in Hx as [v [<- _]].
    apply format_no_comma.
Qed.

Lemma last_n_app {A} (xs ys : list A) n :
  List.length ys = n -> last_n n (xs ++ ys) = ys.
Proof.
  intros <-. unfold last_n. rewrite length_app.
  replace (List.length xs + List.length ys - List.length ys)%nat with (List.length xs) by lia.
  rewrite skipn_app, skipn_all, Nat.sub_diag. reflexivity.
Qed.

Lemma written_tokens r vals :
  List.length vals = 31%nat ->
  (31 <= List.length (fields (ExtractSST.fix_line r vals)))%nat
  /\ last_n 31 (fields (ExtractSST.fix_line r vals))
     = map (fun v => strip (String " " (PyFloat.format_6_2f v))) vals.
Proof.
  intros Hlen.
  rewrite written_fields by (destruct vals; [discriminate | discriminate]).
  split.
  - rewrite length_app, length_map. lia.
  - apply last_n_app. rewrite length_map. exact Hlen.
Qed.

(** *** A token is missing exactly when its value is a NaN *)

Lemma mem_lstrip c p s : p c = false -> mem c (lstrip_with p s) = mem c s.
Proof.
  intros Hc. induction s as [|d s IH]; [reflexivity|]. cbn [lstrip_with].
  destruct (p d) eqn:Hd; [|reflexivity].
  rewrite IH. cbn [mem]. destruct (Ascii.eqb_spec c d); [congruence | reflexivity].
Qed.

Lemma mem_rstrip c p s : p c = false -> mem c (rstrip_with p s) = mem c s.
Proof.
  intros Hc. induction s as [|d s IH]; [reflexivity|]. cbn [rstrip_with mem].
  rewrite <- IH. destruct (rstrip_with p s) as [|e t]; [|reflexivity].
  destruct (p d) eqn:Hd; cbn [mem]; [|reflexivity].
  destruct (Ascii.eqb_spec c d); [congruence | reflexivity].
Qed.

Lemma lower_char_point d : Ascii.eqb point (lower_char d) = Ascii.eqb point d.
Proof. char_cases d. Qed.

Lemma mem_point_lower s : mem point (lower s) = mem point s.
Proof.
  induction s as [|d s IH]; [reflexivity|].
  change (lower (String d s)) with (String (lower_char d) (lower s)).
  cbn [mem]. rewrite IH, lower_char_point. reflexivity.
Qed.

Lemma pointed_not_missing tok : mem point tok = true -> FindMixed.is_missing tok = false.
Proof.
  intros H. unfold FindMixed.is_missing.
  assert (Hp : mem point (lower (strip tok)) = true).
  { rewrite mem_point_lower. unfold strip.
    rewrite mem_lstrip, mem_rstrip by reflexivity. exact H. }
  unfold FindMixed.MISSING_STRINGS. cbn [existsb].
  destruct (String.eqb_spec (lower (strip tok)) "nan") as [E|_];
    [rewrite E in Hp; discriminate|].
  destruct (String.eqb_spec (lower (strip tok)) "") as [E|_];
    [rewrite E in Hp; discriminate|].
  destruct (String.eqb_spec (lower (strip tok)) "-999") as [E|_];
    [rewrite E in Hp; discriminate|].
  reflexivity.
Qed.

Lemma fixed2_pointed h : mem point (PyFloat.fixed2 h) = true.
Proof.
  unfold PyFloat.fixed2. rewrite mem_app. cbn [mem].
  change (Ascii.eqb point ".") with true. rewrite orb_true_r. reflexivity.
Qed.

Lemma format_missing v : FindMixed.is_missing (PyFloat.format_6_2f v) = PyFloat.is_nan v.
Proof.
  destruct v as [[|]|[|]| |s m e]; try reflexivity.
  apply pointed_not_missing.
  unfold PyFloat.format_6_2f, PyFloat.pad_left. rewrite mem_app.
  cbn [PyFloat.format_2f]. rewrite mem_app, fixed2_pointed, !orb_true_r. reflexivity.
Qed.

Lemma strip_blank s : strip (String " " s) = strip s.
Proof.
  unfold strip. cbn [rstrip_with].
  destruct (rstrip_with is_space s); reflexivity.
Qed.

Lemma rstrip_idempotent p s : rstrip_with p (rstrip_with p s) = rstrip_with p s.
Proof.
  induction s as [|c t IH]; [reflexivity|]. cbn [rstrip_with].
  destruct (rstrip_with p t) as [|e u] eqn:E.
  - destruct (p c) eqn:Hc; [reflexivity|]. cbn [rstrip_with]. rewrite Hc. reflexivity.
  - cbn [rstrip_with]. cbn [rstrip_with] in IH. rewrite IH. reflexivity.
Qed.

Lemma lstrip_idempotent p s : lstrip_with p (lstrip_with p s) = lstrip_with p s.
Proof.
  induction s as [|c t IH]; [reflexivity|]. cbn [lstrip_with].
  destruct (p c) eqn:Hc; [exact IH|]. cbn [lstrip_with]. rewrite Hc. reflexivity.
Qed.

Lemma rstrip_after_lstrip p s :
  rstrip_with p s = s -> rstrip_with p (lstrip_with p s) = lstrip_with p s.
Proof.
  induction s as [|c t IH]; [reflexivity|]. intros H. cbn [lstrip_with].
  destruct (p c) eqn:Hc; [|exact H].
  apply IH. cbn [rstrip_with] in H. rewrite Hc in H.
  destruct (rstrip_with p t) as [|e u]; [discriminate | congruence].
Qed.

Lemma strip_idempotent s : strip (strip s) = strip s.
Proof.
  unfold strip.
  rewrite (rstrip_after_lstrip is_space (rstrip_with is_space s))
    by apply rstrip_idempotent.
  apply lstrip_idempotent.
Qed.

Lemma token_missing v :
  FindMixed.is_missing (strip (String " " (PyFloat.format_6_2f v))) = PyFloat.is_nan v.
Proof.
  rewrite <- format_missing. unfold FindMixed.is_missing.
  rewrite strip_blank, strip_idempotent. reflexivity.
Qed.

Lemma any_is_missing vals :
  FindMixed.any (map FindMixed.is_missing
                   (map (fun v => strip (String " " (PyFloat.format_6_2f v))) vals))
  = existsb PyFloat.is_nan vals
  /\ FindMixed.all (map FindMixed.is_missing
                   (map (fun v => strip (String " " (PyFloat.format_6_2f v))) vals))
     = forallb PyFloat.is_nan vals.
Proof.
  unfold FindMixed.any, FindMixed.all.
  induction vals as [|v vals [IH1 IH2]]; [split; reflexivity|].
  cbn [map existsb forallb]. rewrite token_missing, IH1, IH2. split; reflexivity.
Qed.

Lemma scanner_on_written_line r vals :
  date_line_match (raw r) = true -> List.length vals = 31%nat ->
  FindMixed.yields (ExtractSST.fix_line r vals)
  = existsb PyFloat.is_nan vals && negb (forallb PyFloat.is_nan vals).
Proof.
  intros Hm Hlen. unfold FindMixed.yields.
  assert (Hm' : date_line_match (ExtractSST.fix_line r vals) = true)
    by (apply digits_then_app; exact Hm).
  rewrite Hm'. cbn [negb].
  destruct (written_tokens r vals Hlen) as [Hge Htok].
  destruct (Nat.ltb_spec (List.length (fields (ExtractSST.fix_line r vals))) 31); [lia|].
  rewrite Htok. destruct (any_is_missing vals) as [-> ->]. reflexivity.
Qed.

(** * Properties *)

(** ** The two scripts are the pipeline at their configurations *)

Lemma sst_main_is_pipeline ee p w :
  ExtractSST.main ee p w = Pipeline.main Pipeline.oisst_config ee p w.
Proof. reflexivity. Qed.

Lemma hycom_main_is_pipeline ee p w :
  ExtractHYCOM.main ee p w = Pipeline.main Pipeline.hycom_config ee p w.
Proof. reflexivity. Qed.

(** ** Masks *)

Lemma any_map_true {A} (f : A -> bool) (l : list A) :
  FindMixed.any (map f l) = true <-> exists t, In t l /\ f t = true.
Proof.
  unfold FindMixed.any. rewrite existsb_exists. split.
  - intros [b [Hin Hb]]. apply in_map_iff in Hin as [t [Ht Hin]].
    exists t. subst b. now split.
  - intros [t [Hin Ht]]. exists (f t). split; [now apply in_map | exact Ht].
Qed.

Lemma all_map_false {A} (f : A -> bool) (l : list A) :
  FindMixed.all (map f l) = false <-> exists t, In t l /\ f t = false.
Proof.
  unfold FindMixed.all. induction l as [|a l IH]; simpl.
  - split; [discriminate | intros [t [[] _]]].
  - destruct (f a) eqn:Ha; simpl.
    + rewrite IH. split.
      * intros [t [Hin Ht]]. exists t. auto.
      * intros [t [[->|Hin] Ht]]; [congruence | exists t; auto].
    + split; [intros _; exists a; auto | reflexivity].
Qed.

Lemma mixed_rows_from_spec (lines : list string) : forall k n s,
  In (n, s) (FindMixed.mixed_rows_from k lines) <->
  exists i line, nth_error lines i = Some line /\ n = (k + i)%nat
                 /\ s = rstrip_nl line /\ FindMixed.yields line = true.
Proof.
  induction lines as [|l lines IH]; intros k n s; simpl.
  - split; [intros [] | intros [i [line [H _]]]; destruct i; discriminate].
  - destruct (FindMixed.yields l) eqn:Hy; simpl; rewrite IH; split.
    + intros [Heq | [i [line [Hn [-> [-> Hl]]]]]].
      * inversion Heq; subst. exists 0%nat, l. repeat split; auto; try lia.
      * exists (S i), line. repeat split; auto; try lia.
    + intros [[|i] [line [Hn [-> [-> Hl]]]]]; simpl in Hn.
      * left. inversion Hn; subst. f_equal; try lia.
      * right. exists i, line. repeat split; auto; try lia.
    + intros [i [line [Hn [-> [-> Hl]]]]].
      exists (S i), line. repeat split; auto; try lia.
    + intros [[|i] [line [Hn [-> [-> Hl]]]]]; simpl in Hn.
      * inversion Hn; subst. congruence.
      * exists i, line. repeat split; auto; try lia.
Qed.

(** C10. A missing sample leaves the record writer as the six characters
    ["   nan"]; trimmed and lowered that token is ["nan"], which the
    scanner's [is_missing] accepts.  In a written fix line the scanner
    finds ["nan"] at the place of that sample among the last 31 fields;
    and no other value is written as a token that [is_missing] accepts. *)
Theorem missing_marker_round_trip :
  forall (r : row) (vals : list PyFloat.float) (k : nat) (v : PyFloat.float),
    List.length vals = 31%nat ->
    nth_error vals k = Some v ->
    PyFloat.is_nan v = true ->
    PyFloat.format_6_2f v = "   nan"
    /\ lower (strip (PyFloat.format_6_2f v)) = "nan"
    /\ FindMixed.is_missing (PyFloat.format_6_2f v) = true
    /\ nth_error (last_n 31 (fields (ExtractSST.fix_line r vals))) k = Some "nan"
    /\ nth_error (last_n 31 (fields (ExtractHYCOM.fix_line r vals))) k = Some "nan"
    /\ FindMixed.is_missing "nan" = true
    /\ (forall v', FindMixed.is_missing (PyFloat.format_6_2f v') = PyFloat.is_nan v').
Proof.
  intros r vals k v Hlen Hk Hv. destruct v; try discriminate.
  assert (Htok : nth_error (last_n 31 (fields (ExtractSST.fix_line r vals))) k = Some "nan").
  { rewrite (proj2 (written_tokens r vals Hlen)).
    rewrite nth_error_map, Hk. reflexivity. }
  repeat split; try exact Htok. exact format_missing.
Qed.

Lemma missing_marker_round_trip_witness :
  List.length (PyFloat.nan :: repeat f_5 30) = 31%nat
  /\ nth_error (PyFloat.nan :: repeat f_5 30) 0 = Some PyFloat.nan
  /\ PyFloat.is_nan PyFloat.nan = true
  /\ PyFloat.format_6_2f PyFloat.nan = "   nan"
  /\ nth_error (last_n 31 (fields (ExtractSST.fix_line sample_fix
                                     (PyFloat.nan :: repeat f_5 30)))) 0 = Some "nan".
Proof.
  pose proof (missing_marker_round_trip sample_fix (PyFloat.nan :: repeat f_5 30) 0
                PyFloat.nan eq_refl eq_refl eq_refl) as [H1 [_ [_ [H4 _]]]].
  split; [reflexivity|]. split; [reflexivity|]. split; [reflexivity|].
  split; [exact H1 | exact H4].
Defined.

(** * The files, the tally, the loaders and the calendar *)

(** ** Paths: the output never lands on the input *)

Lemma rsplit_dot_spec s b a : FS.rsplit_dot s = Some (b, a) -> s = b ++ String "." a.
Proof.
  revert b a. induction s as [|c s IH]; intros b a; simpl; [discriminate|].
  destruct (FS.rsplit_dot s) as [[b' a']|] eqn:E.
  - intros H. inversion H; subst. simpl. f_equal. apply IH. reflexivity.
  - destruct (Ascii.eqb_spec c "."); [|discriminate].
    intros H. inversion H; subst. reflexivity.
Qed.

Lemma append_same_prefix (a b c : string) : a ++ b = a ++ c -> b = c.
Proof. induction a; simpl; intros H; [exact H | inversion H; auto]. Qed.

Lemma append_not_longer (a b : string) : a ++ b = a -> b = "".
Proof.
  intros H. apply (append_same_prefix a). rewrite H. symmetry. apply append_nil_r.
Qed.

Lemma last_two {A} (xs : list A) a b d : List.last (xs ++ [a; b]) d = b.
Proof.
  change (xs ++ [a; b])%list with (xs ++ [a] ++ [b])%list.
  rewrite app_assoc. apply last_last.
Qed.

Lemma stem_plus_suffix p c suf :
  Ascii.eqb c "." = false -> FS.name p <> FS.stem p ++ String c suf.
Proof.
  intros Hc H. unfold FS.stem in H.
  destruct (FS.rsplit_dot (FS.name p)) as [[b a]|] eqn:E.
  - destruct (is_empty b || is_empty a).
    + symmetry in H. apply append_not_longer in H. discriminate.
    + apply rsplit_dot_spec in E. rewrite E in H.
      apply append_same_prefix in H. inversion H; subst.
      rewrite Ascii.eqb_refl in Hc. discriminate.
  - symmetry in H. apply append_not_longer in H. discriminate.
Qed.

Lemma out_file_not_input cfg p c suf :
  Pipeline.suffix cfg = String c suf -> Ascii.eqb c "." = false ->
  Pipeline.out_file cfg p <> p.
Proof.
  intros Hs Hc H.
  apply (stem_plus_suffix p c suf Hc).
  unfold FS.name at 1. rewrite <- H at 1.
  unfold Pipeline.out_file, Pipeline.out_dir. rewrite <- app_assoc. cbn [List.app].
  rewrite last_two, Hs. reflexivity.
Qed.

Lemma path_eqb_eq p q : FS.path_eqb p q = true <-> p = q.
Proof.
  unfold FS.path_eqb. destruct (list_eq_dec string_dec p q); split; congruence.
Qed.

Lemma write_text_other w p text q :
  q <> p -> FS.files (FS.write_text w p text) q = FS.files w q.
Proof.
  intros H. simpl. destruct (FS.path_eqb q p) eqn:E; [|reflexivity].
  apply path_eqb_eq in E. congruence.
Qed.

(** What a run does to the files, whatever its outcome. *)
Lemma main_frame cfg ee p w c suf :
  Pipeline.suffix cfg = String c suf -> Ascii.eqb c "." = false ->
  (forall q, q <> Pipeline.out_file cfg p ->
     FS.files (fst (Pipeline.main cfg ee p w)) q = FS.files w q)
  /\ FS.files (fst (Pipeline.main cfg ee p w)) p = FS.files w p
  /\ (forall e, snd (Pipeline.main cfg ee p w) = Raised e ->
        forall q, FS.files (fst (Pipeline.main cfg ee p w)) q = FS.files w q)
  /\ (FS.files w p = None ->
        Pipeline.main cfg ee p w = (w, Raised (SystemExit "not found"))).
Proof.
  intros Hs Hc.
  assert (Hother : forall q, q <> Pipeline.out_file cfg p ->
     FS.files (fst (Pipeline.main cfg ee p w)) q = FS.files w q).
  { intros q Hq. unfold Pipeline.main.
    destruct (FS.files w p) as [text|]; [|reflexivity].
    destruct (FS.mkdir_p w (Pipeline.out_dir p)) as [w1|e] eqn:Hd; [|reflexivity].
    destruct (Pipeline.extract cfg ee text) as [out|e]; simpl.
    - destruct (FS.path_eqb q (Pipeline.out_file cfg p)) eqn:E.
      + apply path_eqb_eq in E. congruence.
      + eapply mkdir_keeps_files; eauto.
    - eapply mkdir_keeps_files; eauto. }
  split; [exact Hother|]. split.
  - apply Hother. intros H. symmetry in H. revert H. eapply out_file_not_input; eauto.
  - split.
    + intros e. unfold Pipeline.main.
      destruct (FS.files w p) as [text|]; [|reflexivity].
      destruct (FS.mkdir_p w (Pipeline.out_dir p)) as [w1|e1] eqn:Hd; [|reflexivity].
      destruct (Pipeline.extract cfg ee text) as [out|e2]; simpl; [discriminate|].
      intros _ q. eapply mkdir_keeps_files; eauto.
    + intros Hn. unfold Pipeline.main. rewrite Hn. reflexivity.
Qed.

(** ** Running twice *)

Lemma prefixes_length p q : In q (FS.prefixes p) -> (List.length q <= List.length p)%nat.
Proof.
  revert q. induction p as [|c p IH]; simpl; intros q.
  - intros [<- | []]. simpl. lia.
  - intros [<- | H]; [simpl; lia|].
    apply in_map_iff in H as [q' [<- Hq]]. simpl. apply IH in Hq. lia.
Qed.

Lemma out_file_not_prefix cfg p : ~ In (Pipeline.out_file cfg p) (FS.prefixes (Pipeline.out_dir p)).
Proof.
  intros H. apply prefixes_length in H.
  unfold Pipeline.out_file in H. rewrite length_app in H. simpl in H. lia.
Qed.

Lemma existsb_ext_in {A} (f g : A -> bool) l :
  (forall x, In x l -> f x = g x) -> existsb f l = existsb g l.
Proof.
  induction l as [|a l IH]; simpl; intros H; [reflexivity|].
  rewrite (H a (or_introl eq_refl)), IH by auto. reflexivity.
Qed.

Lemma rerun_same_world cfg ee p w w1 :
  Pipeline.main cfg ee p w = (w1, Returned tt) ->
  FS.files w1 p = FS.files w p ->
  exists w2,
    Pipeline.main cfg ee p w1 = (w2, Returned tt)
    /\ (forall q, FS.files w2 q = FS.files w1 q)
    /\ (forall q, FS.dirs w2 q = FS.dirs w1 q).
Proof.
  intros Hmain Hin.
  destruct (main_returns _ _ _ _ _ Hmain) as [text [wm [out [Ht [Hd [Hex ->]]]]]].
  unfold Pipeline.main. rewrite Hin, Ht.
  assert (Hfiles : forall q, FS.files wm q = FS.files w q)
    by (intros q; eapply mkdir_keeps_files; eauto).
  unfold FS.mkdir_p in Hd |- *.
  destruct (existsb (FS.is_file w) (FS.prefixes (Pipeline.out_dir p))) eqn:Hno;
    [discriminate|].
  inversion Hd; subst wm. clear Hd.
  set (w1 := FS.write_text _ _ out).
  assert (Hno1 : existsb (FS.is_file w1) (FS.prefixes (Pipeline.out_dir p)) = false).
  { rewrite <- Hno. apply existsb_ext_in. intros q Hq.
    unfold FS.is_file, w1. rewrite write_text_other; [reflexivity|].
    intros ->. exact (out_file_not_prefix cfg p Hq). }
  rewrite Hno1, Hex.
  eexists. split; [reflexivity|]. split.
  - intros q. simpl. destruct (FS.path_eqb q (Pipeline.out_file cfg p)); reflexivity.
  - intros q. simpl. destruct (FS.dirs w q); simpl; [reflexivity|].
    destruct (existsb (FS.path_eqb q) (FS.prefixes (Pipeline.out_dir p))); reflexivity.
Qed.

(** ** A newline at the end of a line does not change its fields *)

Lemma split_snoc_text sep s t :
  mem sep t = false ->
  exists fs f, split sep s = (fs ++ [f])%list /\ split sep (s ++ t) = (fs ++ [(f ++ t)%string])%list.
Proof.
  intros Ht. induction s as [|c s [fs [f [H1 H2]]]].
  - exists [], "". split; [reflexivity|]. simpl. apply split_no_sep. exact Ht.
  - change (String c s ++ t) with (String c (s ++ t)). cbn [split].
    rewrite H1, H2. destruct (Ascii.eqb c sep).
    + exists ("" :: fs), f. split; reflexivity.
    + destruct fs as [|g gs]; simpl.
      * exists [], (String c f). split; reflexivity.
      * exists (String c g :: gs), f. split; reflexivity.
Qed.

Lemma rstrip_all p t : all_chars p t = true -> rstrip_with p t = "".
Proof.
  induction t as [|c t IH]; [reflexivity|]. simpl.
  rewrite andb_true_iff. intros [Hc Ht]. rewrite (IH Ht), Hc. reflexivity.
Qed.

Lemma rstrip_app_all p f t :
  all_chars p t = true -> rstrip_with p (f ++ t) = rstrip_with p f.
Proof.
  intros Ht. induction f as [|c f IH]; [simpl; apply rstrip_all; exact Ht|].
  change (String c f ++ t) with (String c (f ++ t)). cbn [rstrip_with].
  rewrite IH. reflexivity.
Qed.

Lemma fields_newline s : fields (s ++ String newline "") = fields s.
Proof.
  unfold fields.
  destruct (split_snoc_text comma s (String newline "") eq_refl) as [fs [f [H1 H2]]].
  rewrite H1, H2, !map_app. f_equal. simpl. f_equal.
  unfold strip. rewrite rstrip_app_all by reflexivity. reflexivity.
Qed.

Lemma yields_newline s : FindMixed.yields (s ++ String newline "") = FindMixed.yields s.
Proof.
  unfold FindMixed.yields. rewrite fields_newline.
  unfold date_line_match. rewrite digits_then_newline. reflexivity.
Qed.

(** ** The lines of a written file *)

Lemma extraction_lines cfg ee text out :
  Pipeline.extract cfg ee text = Returned out ->
  exists items cols,
    for_each Pipeline.read_line (readlines text) = Returned items
    /\ Forall2 (fun r vals => Pipeline.sample_window cfg ee r = Returned vals)
               (rows_of items) cols
    /\ Forall2 (fun l r => Pipeline.read_line l = Returned (inr r) /\ raw r = rstrip_nl l)
               (filter date_line_match (readlines text)) (rows_of items)
    /\ headers_of items = header_lines text
    /\ (forall h, In h (headers_of items) -> no_newline h /\ date_line_match h = false)
    /\ (forall r, In r (rows_of items) -> no_newline (raw r) /\ date_line_match (raw r) = true)
    /\ out = lines_text (headers_of items
                         ++ map (fun rc => Pipeline.fix_line (fst rc) (snd rc))
                                (combine (rows_of items) cols)).
Proof.
  intros Hex.
  destruct (extract_returns _ _ _ _ Hex) as [items [cols [_ [Hread [_ [Hsample ->]]]]]].
  destruct (read_track _ _ Hread) as [Hh Hrows].
  apply for_each_Forall2 in Hsample.
  pose proof (readlines_shape text) as Hshape. rewrite Forall_forall in Hshape.
  exists items, cols. repeat split; auto.
  - rewrite Hh in H. apply in_map_iff in H as [l [<- Hl]].
    apply filter_In in Hl as [Hl _]. apply line_shape_rstrip. auto.
  - rewrite Hh in H. apply in_map_iff in H as [l [<- Hl]].
    apply filter_In in Hl as [Hl Hm]. rewrite date_line_match_line by auto.
    apply negb_true_iff. exact Hm.
  - destruct (Forall2_In_r _ _ _ _ Hrows H) as [l [Hl [_ Hraw]]].
    apply filter_In in Hl as [Hl _]. rewrite Hraw. apply line_shape_rstrip. auto.
  - destruct (Forall2_In_r _ _ _ _ Hrows H) as [l [Hl [_ Hraw]]].
    apply filter_In in Hl as [Hl Hm]. rewrite Hraw, date_line_match_line by auto.
    exact Hm.
Qed.

Lemma window_has_31 cfg ee r vals :
  Pipeline.sample_window cfg ee r = Returned vals -> List.length vals = 31%nat.
Proof.
  intros H. destruct (sample_window_in_order _ _ _ _ H) as [_ [_ [Hl _]]]. exact Hl.
Qed.

Lemma readlines_written hs fs :
  Forall no_newline hs -> Forall no_newline fs ->
  readlines (lines_text (hs ++ fs))
  = (map (fun l => (l ++ String newline "")%string) hs
     ++ map (fun l => (l ++ String newline "")%string) fs)%list.
Proof.
  intros H1 H2. rewrite readlines_lines_text by (apply Forall_app; auto).
  apply map_app.
Qed.

Lemma nth_error_combine_inv {A B} (xs : list A) (ys : list B) i x y :
  nth_error (combine xs ys) i = Some (x, y) ->
  nth_error xs i = Some x /\ nth_error ys i = Some y.
Proof.
  revert ys i. induction xs as [|a xs IH]; intros ys i H.
  - destruct i; discriminate.
  - destruct ys as [|b ys]; [destruct i; discriminate|].
    destruct i; simpl in *; [inversion H; auto | auto].
Qed.

Lemma Forall2_nth_error_r {A B} (R : A -> B -> Prop) xs ys i y :
  Forall2 R xs ys -> nth_error ys i = Some y ->
  exists x, nth_error xs i = Some x /\ R x y.
Proof.
  intros H. revert i. induction H as [|a b xs ys Hab H IH]; intros i Hi.
  - destruct i; discriminate.
  - destruct i; simpl in *; [inversion Hi; subst; eauto | auto].
Qed.

(** X4. On the file [extract_sst.py] writes, the scanner reports exactly
    the fixes whose window holds a NaN and a number: fix [i] of the
    track is reported under the number of its line in the output, the
    headers counted, with the line written for it. *)
Theorem scanner_reports_partly_sampled_fixes ee text out :
  ExtractSST.extract ee text = Returned out ->
  forall n s,
    In (n, s) (FindMixed.mixed_rows out) <->
    exists i l r vals,
      nth_error (filter date_line_match (readlines text)) i = Some l
      /\ ExtractSST.read_line l = Returned (inr r)
      /\ ExtractSST.sst_window ee r = Returned vals
      /\ n = S (List.length (header_lines text) + i)
      /\ s = ExtractSST.fix_line r vals
      /\ existsb PyFloat.is_nan vals = true
      /\ forallb PyFloat.is_nan vals = false.
Proof.
  intros Hex n s.
  change (Pipeline.extract Pipeline.oisst_config ee text = Returned out) in Hex.
  destruct (extraction_lines _ _ _ _ Hex)
    as [items [cols [Hread [Hsample [Hrows [Hh [Hhs [Hrs ->]]]]]]]].
  set (rows := rows_of items) in *. set (hs := headers_of items) in *.
  set (fl := fun rc : row * list PyFloat.float => Pipeline.fix_line (fst rc) (snd rc)).
  set (nl := fun l : string => l ++ String newline "").
  assert (Hnh : Forall no_newline hs) by (apply Forall_forall; intros h Hin; apply Hhs; exact Hin).
  assert (Hnf : Forall no_newline (map fl (combine rows cols))).
  { apply Forall_forall. intros f Hin. apply in_map_iff in Hin as [[r vals] [<- Hin]].
    apply in_combine_l in Hin. apply no_newline_fix_line. apply Hrs. exact Hin. }
  unfold FindMixed.mixed_rows. rewrite readlines_written by assumption. fold nl.
  rewrite mixed_rows_from_spec. rewrite <- Hh. fold hs.
  split.
  - intros [j [line [Hj [-> [-> Hy]]]]].
    destruct (Nat.lt_ge_cases j (List.length (map nl hs))) as [Hlt | Hge].
    + rewrite nth_error_app1 in Hj by exact Hlt.
      rewrite nth_error_map in Hj.
      destruct (nth_error hs j) as [h|] eqn:Eh; [|discriminate].
      simpl in Hj. inversion Hj; subst line. unfold nl in Hy.
      rewrite yields_newline in Hy. unfold FindMixed.yields in Hy.
      apply nth_error_In in Eh. rewrite (proj2 (Hhs h Eh)) in Hy. discriminate.
    + rewrite nth_error_app2 in Hj by exact Hge.
      rewrite length_map in Hj, Hge.
      set (i := (j - List.length hs)%nat) in *.
      rewrite !nth_error_map in Hj.
      destruct (nth_error (combine rows cols) i) as [[r vals]|] eqn:Ec; [|discriminate].
      simpl in Hj. inversion Hj; subst line. clear Hj.
      destruct (nth_error_combine_inv _ _ _ _ _ Ec) as [Hr Hv].
      destruct (Forall2_nth_error_r _ _ _ _ _ Hrows Hr) as [l [Hl [Hrd _]]].
      destruct (Forall2_nth_error _ _ _ _ _ Hsample Hr) as [vals' [Hv' Hw]].
      rewrite Hv in Hv'. inversion Hv'; subst vals'.
      unfold nl, fl in Hy |- *. simpl fst in *. simpl snd in *.
      rewrite yields_newline in Hy.
      change (Pipeline.fix_line r vals) with (ExtractSST.fix_line r vals) in Hy.
      rewrite scanner_on_written_line in Hy;
        [| apply Hrs; eapply nth_error_In; eauto | eapply window_has_31; eauto ].
      apply andb_true_iff in Hy as [Hy1 Hy2]. apply negb_true_iff in Hy2.
      exists i, l, r, vals. repeat split; auto.
      * f_equal. unfold i. lia.
      * apply rstrip_nl_line. apply no_newline_fix_line. apply Hrs.
        eapply nth_error_In; eauto.
  - intros [i [l [r [vals [Hl [Hrd [Hw [-> [-> [Hy1 Hy2]]]]]]]]]].
    destruct (Forall2_nth_error _ _ _ _ _ Hrows Hl) as [r' [Hr [Hrd' _]]].
    change (ExtractSST.read_line l) with (Pipeline.read_line l) in Hrd.
    rewrite Hrd in Hrd'. inversion Hrd'; subst r'.
    destruct (Forall2_nth_error _ _ _ _ _ Hsample Hr) as [vals' [Hv Hw']].
    change (ExtractSST.sst_window ee r) with (Pipeline.sample_window Pipeline.oisst_config ee r) in Hw.
    rewrite Hw in Hw'. inversion Hw'; subst vals'.
    exists (List.length hs + i)%nat, (nl (fl (r, vals))).
    assert (Hraw : no_newline (raw r) /\ date_line_match (raw r) = true)
      by (apply Hrs; eapply nth_error_In; eauto).
    repeat split.
    + rewrite nth_error_app2 by (rewrite length_map; lia).
      rewrite length_map.
      replace (List.length hs + i - List.length hs)%nat with i by lia.
      rewrite !nth_error_map, (nth_error_combine _ _ _ _ _ Hr Hv). reflexivity.
    + unfold nl, fl. simpl. symmetry. apply rstrip_nl_line.
      apply no_newline_fix_line. apply Hraw.
    + unfold nl, fl. simpl fst. simpl snd. rewrite yields_newline.
      change (Pipeline.fix_line r vals) with (ExtractSST.fix_line r vals).
      rewrite scanner_on_written_line;
        [| apply Hraw | eapply window_has_31; eauto ].
      rewrite Hy1, Hy2. reflexivity.
Qed.

(** ** The scanner reports in file order *)

Lemma mixed_rows_from_sorted lines : forall k,
  StronglySorted lt (map fst (FindMixed.mixed_rows_from k lines))
  /\ Forall (fun n => (k <= n < k + List.length lines)%nat)
            (map fst (FindMixed.mixed_rows_from k lines)).
Proof.
  induction lines as [|l lines IH]; intros k; simpl.
  - split; constructor.
  - destruct (IH (S k)) as [Hs Hb].
    assert (Hb' : Forall (fun n => (k <= n < k + S (List.length lines))%nat)
                    (map fst (FindMixed.mixed_rows_from (S k) lines))).
    { eapply Forall_impl; [|exact Hb]. simpl. intros n Hn. lia. }
    destruct (FindMixed.yields l); simpl.
    + split.
      * constructor; [exact Hs|]. eapply Forall_impl; [|exact Hb]. simpl. intros n Hn. lia.
      * constructor; [lia | exact Hb'].
    + split; [exact Hs | exact Hb'].
Qed.

(** ** The counter *)

Lemma get_incr c k s :
  Counter.get (Counter.incr c k) s
  = (Counter.get c s + (if String.eqb k s then 1 else 0))%nat.
Proof.
  unfold Counter.get. induction c as [|[k' n] c IH]; simpl.
  - destruct (String.eqb k s); reflexivity.
  - destruct (String.eqb_spec k' k) as [->|Hk]; simpl.
    + destruct (String.eqb k s); simpl; lia.
    + destruct (String.eqb_spec k' s) as [->|Hs]; simpl.
      * destruct (String.eqb_spec k s); [congruence | lia].
      * exact IH.
Qed.

Lemma total_incr c k : Counter.total (Counter.incr c k) = S (Counter.total c).
Proof.
  induction c as [|[k' n] c IH]; simpl; [reflexivity|].
  destruct (String.eqb k' k); simpl; [reflexivity | rewrite IH; lia].
Qed.

Lemma keys_incr c k x :
  In x (map fst (Counter.incr c k)) <-> x = k \/ In x (map fst c).
Proof.
  induction c as [|[k' n] c IH]; simpl; [intuition auto|].
  destruct (String.eqb_spec k' k) as [->|Hk]; simpl; [intuition auto|].
  rewrite IH. intuition auto.
Qed.

Lemma nodup_incr c k : NoDup (map fst c) -> NoDup (map fst (Counter.incr c k)).
Proof.
  induction c as [|[k' n] c IH]; simpl; intros H.
  - constructor; [intros [] | constructor].
  - inversion H as [|? ? Hnot Hc]; subst.
    destruct (String.eqb_spec k' k) as [->|Hk]; simpl.
    + constructor; assumption.
    + constructor; [|auto]. rewrite keys_incr. intros [E | Hin]; [congruence | auto].
Qed.

Lemma positive_incr c k :
  Forall (fun kv => (0 < snd kv)%nat) c ->
  Forall (fun kv => (0 < snd kv)%nat) (Counter.incr c k).
Proof.
  induction 1 as [|[k' n] c Hn Hc IH]; simpl.
  - constructor; [simpl; lia | constructor].
  - destruct (String.eqb k' k); constructor; simpl in *; auto; lia.
Qed.

Lemma count_line_status c l :
  CountStatus.count_line c l
  = match status_of l with Some s => Counter.incr c s | None => c end.
Proof.
  unfold CountStatus.count_line, status_of.
  destruct (date_line_match l); cbn [negb andb]; [|reflexivity].
  destruct (4 <=? List.length (fields l))%nat; cbn [andb]; [|reflexivity].
  destruct (negb (is_empty (nth 3 (fields l) ""))); reflexivity.
Qed.

Lemma status_not_empty l : status_of l <> Some "".
Proof.
  unfold status_of.
  destruct (date_line_match l && (4 <=? List.length (fields l))%nat);
    cbn [andb]; [|discriminate].
  destruct (nth 3 (fields l) "") eqn:E; cbn [is_empty negb]; [discriminate|].
  intros H. inversion H.
Qed.

Lemma fold_count_lines lines : forall c s,
  Counter.get (fold_left CountStatus.count_line lines c) s
  = (Counter.get c s + List.length (filter (counts_as s) lines))%nat
  /\ Counter.total (fold_left CountStatus.count_line lines c)
     = (Counter.total c + List.length (filter counted lines))%nat
  /\ (NoDup (map fst c) -> NoDup (map fst (fold_left CountStatus.count_line lines c)))
  /\ (Forall (fun kv => (0 < snd kv)%nat) c ->
      Forall (fun kv => (0 < snd kv)%nat) (fold_left CountStatus.count_line lines c)).
Proof.
  induction lines as [|l lines IH]; intros c s; simpl.
  - repeat split; auto; lia.
  - destruct (IH (CountStatus.count_line c l) s) as [H1 [H2 [H3 H4]]].
    rewrite H1, H2. rewrite count_line_status in *.
    unfold counts_as, counted.
    destruct (status_of l) as [s'|]; simpl.
    + rewrite get_incr, total_incr. repeat split.
      * destruct (String.eqb s' s); simpl; lia.
      * lia.
      * intros Hn. apply H3. apply nodup_incr. exact Hn.
      * intros Hp. apply H4. apply positive_incr. exact Hp.
    + repeat split; auto.
Qed.

Lemma counts_as_empty l : counts_as "" l = false.
Proof.
  unfold counts_as. pose proof (status_not_empty l) as H.
  destruct (status_of l) as [s|]; [|reflexivity].
  destruct (String.eqb_spec s ""); [subst; congruence | reflexivity].
Qed.

(** ** Several files *)

Lemma fold_accumulate texts : forall c s,
  Counter.get (fold_left (fun counts text => CountStatus.accumulate_counts text counts) texts c) s
  = (Counter.get c s + list_sum (map (tally_of s) texts))%nat
  /\ Counter.total (fold_left (fun counts text => CountStatus.accumulate_counts text counts) texts c)
     = (Counter.total c
        + list_sum (map (fun text => List.length (filter counted (readlines text))) texts))%nat.
Proof.
  induction texts as [|t texts IH]; intros c s; simpl.
  - split; lia.
  - destruct (IH (CountStatus.accumulate_counts t c) s) as [H1 H2]. rewrite H1, H2.
    unfold CountStatus.accumulate_counts.
    destruct (fold_count_lines (readlines t) c s) as [G1 [G2 _]]. rewrite G1, G2.
    unfold tally_of. split; lia.
Qed.

Lemma list_sum_permutation l l' : Permutation l l' -> list_sum l = list_sum l'.
Proof. induction 1; simpl; lia. Qed.

(** ** [most_common] *)

Lemma insert_desc_perm kv l : Permutation (Counter.insert_desc kv l) (kv :: l).
Proof.
  induction l as [|x l IH]; simpl; [reflexivity|].
  destruct (snd kv <? snd x)%nat; [|reflexivity].
  rewrite IH. apply perm_swap.
Qed.

Lemma insert_desc_sorted kv l :
  StronglySorted by_count_desc l -> StronglySorted by_count_desc (Counter.insert_desc kv l).
Proof.
  induction 1 as [|x l Hl IH Hx]; simpl.
  - constructor; constructor.
  - destruct (Nat.ltb_spec (snd kv) (snd x)).
    + constructor; [exact IH|].
      eapply Permutation_Forall; [symmetry; apply insert_desc_perm|].
      constructor; [unfold by_count_desc; lia | exact Hx].
    + constructor; [constructor; assumption|].
      constructor; [unfold by_count_desc; lia|].
      eapply Forall_impl; [|exact Hx]. unfold by_count_desc. intros a Ha. lia.
Qed.

Lemma insert_desc_stable kv l n :
  StronglySorted by_count_desc l ->
  filter (fun x => (snd x =? n)%nat) (Counter.insert_desc kv l)
  = filter (fun x => (snd x =? n)%nat) (kv :: l).
Proof.
  induction 1 as [|x l Hl IH Hx]; [reflexivity|]. cbn [Counter.insert_desc].
  destruct (Nat.ltb_spec (snd kv) (snd x)); [|reflexivity].
  cbn [filter]. cbn [filter] in IH. rewrite IH.
  destruct (Nat.eqb_spec (snd x) n), (Nat.eqb_spec (snd kv) n); try reflexivity. lia.
Qed.

Lemma most_common_spec c :
  Permutation (Counter.most_common c) c
  /\ StronglySorted by_count_desc (Counter.most_common c)
  /\ forall n, filter (fun x => (snd x =? n)%nat) (Counter.most_common c)
               = filter (fun x => (snd x =? n)%nat) c.
Proof.
  unfold Counter.most_common. induction c as [|kv c [IH1 [IH2 IH3]]]; simpl.
  - repeat split; constructor.
  - repeat split.
    + rewrite insert_desc_perm. constructor. exact IH1.
    + apply insert_desc_sorted. exact IH2.
    + intros n. rewrite insert_desc_stable by exact IH2. simpl. rewrite IH3. reflexivity.
Qed.

(** ** The tally of a written file *)

Lemma fold_count_statuses lines : forall c,
  fold_left CountStatus.count_line lines c = fold_left Counter.incr (statuses lines) c.
Proof.
  induction lines as [|l lines IH]; intros c; [reflexivity|].
  cbn [fold_left]. rewrite IH, count_line_status. unfold statuses. cbn [flat_map].
  destruct (status_of l); reflexivity.
Qed.

Lemma status_of_header l : date_line_match l = false -> status_of l = None.
Proof. intros H. unfold status_of. rewrite H. reflexivity. Qed.

Lemma statuses_fixes lines : statuses lines = statuses (filter date_line_match lines).
Proof.
  unfold statuses. induction lines as [|l lines IH]; [reflexivity|]. cbn [flat_map filter].
  destruct (date_line_match l) eqn:E.
  - cbn [flat_map]. rewrite IH. reflexivity.
  - rewrite (status_of_header l E). exact IH.
Qed.

Lemma statuses_headers hs :
  (forall h, In h hs -> date_line_match h = false) ->
  statuses (map (fun l => l ++ String newline "") hs) = [].
Proof.
  intros H. unfold statuses. induction hs as [|h hs IH]; [reflexivity|]. cbn [map flat_map].
  rewrite status_of_header
    by (rewrite date_line_match_newline; apply H; left; reflexivity).
  apply IH. intros x Hx. apply H. right. exact Hx.
Qed.

Lemma read_line_six_fields l r :
  Pipeline.read_line l = Returned (inr r) -> (6 <= List.length (fields l))%nat.
Proof.
  unfold Pipeline.read_line.
  destruct (date_line_match l); [|discriminate].
  destruct (index (fields l) 0); cbn [bind]; [|discriminate].
  destruct (index (fields l) 4); cbn [bind]; [|discriminate].
  destruct (Pipeline.parse_latlon _); cbn [bind]; [|discriminate].
  unfold index at 1.
  destruct (nth_error (fields l) 5) eqn:E; cbn [bind]; [|discriminate].
  intros _. assert (H : nth_error (fields l) 5 <> None) by congruence.
  apply nth_error_Some in H. lia.
Qed.

Lemma fields_rstrip l : line_shape l -> fields (rstrip_nl l) = fields l.
Proof.
  intros [b [Hb [-> | ->]]].
  - rewrite rstrip_nl_line by exact Hb. symmetry. apply fields_newline.
  - rewrite rstrip_nl_plain by exact Hb. reflexivity.
Qed.

(** A written line keeps the status of the line it was made from. *)
Lemma status_of_written l r vals :
  line_shape l -> date_line_match l = true ->
  Pipeline.read_line l = Returned (inr r) -> raw r = rstrip_nl l ->
  vals <> [] ->
  status_of (Pipeline.fix_line r vals ++ String newline "") = status_of l
  /\ nth 3 (fields (Pipeline.fix_line r vals ++ String newline "")) ""
     = nth 3 (fields l) "".
Proof.
  intros Hshape Hm Hrd Hraw Hne.
  pose proof (read_line_six_fields l r Hrd) as Hlen.
  assert (Hf : fields (Pipeline.fix_line r vals ++ String newline "")
               = (fields l ++ map written_token vals)%list).
  { rewrite fields_newline.
    change (Pipeline.fix_line r vals) with (ExtractSST.fix_line r vals).
    rewrite written_fields by exact Hne. rewrite Hraw, fields_rstrip by exact Hshape.
    reflexivity. }
  assert (Hn : nth 3 (fields l ++ map written_token vals) "" = nth 3 (fields l) "")
    by (apply app_nth1; lia).
  split; [|rewrite Hf; exact Hn].
  unfold status_of. rewrite Hf, Hn, date_line_match_newline.
  assert (Hm' : date_line_match (Pipeline.fix_line r vals) = true).
  { unfold Pipeline.fix_line. apply digits_then_app. rewrite Hraw.
    fold (date_line_match (rstrip_nl l)). rewrite date_line_match_line; assumption. }
  rewrite Hm', Hm, length_app.
  destruct (Nat.leb_spec 4 (List.length (fields l) + List.length (map written_token vals)));
    [|lia].
  destruct (Nat.leb_spec 4 (List.length (fields l))); [|lia]. reflexivity.
Qed.

Lemma flat_map_pairs {A B C D} (R1 : A -> B -> Prop) (R2 : B -> C -> Prop)
    (g : A -> list D) (h : B * C -> list D) ls rs cs :
  Forall2 R1 ls rs -> Forall2 R2 rs cs ->
  (forall l r c, In l ls -> R1 l r -> R2 r c -> g l = h (r, c)) ->
  flat_map g ls = flat_map h (combine rs cs).
Proof.
  intros H1. revert cs. induction H1 as [|l r ls rs Hlr H1 IH]; intros cs H2 Hg.
  - reflexivity.
  - inversion H2 as [|? c ? cs' Hrc H2']; subst. cbn [combine flat_map].
    rewrite (Hg l r c (or_introl eq_refl) Hlr Hrc). f_equal.
    apply IH; [exact H2'|]. intros l' r' c' Hin. apply Hg. right. exact Hin.
Qed.

Lemma statuses_of_extraction cfg ee text out :
  Pipeline.extract cfg ee text = Returned out ->
  statuses (readlines out) = statuses (readlines text).
Proof.
  intros Hex.
  destruct (extraction_lines _ _ _ _ Hex)
    as [items [cols [Hread [Hsample [Hrows [Hh [Hhs [Hrs ->]]]]]]]].
  pose proof (readlines_shape text) as Hshape. rewrite Forall_forall in Hshape.
  rewrite readlines_written.
  - unfold statuses at 1. rewrite flat_map_app. fold (statuses (map (fun l => l ++ String newline "") (headers_of items))).
    rewrite statuses_headers by (intros h Hin; apply Hhs; exact Hin).
    cbn [List.app]. rewrite (statuses_fixes (readlines text)).
    unfold statuses. rewrite map_map, flat_map_concat_map, map_map, <- flat_map_concat_map.
    symmetry.
    apply (flat_map_pairs _ _ _ _ _ _ _ Hrows Hsample).
    intros l r vals Hin [Hrd Hraw] Hw. cbn [fst snd].
    apply filter_In in Hin as [Hin Hm].
    rewrite (proj1 (status_of_written l r vals (Hshape l Hin) Hm Hrd Hraw
                      ltac:(apply window_has_31 in Hw; destruct vals; [discriminate | discriminate]))).
    reflexivity.
  - apply Forall_forall. intros h Hin. apply Hhs. exact Hin.
  - apply Forall_forall. intros f Hin. apply in_map_iff in Hin as [[r vals] [<- Hin]].
    apply in_combine_l in Hin. apply no_newline_fix_line. apply Hrs. exact Hin.
Qed.

(** ** The loaders *)

Section Loaders.
Variable to_float : string -> option PyFloat.float.

Lemma np_array_length toks vs :
  PlotWindows.np_array to_float toks = Some vs -> List.length vs = List.length toks.
Proof.
  revert vs. induction toks as [|t toks IH]; simpl; intros vs H.
  - inversion H. reflexivity.
  - destruct (to_float t); [|discriminate].
    destruct (PlotWindows.np_array to_float toks); [|discriminate].
    inversion H. simpl. f_equal. apply IH. reflexivity.
Qed.

Lemma last_n_length {A} (xs : list A) n :
  (n <= List.length xs)%nat -> List.length (last_n n xs) = n.
Proof. intros H. unfold last_n. rewrite length_skipn. lia. Qed.

Lemma window_of_line_31 l w :
  PlotWindows.window_of_line to_float l = Some w -> List.length w = 31%nat.
Proof.
  unfold PlotWindows.window_of_line.
  destruct (negb (date_line_match l)); [discriminate|].
  destruct (Nat.ltb_spec (List.length (fields l)) 31) as [|Hlen]; cbn [orb]; [discriminate|].
  destruct (negb _); [discriminate|].
  intros H. apply np_array_length in H. rewrite H. apply last_n_length. exact Hlen.
Qed.

Lemma single_window_of_line_31 l w :
  PlotWindows.single_window_of_line to_float l = Some w -> List.length w = 31%nat.
Proof.
  unfold PlotWindows.single_window_of_line.
  destruct (negb (PlotSingleTrack.keeps_line l)); [discriminate|].
  destruct (Nat.ltb_spec (List.length (fields l)) 31) as [|Hlen]; [discriminate|].
  intros H1. apply np_array_length in H1. rewrite H1. apply last_n_length. exact Hlen.
Qed.

Lemma windows_of_spec pick text w :
  In w (PlotWindows.windows_of pick text)
  <-> exists l, In l (readlines text) /\ pick l = Some w.
Proof.
  unfold PlotWindows.windows_of. rewrite in_flat_map. split.
  - intros [l [Hl Hw]]. exists l. split; [exact Hl|].
    destruct (pick l); [destruct Hw as [<- | []]; reflexivity | destruct Hw].
  - intros [l [Hl Hp]]. exists l. split; [exact Hl|]. rewrite Hp. left. reflexivity.
Qed.

Lemma digits_then_take n k s :
  digits_then n k s = true -> all_chars is_digit (take n s) = true.
Proof.
  revert s. induction n as [|n IH]; intros s H; [reflexivity|].
  destruct s as [|c s]; [discriminate|]. cbn [digits_then] in H.
  apply andb_true_iff in H as [Hc H]. cbn [take all_chars]. rewrite Hc. apply IH, H.
Qed.

Lemma date_line_keeps l : date_line_match l = true -> PlotSingleTrack.keeps_line l = true.
Proof.
  intros H. unfold PlotSingleTrack.keeps_line, isdigit.
  rewrite (digits_then_take _ _ _ H).
  destruct l; [discriminate|]. reflexivity.
Qed.

End Loaders.

(** ** The calendar *)

Lemma month_day_checked leap n :
  0 <= n < year_length leap -> month_day_ok leap n = true.
Proof.
  intros Hn.
  assert (H : forallb (fun n => month_day_ok true n && month_day_ok false n) (below 366) = true)
    by (vm_compute; reflexivity).
  pose proof (below_forall _ _ H n) as Hc.
  assert (Hr : 0 <= n < 366) by (destruct leap; unfold year_length in Hn; lia).
  apply Hc in Hr. apply andb_true_iff in Hr as [Ht Hf]. destruct leap; assumption.
Qed.

Lemma month_length_le m leap : month_length m leap <= 31.
Proof.
  unfold month_length, PyDate.DAYS_IN_MONTH.
  destruct (Z.eqb_spec m 2) as [-> | Hm]; [destruct leap; simpl; lia|].
  cbn [andb]. repeat match goal with |- context [match ?x with _ => _ end] => destruct x end; lia.
Qed.

Lemma day_month_checked leap m d :
  1 <= m <= 12 -> 1 <= d <= month_length m leap -> day_month_ok leap m d = true.
Proof.
  intros Hm Hd.
  assert (H : forallb (fun m => forallb (fun d => day_month_ok true m d && day_month_ok false m d)
                                        (below 32)) (below 13) = true)
    by (vm_compute; reflexivity).
  pose proof (below_forall _ _ H m ltac:(lia)) as Hc. cbv beta in Hc.
  pose proof (month_length_le m leap) as Hle.
  pose proof (below_forall _ _ Hc d ltac:(lia)) as Hc'. cbv beta in Hc'.
  apply andb_true_iff in Hc' as [Ht Hf]. destruct leap; assumption.
Qed.

Lemma month_day_spec leap n :
  0 <= n < year_length leap ->
  1 <= fst (month_day n leap) <= 12
  /\ 1 <= snd (month_day n leap) <= month_length (fst (month_day n leap)) leap
  /\ days_before (fst (month_day n leap)) leap + snd (month_day n leap) = n + 1.
Proof.
  intros Hn. pose proof (month_day_checked leap n Hn) as H. unfold month_day_ok in H.
  destruct (Z.ltb_spec n (year_length leap)); [|lia]. cbn [negb orb] in H.
  cbv zeta in H. rewrite !andb_true_iff in H.
  destruct H as [[[[H1 H2] H3] H4] H5].
  apply Z.leb_le in H1, H2, H3, H4. apply Z.eqb_eq in H5. lia.
Qed.

Lemma day_month_spec leap m d :
  1 <= m <= 12 -> 1 <= d <= month_length m leap ->
  month_day (days_before m leap + d - 1) leap = (m, d)
  /\ 0 <= days_before m leap + d - 1 < year_length leap.
Proof.
  intros Hm Hd. pose proof (day_month_checked leap m d Hm Hd) as H.
  unfold day_month_ok in H.
  destruct (Z.leb_spec 1 m); [|lia]. destruct (Z.leb_spec 1 d); [|lia].
  destruct (Z.leb_spec d (month_length m leap)); [|lia]. cbn [negb andb orb] in H.
  cbv zeta in H. rewrite !andb_true_iff in H. destruct H as [[[E1 E2] E3] E4].
  apply Z.eqb_eq in E1, E2. apply Z.leb_le in E3. apply Z.ltb_lt in E4.
  split; [destruct (month_day _ _); simpl in *; congruence | lia].
Qed.

Lemma is_leap_digits a b c e :
  0 <= a -> 0 <= b <= 3 -> 0 <= c <= 24 -> 0 <= e <= 3 ->
  PyDate.is_leap (400 * a + 100 * b + 4 * c + e + 1)
  = (e =? 3) && (negb (c =? 24) || (b =? 3)).
Proof.
  intros Ha Hb Hc He. unfold PyDate.is_leap.
  set (y := 400 * a + 100 * b + 4 * c + e + 1).
  assert (H4 : y mod 4 = (e + 1) mod 4).
  { subst y. replace (400 * a + 100 * b + 4 * c + e + 1)
      with (e + 1 + (100 * a + 25 * b + c) * 4) by lia. apply Z.mod_add. lia. }
  assert (H100 : y mod 100 = (4 * c + e + 1) mod 100).
  { subst y. replace (400 * a + 100 * b + 4 * c + e + 1)
      with (4 * c + e + 1 + (4 * a + b) * 100) by lia. apply Z.mod_add. lia. }
  assert (H400 : y mod 400 = (100 * b + 4 * c + e + 1) mod 400).
  { subst y. replace (400 * a + 100 * b + 4 * c + e + 1)
      with (100 * b + 4 * c + e + 1 + a * 400) by lia. apply Z.mod_add. lia. }
  rewrite H4, H100, H400. clearbody y.
  destruct (Z.eqb_spec e 3) as [-> | He3].
  - change ((3 + 1) mod 4) with 0. cbn [Z.eqb andb].
    destruct (Z.eqb_spec c 24) as [-> | Hc24].
    + change ((4 * 24 + 3 + 1) mod 100) with 0. cbn [Z.eqb negb orb].
      destruct (Z.eqb_spec b 3) as [-> | Hb3]; [reflexivity|].
      destruct (Z.eqb_spec ((100 * b + 4 * 24 + 3 + 1) mod 400) 0) as [E|]; [|reflexivity].
      exfalso. rewrite Z.mod_small in E by lia. lia.
    + rewrite (Z.mod_small (4 * c + 3 + 1)) by lia.
      destruct (Z.eqb_spec (4 * c + 3 + 1) 0); [lia|]. reflexivity.
  - rewrite (Z.mod_small (e + 1)) by lia.
    destruct (Z.eqb_spec (e + 1) 0); [lia|]. reflexivity.
Qed.

Lemma days_before_year_digits a b c e :
  0 <= a -> 0 <= b <= 3 -> 0 <= c <= 24 -> 0 <= e <= 3 ->
  PyDate.days_before_year (400 * a + 100 * b + 4 * c + e + 1)
  = 146097 * a + 36524 * b + 1461 * c + 365 * e.
Proof.
  intros Ha Hb Hc He. unfold PyDate.days_before_year. cbv zeta.
  replace (400 * a + 100 * b + 4 * c + e + 1 - 1) with (400 * a + 100 * b + 4 * c + e) by lia.
  assert (E4 : (400 * a + 100 * b + 4 * c + e) / 4 = 100 * a + 25 * b + c)
    by (symmetry; apply (Z.div_unique _ _ _ e); lia).
  assert (E100 : (400 * a + 100 * b + 4 * c + e) / 100 = 4 * a + b)
    by (symmetry; apply (Z.div_unique _ _ _ (4 * c + e)); lia).
  assert (E400 : (400 * a + 100 * b + 4 * c + e) / 400 = a)
    by (symmetry; apply (Z.div_unique _ _ _ (100 * b + 4 * c + e)); lia).
  rewrite E4, E100, E400. lia.
Qed.

(** The digits of a year in the 400, 100, 4 and 1 year cycles. *)
Lemma year_digits y :
  1 <= y ->
  exists a b c e, 0 <= a /\ 0 <= b <= 3 /\ 0 <= c <= 24 /\ 0 <= e <= 3
                  /\ y = 400 * a + 100 * b + 4 * c + e + 1.
Proof.
  intros Hy.
  exists ((y - 1) / 400), ((y - 1) mod 400 / 100), ((y - 1) mod 100 / 4), ((y - 1) mod 4).
  pose proof (Z.div_mod (y - 1) 400 ltac:(lia)).
  pose proof (Z.mod_pos_bound (y - 1) 400 ltac:(lia)).
  pose proof (Z.div_mod ((y - 1) mod 400) 100 ltac:(lia)).
  pose proof (Z.mod_pos_bound ((y - 1) mod 400) 100 ltac:(lia)).
  assert (E1 : ((y - 1) mod 400) mod 100 = (y - 1) mod 100).
  { symmetry. rewrite (Z.div_mod (y - 1) 400) at 1 by lia.
    replace (400 * ((y - 1) / 400) + (y - 1) mod 400)
      with ((y - 1) mod 400 + (4 * ((y - 1) / 400)) * 100) by lia.
    apply Z.mod_add. lia. }
  pose proof (Z.div_mod ((y - 1) mod 100) 4 ltac:(lia)).
  pose proof (Z.mod_pos_bound ((y - 1) mod 100) 4 ltac:(lia)).
  assert (E2 : ((y - 1) mod 100) mod 4 = (y - 1) mod 4).
  { symmetry. rewrite (Z.div_mod (y - 1) 100) at 1 by lia.
    replace (100 * ((y - 1) / 100) + (y - 1) mod 100)
      with ((y - 1) mod 100 + (25 * ((y - 1) / 100)) * 4) by lia.
    apply Z.mod_add. lia. }
  pose proof (Z.mod_pos_bound (y - 1) 100 ltac:(lia)).
  pose proof (Z.mod_pos_bound (y - 1) 4 ltac:(lia)).
  assert (0 <= (y - 1) / 400) by (apply Z.div_pos; lia).
  assert (0 <= (y - 1) mod 400 / 100 <= 3)
    by (split; [apply Z.div_pos; lia | apply Z.lt_succ_r, Z.div_lt_upper_bound; lia]).
  assert (0 <= (y - 1) mod 100 / 4 <= 24)
    by (split; [apply Z.div_pos; lia | apply Z.lt_succ_r, Z.div_lt_upper_bound; lia]).
  repeat split; try lia.
Qed.

(** [fromordinal] on day [t] (from 0) of the year [y]. *)
Lemma fromordinal_of_year y t :
  1 <= y ->
  0 <= t < year_length (PyDate.is_leap y) ->
  PyDate.fromordinal (PyDate.days_before_year y + t + 1)
  = {| PyDate.year := y;
       PyDate.month := fst (month_day t (PyDate.is_leap y));
       PyDate.day := snd (month_day t (PyDate.is_leap y)) |}.
Proof.
  intros Hy Ht.
  destruct (year_digits y Hy) as [a [b [c [e [Ha [Hb [Hc [He ->]]]]]]]].
  rewrite is_leap_digits in * by assumption.
  rewrite days_before_year_digits by assumption.
  unfold PyDate.fromordinal.
  set (n0 := 146097 * a + 36524 * b + 1461 * c + 365 * e + t + 1 - 1).
  set (q1 := n0 / 146097). set (r1 := n0 mod 146097).
  set (q2 := r1 / 36524). set (r2 := r1 mod 36524).
  set (q3 := r2 / 1461). set (r3 := r2 mod 1461).
  set (q4 := r3 / 365). set (r4 := r3 mod 365).
  assert (H1 : n0 = 146097 * q1 + r1 /\ 0 <= r1 < 146097)
    by (subst q1 r1; split; [apply Z.div_mod; lia | apply Z.mod_pos_bound; lia]).
  assert (H2 : r1 = 36524 * q2 + r2 /\ 0 <= r2 < 36524)
    by (subst q2 r2; split; [apply Z.div_mod; lia | apply Z.mod_pos_bound; lia]).
  assert (H3 : r2 = 1461 * q3 + r3 /\ 0 <= r3 < 1461)
    by (subst q3 r3; split; [apply Z.div_mod; lia | apply Z.mod_pos_bound; lia]).
  assert (H4 : r3 = 365 * q4 + r4 /\ 0 <= r4 < 365)
    by (subst q4 r4; split; [apply Z.div_mod; lia | apply Z.mod_pos_bound; lia]).
  assert (Hn0 : n0 = 146097 * a + 36524 * b + 1461 * c + 365 * e + t) by (subst n0; lia).
  clearbody q1 r1 q2 r2 q3 r3 q4 r4 n0.
  set (leap := (e =? 3) && (negb (c =? 24) || (b =? 3))) in *.
  destruct (Z.eq_dec t 365) as [-> | Ht365].
  - (* the last day of a leap year *)
    assert (Hl : leap = true) by (destruct leap; [reflexivity | unfold year_length in Ht; lia]).
    rewrite Hl. unfold leap in Hl. apply andb_true_iff in Hl as [He3 Hcb].
    apply Z.eqb_eq in He3. subst e.
    assert (Hsp : (q4 =? 4) || (q2 =? 4) = true).
    { apply orb_true_iff in Hcb as [Hc24 | Hb3].
      - apply negb_true_iff, Z.eqb_neq in Hc24.
        assert (q1 = a) by lia. assert (q2 = b) by lia. assert (q3 = c) by lia.
        assert (q4 = 4) by lia. subst q4. reflexivity.
      - apply Z.eqb_eq in Hb3. subst b.
        destruct (Z.eq_dec c 24) as [-> | Hc24].
        + assert (q1 = a) by lia. assert (q2 = 4) by lia. subst q2. apply orb_true_r.
        + assert (q1 = a) by lia. assert (q2 = 3) by lia. assert (q3 = c) by lia.
          assert (q4 = 4) by lia. subst q4. reflexivity. }
    rewrite Hsp. change (month_day 365 true) with (12, 31). cbn [fst snd].
    f_equal.
    apply orb_true_iff in Hsp. rewrite !Z.eqb_eq in Hsp.
    apply orb_true_iff in Hcb as [Hc24 | Hb3].
    + apply negb_true_iff, Z.eqb_neq in Hc24.
      assert (q1 = a) by lia. assert (q2 = b) by lia. assert (q3 = c) by lia. lia.
    + apply Z.eqb_eq in Hb3. subst b.
      destruct (Z.eq_dec c 24) as [-> | Hc24].
      * assert (q1 = a) by lia. assert (q2 = 4) by lia. assert (q3 = 0) by lia.
        assert (q4 = 0) by lia. lia.
      * assert (q1 = a) by lia. assert (q2 = 3) by lia. assert (q3 = c) by lia. lia.
  - assert (Ht' : 0 <= t < 365) by (destruct leap; unfold year_length in Ht; lia).
    assert (E1 : q1 = a) by lia.
    assert (E2 : q2 = b) by lia.
    assert (E3 : q3 = c) by lia.
    assert (E4 : q4 = e) by lia.
    assert (E5 : r4 = t) by lia.
    subst q1 q2 q3 q4 r4.
    destruct (Z.eqb_spec e 4); [lia|]. destruct (Z.eqb_spec b 4); [lia|]. cbn [orb].
    fold leap. unfold month_day. cbv zeta.
    match goal with |- context [ if ?c then _ else _ ] =>
      match c with (_ <? _) => destruct c end end; cbn [fst snd]; f_equal; lia.
Qed.

Lemma days_in_month_length y m :
  PyDate.days_in_month y m = month_length m (PyDate.is_leap y).
Proof.
  unfold PyDate.days_in_month, month_length, PyDate.DAYS_IN_MONTH.
  destruct (Z.eqb_spec m 2) as [-> | H2]; [destruct (PyDate.is_leap y); reflexivity|].
  cbn [andb]. rewrite Z.add_0_r.
  destruct (Z.eqb_spec m 4) as [-> | H4]; [reflexivity|].
  destruct (Z.eqb_spec m 6) as [-> | H6]; [reflexivity|].
  destruct (Z.eqb_spec m 9) as [-> | H9]; [reflexivity|].
  destruct (Z.eqb_spec m 11) as [-> | H11]; [reflexivity|]. cbn [orb].
  repeat match goal with |- context [match ?x with _ => _ end] => destruct x end;
    congruence.
Qed.

Lemma strptime_valid s d : PyDate.strptime s = Returned d -> valid_date d.
Proof.
  unfold PyDate.strptime.
  destruct (_ && _); [|discriminate].
  destruct (flat_map _ _) as [|[[m dd] rest] _]; [discriminate|].
  destruct (is_empty rest); [|discriminate].
  unfold PyDate.make, PyDate.MINYEAR, PyDate.MAXYEAR.
  destruct (_ && _) eqn:E; [|discriminate]. intros H. injection H as <-.
  rewrite !andb_true_iff in E. destruct E as [[[[[E1 E2] E3] E4] E5] E6].
  apply Z.leb_le in E1, E2, E3, E4, E5, E6. unfold valid_date.
  repeat split; assumption.
Qed.

(** [fromordinal] undoes [toordinal]. *)
Lemma fromordinal_toordinal d :
  valid_date d -> PyDate.fromordinal (PyDate.toordinal d) = d.
Proof.
  intros [Hy [Hm Hd]]. rewrite days_in_month_length in Hd.
  destruct (day_month_spec _ _ _ Hm Hd) as [Hmd Ht].
  unfold PyDate.toordinal, PyDate.days_before_month.
  fold (days_before (PyDate.month d) (PyDate.is_leap (PyDate.year d))).
  replace (PyDate.days_before_year (PyDate.year d)
           + days_before (PyDate.month d) (PyDate.is_leap (PyDate.year d)) + PyDate.day d)
    with (PyDate.days_before_year (PyDate.year d)
          + (days_before (PyDate.month d) (PyDate.is_leap (PyDate.year d)) + PyDate.day d - 1)
          + 1) by lia.
  rewrite fromordinal_of_year by (assumption || lia).
  rewrite Hmd. destruct d; reflexivity.
Qed.

Lemma year_of_ordinal n :
  1 <= n <= PyDate.MAXORDINAL ->
  exists y t, 1 <= y <= 9999 /\ 0 <= t < year_length (PyDate.is_leap y)
              /\ n = PyDate.days_before_year y + t + 1.
Proof.
  unfold PyDate.MAXORDINAL. intros Hn.
  set (n0 := n - 1).
  set (q1 := n0 / 146097). set (r1 := n0 mod 146097).
  set (q2 := r1 / 36524). set (r2 := r1 mod 36524).
  set (q3 := r2 / 1461). set (r3 := r2 mod 1461).
  set (q4 := r3 / 365). set (r4 := r3 mod 365).
  assert (H1 : n0 = 146097 * q1 + r1 /\ 0 <= r1 < 146097)
    by (subst q1 r1; split; [apply Z.div_mod; lia | apply Z.mod_pos_bound; lia]).
  assert (H2 : r1 = 36524 * q2 + r2 /\ 0 <= r2 < 36524)
    by (subst q2 r2; split; [apply Z.div_mod; lia | apply Z.mod_pos_bound; lia]).
  assert (H3 : r2 = 1461 * q3 + r3 /\ 0 <= r3 < 1461)
    by (subst q3 r3; split; [apply Z.div_mod; lia | apply Z.mod_pos_bound; lia]).
  assert (H4 : r3 = 365 * q4 + r4 /\ 0 <= r4 < 365)
    by (subst q4 r4; split; [apply Z.div_mod; lia | apply Z.mod_pos_bound; lia]).
  assert (Hn0 : n = n0 + 1 /\ 0 <= n0 <= 3652058) by (subst n0; lia).
  clearbody q1 r1 q2 r2 q3 r3 q4 r4 n0.
  assert (Hd : exists a b c e t, 0 <= a /\ 0 <= b <= 3 /\ 0 <= c <= 24 /\ 0 <= e <= 3
             /\ 400 * a + 100 * b + 4 * c + e + 1 <= 9999
             /\ 0 <= t < year_length ((e =? 3) && (negb (c =? 24) || (b =? 3)))
             /\ n0 = 146097 * a + 36524 * b + 1461 * c + 365 * e + t).
  { destruct (Z.eq_dec q2 4) as [E2 | E2].
    - exists q1, 3, 24, 3, 365.
      change (year_length ((3 =? 3) && (negb (24 =? 24) || (3 =? 3)))) with 366. lia.
    - destruct (Z.eq_dec q4 4) as [E4 | E4].
      + exists q1, q2, q3, 3, 365. destruct (Z.eqb_spec q3 24); [lia|].
        change (year_length ((3 =? 3) && (negb false || (q2 =? 3)))) with 366. lia.
      + exists q1, q2, q3, q4, r4.
        assert (0 <= r4 < year_length ((q4 =? 3) && (negb (q3 =? 24) || (q2 =? 3))))
          by (destruct (_ && _); unfold year_length; lia).
        lia. }
  destruct Hd as [a [b [c [e [t [Ha [Hb [Hc [He [Hy [Ht Hn']]]]]]]]]]].
  exists (400 * a + 100 * b + 4 * c + e + 1), t.
  rewrite is_leap_digits, days_before_year_digits by assumption.
  split; [lia|]. split; [exact Ht | lia].
Qed.

(** [toordinal] undoes [fromordinal], which yields dates only. *)
Lemma toordinal_fromordinal n :
  1 <= n <= PyDate.MAXORDINAL ->
  valid_date (PyDate.fromordinal n) /\ PyDate.toordinal (PyDate.fromordinal n) = n.
Proof.
  intros Hn. destruct (year_of_ordinal n Hn) as [y [t [Hy [Ht ->]]]].
  rewrite fromordinal_of_year by (assumption || lia).
  destruct (month_day_spec _ _ Ht) as [Hm [Hd Hsum]].
  unfold valid_date, PyDate.toordinal, PyDate.days_before_month.
  cbn [PyDate.year PyDate.month PyDate.day]. rewrite days_in_month_length.
  fold (days_before (fst (month_day t (PyDate.is_leap y))) (PyDate.is_leap y)).
  lia.
Qed.

(** ** The files of a run *)

(** A run that fails before the write leaves every file as it was. *)
Lemma main_fails_before_write cfg ee p w text e :
  FS.files w p = Some text ->
  FS.mkdir_p w (Pipeline.out_dir p) = Raised e \/ Pipeline.extract cfg ee text = Raised e ->
  (exists e', snd (Pipeline.main cfg ee p w) = Raised e')
  /\ forall q, FS.files (fst (Pipeline.main cfg ee p w)) q = FS.files w q.
Proof.
  intros Ht H. unfold Pipeline.main. rewrite Ht.
  destruct (FS.mkdir_p w (Pipeline.out_dir p)) as [w1|e1] eqn:Hd.
  - destruct H as [H | H]; [discriminate H|]. rewrite H. cbn [fst snd].
    split; [exists e; reflexivity|]. intros q. eapply mkdir_keeps_files; eauto.
  - cbn [fst snd]. split; [exists e1; reflexivity | reflexivity].
Qed.

Lemma main_without_input cfg ee p w :
  FS.files w p = None ->
  exists msg, Pipeline.main cfg ee p w = (w, Raised (SystemExit msg)).
Proof. intros H. unfold Pipeline.main. rewrite H. eexists. reflexivity. Qed.

(** X1. Whatever the service answers, a run of either extractor changes
    no file but its own output file, which is never the track it reads.
    A run on a path that is no file stops at once with [SystemExit] and
    changes nothing, and a run in which the output directory cannot be
    made, or the initialisation, the reading or the sampling raises,
    ends in an exception with every file as it was. *)
Theorem extractors_write_only_their_output ee p w :
  (ExtractSST.out_file p <> p
   /\ (forall q, q <> ExtractSST.out_file p ->
         FS.files (fst (ExtractSST.main ee p w)) q = FS.files w q)
   /\ (FS.files w p = None ->
         exists msg, ExtractSST.main ee p w = (w, Raised (SystemExit msg)))
   /\ (forall text e,
         FS.files w p = Some text ->
         FS.mkdir_p w (ExtractSST.out_dir p) = Raised e
         \/ ExtractSST.extract ee text = Raised e ->
         (exists e', snd (ExtractSST.main ee p w) = Raised e')
         /\ forall q, FS.files (fst (ExtractSST.main ee p w)) q = FS.files w q))
  /\ (ExtractHYCOM.out_file p <> p
      /\ (forall q, q <> ExtractHYCOM.out_file p ->
            FS.files (fst (ExtractHYCOM.main ee p w)) q = FS.files w q)
      /\ (FS.files w p = None ->
            exists msg, ExtractHYCOM.main ee p w = (w, Raised (SystemExit msg)))
      /\ (forall text e,
            FS.files w p = Some text ->
            FS.mkdir_p w (ExtractHYCOM.out_dir p) = Raised e
            \/ ExtractHYCOM.extract ee text = Raised e ->
            (exists e', snd (ExtractHYCOM.main ee p w) = Raised e')
            /\ forall q, FS.files (fst (ExtractHYCOM.main ee p w)) q = FS.files w q)).
Proof.
  split.
  - destruct (main_frame Pipeline.oisst_config ee p w "_" "SST.txt" eq_refl eq_refl)
      as [H1 _].
    split; [exact (out_file_not_input Pipeline.oisst_config p "_" "SST.txt" eq_refl eq_refl)|].
    split; [exact H1|].
    split; [exact (main_without_input Pipeline.oisst_config ee p w)|].
    intros text e. exact (main_fails_before_write Pipeline.oisst_config ee p w text e).
  - destruct (main_frame Pipeline.hycom_config ee p w "_" "HYCOM.txt" eq_refl eq_refl)
      as [H1 _].
    split; [exact (out_file_not_input Pipeline.hycom_config p "_" "HYCOM.txt" eq_refl eq_refl)|].
    split; [exact H1|].
    split; [exact (main_without_input Pipeline.hycom_config ee p w)|].
    intros text e. exact (main_fails_before_write Pipeline.hycom_config ee p w text e).
Qed.

(** X2. A run that succeeded can be repeated: on the files it left, the
    same extractor, given the same answers by the service, succeeds
    again and leaves every file and every directory as it found them. *)
Theorem extractor_rerun_changes_nothing cfg ee p w w1 :
  cfg = Pipeline.oisst_config \/ cfg = Pipeline.hycom_config ->
  Pipeline.main cfg ee p w = (w1, Returned tt) ->
  exists w2,
    Pipeline.main cfg ee p w1 = (w2, Returned tt)
    /\ (forall q, FS.files w2 q = FS.files w1 q)
    /\ (forall q, FS.dirs w2 q = FS.dirs w1 q).
Proof.
  intros Hcfg Hmain. apply (rerun_same_world cfg ee p w w1 Hmain).
  assert (Hin : FS.files (fst (Pipeline.main cfg ee p w)) p = FS.files w p).
  { destruct Hcfg as [-> | ->].
    - exact (proj1 (proj2 (main_frame Pipeline.oisst_config ee p w "_" "SST.txt"
                             eq_refl eq_refl))).
    - exact (proj1 (proj2 (main_frame Pipeline.hycom_config ee p w "_" "HYCOM.txt"
                             eq_refl eq_refl))). }
  rewrite Hmain in Hin. exact Hin.
Qed.

Lemma extractor_rerun_changes_nothing_witness :
  ExtractSST.main constant_500 track_path (one_file track_path track_text)
  = (fst (ExtractSST.main constant_500 track_path (one_file track_path track_text)),
     Returned tt)
  /\ exists w2,
       ExtractSST.main constant_500 track_path
         (fst (ExtractSST.main constant_500 track_path (one_file track_path track_text)))
       = (w2, Returned tt)
       /\ (forall q, FS.files w2 q
                     = FS.files (fst (ExtractSST.main constant_500 track_path
                                        (one_file track_path track_text))) q)
       /\ (forall q, FS.dirs w2 q
                     = FS.dirs (fst (ExtractSST.main constant_500 track_path
                                       (one_file track_path track_text))) q).
Proof.
  assert (H : ExtractSST.main constant_500 track_path (one_file track_path track_text)
              = (fst (ExtractSST.main constant_500 track_path
                        (one_file track_path track_text)), Returned tt)).
  { rewrite (surjective_pairing (ExtractSST.main constant_500 track_path
                                    (one_file track_path track_text))) at 1.
    apply f_equal. vm_compute. reflexivity. }
  split; [exact H|].
  exact (extractor_rerun_changes_nothing Pipeline.oisst_config constant_500 track_path
           (one_file track_path track_text) _ (or_introl eq_refl) H).
Defined.

(** ** Reading a written file again *)

Lemma index_app {A} (xs ys : list A) i :
  (i < List.length xs)%nat -> index (xs ++ ys) i = index xs i.
Proof. intros H. unfold index. rewrite nth_error_app1 by exact H. reflexivity. Qed.

Lemma read_line_is_fix l r :
  Pipeline.read_line l = Returned (inr r) -> date_line_match l = true.
Proof.
  unfold Pipeline.read_line. destruct (date_line_match l); [reflexivity | discriminate].
Qed.

Lemma written_line_fields l r vals :
  line_shape l -> Pipeline.read_line l = Returned (inr r) -> vals <> [] ->
  fields (Pipeline.fix_line r vals ++ String newline "")
  = (fields l ++ map written_token vals)%list.
Proof.
  intros Hshape Hrd Hne.
  destruct (read_line_row l _ (read_line_is_fix l r Hrd) Hrd) as [r0 [E Hraw]].
  inversion E; subst r0.
  rewrite fields_newline.
  change (Pipeline.fix_line r vals) with (ExtractSST.fix_line r vals).
  rewrite written_fields by exact Hne. rewrite Hraw, fields_rstrip by exact Hshape.
  reflexivity.
Qed.

Lemma read_line_written l r vals :
  line_shape l -> Pipeline.read_line l = Returned (inr r) -> vals <> [] ->
  exists r', Pipeline.read_line (Pipeline.fix_line r vals ++ String newline "")
             = Returned (inr r')
             /\ reread r r' vals.
Proof.
  intros Hshape Hrd Hne.
  pose proof (read_line_is_fix l r Hrd) as Hm.
  pose proof (read_line_six_fields l r Hrd) as Hlen.
  pose proof (written_line_fields l r vals Hshape Hrd Hne) as Hf.
  destruct (read_line_row l _ Hm Hrd) as [r0 [E Hraw]]. inversion E; subst r0.
  assert (Hm' : date_line_match (Pipeline.fix_line r vals ++ String newline "") = true).
  { rewrite date_line_match_newline. unfold Pipeline.fix_line. apply digits_then_app.
    rewrite Hraw. fold (date_line_match (rstrip_nl l)).
    rewrite date_line_match_line; assumption. }
  assert (Hnn : no_newline (Pipeline.fix_line r vals)).
  { apply no_newline_fix_line. rewrite Hraw. apply line_shape_rstrip. exact Hshape. }
  unfold Pipeline.read_line in Hrd |- *. rewrite Hm in Hrd. rewrite Hm', Hf.
  rewrite !index_app by lia.
  destruct (index (fields l) 0) as [p0|]; cbn [bind] in *; [|discriminate].
  destruct (index (fields l) 4) as [p4|]; cbn [bind] in *; [|discriminate].
  destruct (Pipeline.parse_latlon p4) as [la|]; cbn [bind] in *; [|discriminate].
  destruct (index (fields l) 5) as [p5|]; cbn [bind] in *; [|discriminate].
  destruct (Pipeline.parse_latlon p5) as [lo|]; cbn [bind] in *; [|discriminate].
  inversion Hrd; subst r. eexists. split; [reflexivity|].
  unfold reread. cbn [raw ymd lat lon]. rewrite rstrip_nl_line by exact Hnn.
  repeat split; reflexivity.
Qed.

Lemma Forall2_for_each {A B} (f : A -> outcome B) xs ys :
  Forall2 (fun x y => f x = Returned y) xs ys -> for_each f xs = Returned ys.
Proof.
  induction 1 as [|x y xs ys Hxy H IH]; [reflexivity|].
  cbn [for_each]. rewrite Hxy. cbn [bind]. rewrite IH. reflexivity.
Qed.

Lemma headers_of_app a b : headers_of (a ++ b) = (headers_of a ++ headers_of b)%list.
Proof. unfold headers_of. apply flat_map_app. Qed.

Lemma rows_of_app a b : rows_of (a ++ b) = (rows_of a ++ rows_of b)%list.
Proof. unfold rows_of. apply flat_map_app. Qed.

Lemma headers_of_inl hs : headers_of (map inl hs) = hs /\ rows_of (map inl hs) = [].
Proof.
  unfold headers_of, rows_of. induction hs as [|h hs [IH1 IH2]]; [split; reflexivity|].
  cbn [map flat_map List.app]. rewrite IH1, IH2. split; reflexivity.
Qed.

Lemma headers_of_inr rs : headers_of (map inr rs) = [] /\ rows_of (map inr rs) = rs.
Proof.
  unfold headers_of, rows_of. induction rs as [|r rs [IH1 IH2]]; [split; reflexivity|].
  cbn [map flat_map List.app]. rewrite IH1, IH2. split; reflexivity.
Qed.

(** The lines written for the fixes read back as fixes. *)
Lemma written_rows_read_back cfg ee lines rows cols :
  Forall line_shape lines ->
  Forall2 (fun l r => Pipeline.read_line l = Returned (inr r) /\ raw r = rstrip_nl l)
          lines rows ->
  Forall2 (fun r vals => Pipeline.sample_window cfg ee r = Returned vals) rows cols ->
  exists rows',
    Forall2 (fun x y => Pipeline.read_line x = Returned y)
            (map (fun rc => Pipeline.fix_line (fst rc) (snd rc) ++ String newline "")
                 (combine rows cols))
            (map inr rows')
    /\ Forall2 (fun r r' => exists vals, Pipeline.sample_window cfg ee r = Returned vals
                                         /\ reread r r' vals) rows rows'.
Proof.
  intros Hshape Hrows. revert cols.
  induction Hrows as [|l r lines rows [Hrd Hraw] Hrows IH]; intros cols Hcols.
  - inversion Hcols; subst. exists []. split; constructor.
  - inversion Hcols as [|? vals ? cols' Hw Hcols']; subst.
    inversion Hshape as [|? ? Hl Hls]; subst.
    destruct (IH Hls cols' Hcols') as [rows' [H1 H2]].
    assert (Hne : vals <> [])
      by (apply window_has_31 in Hw; destruct vals; [discriminate | discriminate]).
    destruct (read_line_written l r vals Hl Hrd Hne) as [r' [Hr' Hre]].
    exists (r' :: rows'). split.
    + cbn [combine map fst snd]. constructor; [exact Hr' | exact H1].
    + constructor; [exists vals; split; assumption | exact H2].
Qed.

(** X3. What an extractor writes is a track again: read by the extractor's
    own reader, the output gives the headers of the input and, fix by
    fix, the date, the latitude and the longitude read from the input;
    the text of each fix is the line written for it. *)
Theorem output_reads_as_the_same_track cfg ee text out :
  Pipeline.extract cfg ee text = Returned out ->
  exists items items',
    for_each Pipeline.read_line (readlines text) = Returned items
    /\ for_each Pipeline.read_line (readlines out) = Returned items'
    /\ headers_of items' = headers_of items
    /\ Forall2 (fun r r' => exists vals, Pipeline.sample_window cfg ee r = Returned vals
                                         /\ reread r r' vals)
               (rows_of items) (rows_of items').
Proof.
  intros Hex.
  destruct (extraction_lines _ _ _ _ Hex)
    as [items [cols [Hread [Hsample [Hrows [Hh [Hhs [Hrs ->]]]]]]]].
  pose proof (readlines_shape text) as Hshape.
  assert (Hshape' : Forall line_shape (filter date_line_match (readlines text))).
  { rewrite Forall_forall in *. intros l Hl. apply filter_In in Hl as [Hl _]. auto. }
  destruct (written_rows_read_back cfg ee _ _ _ Hshape' Hrows Hsample) as [rows' [H1 H2]].
  exists items, (map inl (headers_of items) ++ map inr rows')%list.
  split; [exact Hread|]. split.
  - rewrite readlines_written.
    + apply Forall2_for_each. apply Forall2_app.
      * clear - Hhs. induction (headers_of items) as [|h hs IH]; [constructor|].
        cbn [map]. constructor.
        -- rewrite read_line_header
             by (rewrite date_line_match_newline; apply Hhs; left; reflexivity).
           rewrite rstrip_nl_line by (apply Hhs; left; reflexivity). reflexivity.
        -- apply IH. intros x Hx. apply Hhs. right. exact Hx.
      * rewrite map_map. exact H1.
    + apply Forall_forall. intros h Hin. apply Hhs. exact Hin.
    + apply Forall_forall. intros f Hin. apply in_map_iff in Hin as [[r vals] [<- Hin]].
      apply in_combine_l in Hin. apply no_newline_fix_line. apply Hrs. exact Hin.
  - rewrite headers_of_app, rows_of_app.
    rewrite (proj1 (headers_of_inl _)), (proj2 (headers_of_inl _)).
    rewrite (proj1 (headers_of_inr _)), (proj2 (headers_of_inr _)).
    rewrite app_nil_r. split; [reflexivity | exact H2].
Qed.

Lemma output_reads_as_the_same_track_witness :
  exists out,
    Pipeline.extract Pipeline.oisst_config constant_500 track_text = Returned out
    /\ exists items items',
         for_each Pipeline.read_line (readlines track_text) = Returned items
         /\ for_each Pipeline.read_line (readlines out) = Returned items'
         /\ headers_of items' = headers_of items
         /\ Forall2 (fun r r' =>
                       exists vals,
                         Pipeline.sample_window Pipeline.oisst_config constant_500 r
                         = Returned vals
                         /\ reread r r' vals)
                    (rows_of items) (rows_of items').
Proof.
  eexists. split; [vm_compute; reflexivity|].
  apply (output_reads_as_the_same_track Pipeline.oisst_config constant_500 track_text).
  vm_compute. reflexivity.
Defined.

(** ** The scanner on a written file *)

Lemma scanner_reports_partly_sampled_fixes_witness :
  exists out,
    ExtractSST.extract patchy track_text = Returned out
    /\ forall n s,
         In (n, s) (FindMixed.mixed_rows out) <->
         exists i l r vals,
           nth_error (filter date_line_match (readlines track_text)) i = Some l
           /\ ExtractSST.read_line l = Returned (inr r)
           /\ ExtractSST.sst_window patchy r = Returned vals
           /\ n = S (List.length (header_lines track_text) + i)
           /\ s = ExtractSST.fix_line r vals
           /\ existsb PyFloat.is_nan vals = true
           /\ forallb PyFloat.is_nan vals = false.
Proof.
  eexists. split; [vm_compute; reflexivity|].
  apply (scanner_reports_partly_sampled_fixes patchy track_text).
  vm_compute. reflexivity.
Defined.

(** X5. The scanner reports the lines of a file in the order of the
    file: the line numbers increase strictly, start at 1 at the least and
    do not exceed the number of lines. *)
Theorem scanner_reports_in_file_order text :
  StronglySorted lt (map fst (FindMixed.mixed_rows text))
  /\ Forall (fun n => (1 <= n <= List.length (readlines text))%nat)
            (map fst (FindMixed.mixed_rows text)).
Proof.
  unfold FindMixed.mixed_rows.
  destruct (mixed_rows_from_sorted (readlines text) 1) as [Hs Hb].
  split; [exact Hs|]. eapply Forall_impl; [|exact Hb]. cbv beta. intros n Hn. lia.
Qed.

(** ** The tally *)

(** X6. [accumulate_counts] adds to the entry of every status the number
    of fix lines of the file that carry it as their fourth field, and to
    the sum of the entries the number of fix lines with a fourth field
    that is not empty; the empty status is never counted and no status
    gets two entries. *)
Theorem accumulate_counts_tallies_statuses text c s :
  Counter.get (CountStatus.accumulate_counts text c) s
  = (Counter.get c s + tally_of s text)%nat
  /\ Counter.total (CountStatus.accumulate_counts text c)
     = (Counter.total c + List.length (filter counted (readlines text)))%nat
  /\ Counter.get (CountStatus.accumulate_counts text c) "" = Counter.get c ""
  /\ (NoDup (map fst c) -> NoDup (map fst (CountStatus.accumulate_counts text c))).
Proof.
  unfold CountStatus.accumulate_counts, tally_of.
  destruct (fold_count_lines (readlines text) c s) as [H1 [H2 [H3 _]]].
  destruct (fold_count_lines (readlines text) c "") as [H0 _].
  split; [exact H1|]. split; [exact H2|]. split; [|exact H3].
  rewrite H0. rewrite filter_none by (intros l _; apply counts_as_empty).
  simpl. lia.
Qed.

Lemma count_all_get texts s :
  Counter.get (CountStatus.count_all texts) s = list_sum (map (tally_of s) texts)
  /\ Counter.total (CountStatus.count_all texts)
     = list_sum (map (fun text => List.length (filter counted (readlines text))) texts).
Proof.
  unfold CountStatus.count_all. destruct (fold_accumulate texts [] s) as [H1 H2].
  rewrite H1, H2. split; reflexivity.
Qed.

(** X7. The tally does not depend on the order in which [glob] yields the
    files: every status has the same count, and the total is the same. *)
Theorem tally_ignores_file_order texts texts' s :
  Permutation texts texts' ->
  Counter.get (CountStatus.count_all texts) s = Counter.get (CountStatus.count_all texts') s
  /\ Counter.total (CountStatus.count_all texts)
     = Counter.total (CountStatus.count_all texts').
Proof.
  intros Hp.
  rewrite (proj1 (count_all_get texts s)), (proj1 (count_all_get texts' s)).
  rewrite (proj2 (count_all_get texts s)), (proj2 (count_all_get texts' s)).
  split; apply list_sum_permutation, Permutation_map, Hp.
Qed.

Lemma tally_ignores_file_order_witness :
  Permutation [track_text; two_fix_text] [two_fix_text; track_text]
  /\ Counter.get (CountStatus.count_all [track_text; two_fix_text]) "HU"
     = Counter.get (CountStatus.count_all [two_fix_text; track_text]) "HU"
  /\ Counter.total (CountStatus.count_all [track_text; two_fix_text])
     = Counter.total (CountStatus.count_all [two_fix_text; track_text]).
Proof.
  split; [apply perm_swap|].
  apply (tally_ignores_file_order [track_text; two_fix_text] [two_fix_text; track_text] "HU").
  apply perm_swap.
Defined.

(** ** The report *)

Lemma count_all_keys texts :
  NoDup (map fst (CountStatus.count_all texts))
  /\ Forall (fun kv => (0 < snd kv)%nat) (CountStatus.count_all texts).
Proof.
  unfold CountStatus.count_all.
  assert (H : forall c, NoDup (map fst c) /\ Forall (fun kv => (0 < snd kv)%nat) c ->
            NoDup (map fst (fold_left (fun counts text =>
                                         CountStatus.accumulate_counts text counts) texts c))
            /\ Forall (fun kv => (0 < snd kv)%nat)
                      (fold_left (fun counts text =>
                                    CountStatus.accumulate_counts text counts) texts c)).
  { induction texts as [|t texts IH]; intros c Hc; [exact Hc|].
    cbn [fold_left]. apply IH. unfold CountStatus.accumulate_counts.
    destruct (fold_count_lines (readlines t) c "") as [_ [_ [H3 H4]]].
    split; [apply H3, Hc | apply H4, Hc]. }
  apply H. split; constructor.
Qed.

Lemma get_of_entry c s n : NoDup (map fst c) -> In (s, n) c -> Counter.get c s = n.
Proof.
  unfold Counter.get. induction c as [|[k m] c IH]; intros Hnd Hin; [destruct Hin|].
  inversion Hnd as [|? ? Hnot Hc]; subst. cbn [find fst].
  destruct Hin as [E | Hin].
  - inversion E; subst. rewrite String.eqb_refl. reflexivity.
  - destruct (String.eqb_spec k s) as [-> | Hk].
    + exfalso. apply Hnot. change s with (fst (s, n)). apply in_map. exact Hin.
    + apply IH; assumption.
Qed.

Lemma entry_of_get c s : (0 < Counter.get c s)%nat -> In (s, Counter.get c s) c.
Proof.
  unfold Counter.get. intros H.
  destruct (find (fun kv => String.eqb (fst kv) s) c) as [[k n]|] eqn:E; [|lia].
  apply find_some in E as [Hin Hk]. cbn [fst snd] in *.
  apply String.eqb_eq in Hk. subst k. exact Hin.
Qed.

Lemma total_is_sum c : Counter.total c = list_sum (map snd c).
Proof. induction c as [|kv c IH]; simpl; [reflexivity | rewrite IH; reflexivity]. Qed.

Lemma list_sum_zero l : list_sum l = 0%nat <-> forall n, In n l -> n = 0%nat.
Proof.
  induction l as [|a l IH]; simpl.
  - split; [intros _ n [] | reflexivity].
  - split.
    + intros H n [<- | Hin]; [lia | apply IH; [lia | exact Hin]].
    + intros H. rewrite (H a (or_introl eq_refl)).
      apply IH. intros n Hn. apply H. right. exact Hn.
Qed.

Lemma filter_length_zero {A} (p : A -> bool) l :
  List.length (filter p l) = 0%nat <-> forall x, In x l -> p x = false.
Proof.
  induction l as [|a l IH]; simpl.
  - split; [intros _ x [] | reflexivity].
  - destruct (p a) eqn:E; simpl.
    + split; [discriminate|]. intros H. rewrite (H a (or_introl eq_refl)) in E. discriminate.
    + rewrite IH. split.
      * intros H x [<- | Hin]; [exact E | apply H, Hin].
      * intros H x Hin. apply H. right. exact Hin.
Qed.

Lemma total_zero texts :
  Counter.total (CountStatus.count_all texts) = 0%nat
  <-> forall text l, In text texts -> In l (readlines text) -> counted l = false.
Proof.
  rewrite (proj2 (count_all_get texts "")), list_sum_zero. split.
  - intros H text l Ht Hl.
    apply (proj1 (filter_length_zero counted (readlines text))); [|exact Hl].
    apply H. apply in_map_iff. exists text. split; [reflexivity | exact Ht].
  - intros H n Hn. apply in_map_iff in Hn as [text [<- Ht]].
    apply filter_length_zero. intros l Hl. exact (H text l Ht Hl).
Qed.

(** X8. When some fix line of some file has a status, the report is the
    title, one row for each status that occurs, a rule and the total:
    no status has two rows, the count of a row is the number of fix
    lines with that status in all the files, the counts do not
    increase down the report, statuses with equal counts stand in the
    order in which they were first met, and the total is the sum of
    the rows. *)
Theorem report_ranks_statuses texts text l :
  In text texts -> In l (readlines text) -> counted l = true ->
  exists ranked,
    CountStatus.report texts
    = (("Tropical cyclone status counts:" :: map CountStatus.count_row ranked)
       ++ ["--------------------";
           ("Total : " ++ PyFloat.string_of_N (N.of_nat (list_sum (map snd ranked))))%string])%list
    /\ NoDup (map fst ranked)
    /\ (forall s n, In (s, n) ranked
                    <-> n = list_sum (map (tally_of s) texts) /\ (0 < n)%nat)
    /\ StronglySorted by_count_desc ranked
    /\ (forall n, filter (fun x => (snd x =? n)%nat) ranked
                  = filter (fun x => (snd x =? n)%nat) (CountStatus.count_all texts)).
Proof.
  intros Ht Hl Hc.
  destruct (most_common_spec (CountStatus.count_all texts)) as [Hperm [Hsorted Hstable]].
  destruct (count_all_keys texts) as [Hnd Hpos].
  exists (Counter.most_common (CountStatus.count_all texts)).
  split; [|split; [|split; [|split; [exact Hsorted | exact Hstable]]]].
  - unfold CountStatus.report. cbv zeta.
    destruct (Nat.eqb_spec (Counter.total (CountStatus.count_all texts)) 0) as [E | _].
    + rewrite (proj1 (total_zero texts) E text l Ht Hl) in Hc. discriminate.
    + rewrite total_is_sum.
      rewrite (list_sum_permutation _ _ (Permutation_map snd Hperm)). reflexivity.
  - eapply Permutation_NoDup; [apply Permutation_map; symmetry; exact Hperm | exact Hnd].
  - intros s n. rewrite <- (proj1 (count_all_get texts s)). split.
    + intros Hin. apply (Permutation_in _ Hperm) in Hin.
      rewrite (get_of_entry _ _ _ Hnd Hin). split; [reflexivity|].
      rewrite Forall_forall in Hpos. exact (Hpos _ Hin).
    + intros [-> Hn]. apply (Permutation_in _ (Permutation_sym Hperm)).
      apply entry_of_get. exact Hn.
Qed.

Lemma report_ranks_statuses_witness :
  In two_fix_text [two_fix_text]
  /\ In ("19840901,AL,13,HU,13.4N,82.7W" ++ String newline "") (readlines two_fix_text)
  /\ counted ("19840901,AL,13,HU,13.4N,82.7W" ++ String newline "") = true
  /\ exists ranked,
       CountStatus.report [two_fix_text]
       = (("Tropical cyclone status counts:" :: map CountStatus.count_row ranked)
          ++ ["--------------------";
              ("Total : " ++ PyFloat.string_of_N (N.of_nat (list_sum (map snd ranked))))%string])%list
       /\ NoDup (map fst ranked)
       /\ (forall s n, In (s, n) ranked
                       <-> n = list_sum (map (tally_of s) [two_fix_text]) /\ (0 < n)%nat)
       /\ StronglySorted by_count_desc ranked
       /\ (forall n, filter (fun x => (snd x =? n)%nat) ranked
                     = filter (fun x => (snd x =? n)%nat)
                              (CountStatus.count_all [two_fix_text])).
Proof.
  split; [left; reflexivity|].
  split; [vm_compute; right; left; reflexivity|].
  split; [vm_compute; reflexivity|].
  apply (report_ranks_statuses [two_fix_text] two_fix_text
           ("19840901,AL,13,HU,13.4N,82.7W" ++ String newline "")).
  - left; reflexivity.
  - vm_compute. right. left. reflexivity.
  - vm_compute. reflexivity.
Defined.

(** X9. The report is the single line saying that no status was found
    exactly when no fix line of any file has a status. *)
Theorem report_without_statuses texts :
  CountStatus.report texts = ["No status codes found."]
  <-> forall text l, In text texts -> In l (readlines text) -> counted l = false.
Proof.
  rewrite <- total_zero. unfold CountStatus.report. cbv zeta.
  destruct (Nat.eqb_spec (Counter.total (CountStatus.count_all texts)) 0) as [E | E].
  - split; [intros _; exact E | reflexivity].
  - split; [|intros H; contradiction]. intros H. cbn [List.app] in H. discriminate H.
Qed.

(** ** Counting before and after the extraction *)

(** X10. The two counting tools agree about a track and the file an
    extractor makes of it: the written file adds to every counter what
    the track adds, so [count_tc_status.py] on the tracks and
    [count_tc_types.py] on the written files count the same. *)
Theorem extraction_keeps_the_tally cfg ee text out c :
  Pipeline.extract cfg ee text = Returned out ->
  CountStatus.accumulate_counts out c = CountStatus.accumulate_counts text c.
Proof.
  intros Hex. unfold CountStatus.accumulate_counts.
  rewrite !fold_count_statuses, (statuses_of_extraction cfg ee text out Hex). reflexivity.
Qed.

Lemma extraction_keeps_the_tally_witness :
  exists out,
    Pipeline.extract Pipeline.oisst_config constant_500 two_fix_text = Returned out
    /\ CountStatus.accumulate_counts out [] = CountStatus.accumulate_counts two_fix_text [].
Proof.
  eexists. split; [vm_compute; reflexivity|].
  apply (extraction_keeps_the_tally Pipeline.oisst_config constant_500 two_fix_text).
  vm_compute. reflexivity.
Defined.

(** ** The windows the plots load *)

Lemma windows_of_31 pick text :
  (forall l w, pick l = Some w -> List.length w = 31%nat) ->
  Forall (fun w : list PyFloat.float => List.length w = 31%nat)
         (PlotWindows.windows_of pick text).
Proof.
  intros H. apply Forall_forall. intros w Hw.
  apply windows_of_spec in Hw as [l [_ Hl]]. exact (H l w Hl).
Qed.

Lemma windows_of_nil pick text :
  PlotWindows.windows_of pick text = [] ->
  forall l, In l (readlines text) -> pick l = None.
Proof.
  intros H l Hl. destruct (pick l) as [w|] eqn:E; [|reflexivity].
  assert (Hin : In w (PlotWindows.windows_of pick text))
    by (apply windows_of_spec; exists l; split; assumption).
  rewrite H in Hin. destruct Hin.
Qed.

Lemma windows_of_length pick text :
  List.length (PlotWindows.windows_of pick text)
  = List.length (filter (converts pick) (readlines text)).
Proof.
  unfold PlotWindows.windows_of, converts.
  induction (readlines text) as [|l ls IH]; [reflexivity|]. cbn [flat_map filter].
  rewrite length_app, IH. destruct (pick l); reflexivity.
Qed.

Lemma flat_map_length_sum {A B} (f : A -> list B) xs :
  List.length (flat_map f xs) = list_sum (map (fun x => List.length (f x)) xs).
Proof.
  induction xs as [|x xs IH]; [reflexivity|]. cbn [flat_map map list_sum].
  rewrite length_app, IH. reflexivity.
Qed.

(** X11. The loaders return the windows of the lines that pass their
    tests and convert, and nothing else: a window is in the stack
    exactly when it is the window of such a line, there are as many
    windows as such lines, the stack is never empty and every window in
    it has 31 values; the [RuntimeError] is raised exactly when there
    is no such line. *)
Theorem loaded_windows_hold_31_values to_float texts text :
  match PlotWindows.load_windows to_float texts with
  | Some ws =>
      ws <> []
      /\ Forall (fun w => List.length w = 31%nat) ws
      /\ (forall w, In w ws <->
                    exists t l, In t texts /\ In l (readlines t)
                                /\ PlotWindows.window_of_line to_float l = Some w)
      /\ List.length ws
         = list_sum (map (fun t => List.length
                                     (filter (converts (PlotWindows.window_of_line to_float))
                                             (readlines t))) texts)
  | None => forall t l, In t texts -> In l (readlines t) ->
                        PlotWindows.window_of_line to_float l = None
  end
  /\ match PlotWindows.load_single to_float text with
     | Some ws =>
         ws <> []
         /\ Forall (fun w => List.length w = 31%nat) ws
         /\ (forall w, In w ws <->
                       exists l, In l (readlines text)
                                 /\ PlotWindows.single_window_of_line to_float l = Some w)
         /\ List.length ws
            = List.length (filter (converts (PlotWindows.single_window_of_line to_float))
                                  (readlines text))
     | None => forall l, In l (readlines text) ->
                         PlotWindows.single_window_of_line to_float l = None
     end.
Proof.
  split.
  - unfold PlotWindows.load_windows, PlotWindows.stacked.
    destruct (flat_map _ texts) as [|w ws] eqn:E.
    + intros t l Ht Hl.
      apply (windows_of_nil _ t); [|exact Hl].
      destruct (PlotWindows.windows_of _ t) as [|w ws] eqn:Et; [reflexivity|].
      assert (Hin : In w (flat_map (PlotWindows.windows_of
                                      (PlotWindows.window_of_line to_float)) texts))
        by (apply in_flat_map; exists t; split; [exact Ht | rewrite Et; left; reflexivity]).
      rewrite E in Hin. destruct Hin.
    + rewrite <- E. split; [rewrite E; discriminate|]. split; [|split].
      * apply Forall_flat_map, Forall_forall.
        intros t _. apply windows_of_31. apply window_of_line_31.
      * intros w0. rewrite in_flat_map. split.
        -- intros [t [Ht Hw]]. apply windows_of_spec in Hw as [l [Hl Hp]].
           exists t, l. auto.
        -- intros [t [l [Ht [Hl Hp]]]]. exists t. split; [exact Ht|].
           apply windows_of_spec. exists l. auto.
      * rewrite flat_map_length_sum. f_equal. apply map_ext. intros t.
        apply windows_of_length.
  - unfold PlotWindows.load_single, PlotWindows.stacked.
    destruct (PlotWindows.windows_of _ text) as [|w ws] eqn:E.
    + apply windows_of_nil. exact E.
    + rewrite <- E. split; [rewrite E; discriminate|]. split; [|split].
      * apply windows_of_31. apply single_window_of_line_31.
      * intros w0. apply windows_of_spec.
      * apply windows_of_length.
Qed.

(** X12. The loaders of the aggregate plots are the loader of the
    single-track plot restricted to the lines that have a comma after
    their eight digits and the status TS or HU: on those lines the three
    make the same window, and of the others the aggregate loaders make
    none. *)
Theorem aggregate_loaders_restrict_the_single_one to_float l :
  PlotWindows.window_of_line to_float l
  = if date_line_match l && plotted_status l
    then PlotWindows.single_window_of_line to_float l
    else None.
Proof.
  unfold PlotWindows.window_of_line, PlotWindows.single_window_of_line, plotted_status.
  destruct (date_line_match l) eqn:Hm; cbn [negb andb]; [|reflexivity].
  rewrite (date_line_keeps l Hm). cbn [negb].
  destruct (existsb _ PlotWindows.VALID_STATUSES); cbn [negb].
  - rewrite orb_false_r. reflexivity.
  - rewrite orb_true_r. reflexivity.
Qed.

(** ** The loaders on a written file *)

Lemma window_of_header to_float h :
  date_line_match h = false ->
  PlotWindows.window_of_line to_float (h ++ String newline "") = None.
Proof.
  intros H. unfold PlotWindows.window_of_line.
  rewrite date_line_match_newline, H. reflexivity.
Qed.

Lemma window_of_written to_float l r vals :
  line_shape l -> Pipeline.read_line l = Returned (inr r) ->
  List.length vals = 31%nat ->
  match PlotWindows.window_of_line to_float (Pipeline.fix_line r vals ++ String newline "") with
  | Some w => [w]
  | None => []
  end = written_window to_float (l, vals).
Proof.
  intros Hshape Hrd Hlen.
  assert (Hne : vals <> []) by (destruct vals; [discriminate | discriminate]).
  pose proof (read_line_is_fix l r Hrd) as Hm.
  pose proof (read_line_six_fields l r Hrd) as H6.
  pose proof (written_line_fields l r vals Hshape Hrd Hne) as Hf.
  destruct (read_line_row l _ Hm Hrd) as [r0 [E Hraw]]. inversion E; subst r0.
  unfold PlotWindows.window_of_line, written_window, plotted_status. cbn [fst snd].
  assert (Hm' : date_line_match (Pipeline.fix_line r vals ++ String newline "") = true).
  { rewrite date_line_match_newline. unfold Pipeline.fix_line. apply digits_then_app.
    rewrite Hraw. fold (date_line_match (rstrip_nl l)).
    rewrite date_line_match_line; assumption. }
  rewrite Hm', Hf. cbn [negb].
  rewrite app_nth1 by lia.
  rewrite last_n_app by (rewrite length_map; exact Hlen).
  rewrite length_app, length_map, Hlen.
  destruct (Nat.ltb_spec (List.length (fields l) + 31) 31) as [Hlt | _]; [lia|].
  cbn [orb]. destruct (existsb _ PlotWindows.VALID_STATUSES); reflexivity.
Qed.

Lemma flat_map_written {A B C D} (R1 : A -> B -> Prop) (R2 : B -> C -> Prop)
    (g : B * C -> list D) (h : A * C -> list D) ls rs cs :
  Forall2 R1 ls rs -> Forall2 R2 rs cs ->
  (forall l r c, In l ls -> R1 l r -> R2 r c -> g (r, c) = h (l, c)) ->
  flat_map g (combine rs cs) = flat_map h (combine ls cs)
  /\ Forall2 (fun l c => exists r, R1 l r /\ R2 r c) ls cs.
Proof.
  intros H1. revert cs. induction H1 as [|l r ls rs Hlr H1 IH]; intros cs H2 Hg.
  - inversion H2; subst. split; [reflexivity | constructor].
  - inversion H2 as [|? c ? cs' Hrc H2']; subst. cbn [combine flat_map].
    rewrite (Hg l r c (or_introl eq_refl) Hlr Hrc).
    destruct (IH cs' H2') as [E F]; [intros l' r' c' Hin; apply Hg; right; exact Hin|].
    rewrite E. split; [reflexivity|]. constructor; [exists r; split; assumption | exact F].
Qed.

Lemma flat_map_of_map {A B C} (f : B -> list C) (g : A -> B) l :
  flat_map f (map g l) = flat_map (fun x => f (g x)) l.
Proof. induction l as [|a l IH]; [reflexivity|]. cbn [map flat_map]. rewrite IH. reflexivity. Qed.

Lemma flat_map_none {A B} (f : A -> list B) l :
  (forall x, In x l -> f x = []) -> flat_map f l = [].
Proof.
  induction l as [|a l IH]; intros H; [reflexivity|]. cbn [flat_map].
  rewrite (H a (or_introl eq_refl)). apply IH. intros x Hx. apply H. right. exact Hx.
Qed.

(** X13. From the file [extract_sst.py] writes, the aggregate loaders
    take the fixes with status TS or HU, in the order of the track, and
    hand the conversion exactly the 31 values written for the fix;
    headers and fixes of other statuses give nothing. *)
Theorem loaders_read_the_written_windows to_float ee text out :
  ExtractSST.extract ee text = Returned out ->
  exists cols,
    Forall2 (fun l vals => exists r, ExtractSST.read_line l = Returned (inr r)
                                     /\ ExtractSST.sst_window ee r = Returned vals)
            (filter date_line_match (readlines text)) cols
    /\ PlotWindows.windows_of (PlotWindows.window_of_line to_float) out
       = flat_map (written_window to_float)
                  (combine (filter date_line_match (readlines text)) cols).
Proof.
  intros Hex.
  change (Pipeline.extract Pipeline.oisst_config ee text = Returned out) in Hex.
  destruct (extraction_lines _ _ _ _ Hex)
    as [items [cols [Hread [Hsample [Hrows [Hh [Hhs [Hrs ->]]]]]]]].
  pose proof (readlines_shape text) as Hshape. rewrite Forall_forall in Hshape.
  exists cols.
  destruct (flat_map_written _ _
              (fun rc : row * list PyFloat.float =>
                 match PlotWindows.window_of_line to_float
                         (Pipeline.fix_line (fst rc) (snd rc) ++ String newline "") with
                 | Some w => [w]
                 | None => []
                 end)
              (written_window to_float) _ _ _ Hrows Hsample) as [E F].
  { intros l r vals Hin [Hrd _] Hw. cbn [fst snd]. apply filter_In in Hin as [Hin _].
    apply window_of_written; [apply Hshape, Hin | exact Hrd | exact (window_has_31 _ _ _ _ Hw)]. }
  split.
  - eapply Forall2_impl; [|exact F]. cbv beta. intros l vals [r [[Hrd _] Hw]].
    exists r. split; [exact Hrd | exact Hw].
  - unfold PlotWindows.windows_of. rewrite readlines_written.
    + rewrite flat_map_app, <- E, !flat_map_of_map.
      rewrite flat_map_none; [reflexivity|].
      intros h Hin. rewrite window_of_header by (apply Hhs; exact Hin). reflexivity.
    + apply Forall_forall. intros h Hin. apply Hhs. exact Hin.
    + apply Forall_forall. intros f Hin. apply in_map_iff in Hin as [[r vals] [<- Hin]].
      apply in_combine_l in Hin. apply no_newline_fix_line. apply Hrs. exact Hin.
Qed.

Lemma loaders_read_the_written_windows_witness :
  exists out,
    ExtractSST.extract constant_500 two_fix_text = Returned out
    /\ exists cols,
         Forall2 (fun l vals => exists r, ExtractSST.read_line l = Returned (inr r)
                                          /\ ExtractSST.sst_window constant_500 r
                                             = Returned vals)
                 (filter date_line_match (readlines two_fix_text)) cols
         /\ PlotWindows.windows_of (PlotWindows.window_of_line python_float) out
            = flat_map (written_window python_float)
                       (combine (filter date_line_match (readlines two_fix_text)) cols).
Proof.
  eexists. split; [vm_compute; reflexivity|].
  apply (loaders_read_the_written_windows python_float constant_500 two_fix_text).
  vm_compute. reflexivity.
Defined.

(** ** The days of a window *)

Lemma get_daily_at cfg ee d lon lat :
  1000 <= PyDate.year d ->
  0 <= PyDate.year d < 10000 -> 0 <= PyDate.month d < 100 -> 0 <= PyDate.day d < 100 ->
  Pipeline.get_daily cfg ee (PyDate.strftime d) lon lat
  = sample_at cfg ee (PyDate.year d) (PyDate.month d) (PyDate.day d) lon lat.
Proof.
  intros Hp Hy Hm Hd. destruct (strftime_ints d Hp Hy Hm Hd) as [E1 [E2 E3]].
  unfold Pipeline.get_daily. rewrite E1, E2, E3. reflexivity.
Qed.

(** X14. The 31 values of a fix are the samples of 31 consecutive
    calendar days at the position of the fix: value [k] is the sample of
    the date that lies [k - 15] days from the date of the fix, and the
    sixteenth value is the sample of the date of the fix itself. *)
Theorem window_is_31_consecutive_days cfg ee r vals :
  window_dates_exist r ->
  Pipeline.sample_window cfg ee r = Returned vals ->
  exists base,
    PyDate.strptime (ymd r) = Returned base
    /\ valid_date base
    /\ (forall k, (k < 31)%nat ->
          exists dt,
            valid_date dt
            /\ PyDate.toordinal dt = PyDate.toordinal base + (Z.of_nat k - 15)
            /\ sample_at cfg ee (PyDate.year dt) (PyDate.month dt) (PyDate.day dt)
                         (lon r) (lat r)
               = Returned (nth k vals PyFloat.nan))
    /\ sample_at cfg ee (PyDate.year base) (PyDate.month base) (PyDate.day base)
                 (lon r) (lat r)
       = Returned (nth 15 vals PyFloat.nan).
Proof.
  intros [base [Hb [H0 H2]]] Hw.
  destruct (sample_window_in_order _ _ _ _ Hw) as [base' [Hb' [_ Hk]]].
  rewrite Hb in Hb'. inversion Hb'; subst base'. clear Hb'.
  pose proof (strptime_valid _ _ Hb) as Hvalid.
  assert (H1 : 15 < PyDate.toordinal base)
    by (change (PyDate.toordinal first_padded_day) with 364878 in H0; lia).
  assert (Hday : forall k, (k < 31)%nat ->
            sample_at cfg ee
              (PyDate.year (PyDate.fromordinal (PyDate.toordinal base + (Z.of_nat k - 15))))
              (PyDate.month (PyDate.fromordinal (PyDate.toordinal base + (Z.of_nat k - 15))))
              (PyDate.day (PyDate.fromordinal (PyDate.toordinal base + (Z.of_nat k - 15))))
              (lon r) (lat r)
            = Returned (nth k vals PyFloat.nan)
            /\ 1 <= PyDate.toordinal base + (Z.of_nat k - 15) <= PyDate.MAXORDINAL).
  { intros k Hlt. destruct (Hk k Hlt) as [d [Hd Hs]].
    destruct (add_days_in_range base (Z.of_nat k - 15) H1 H2 ltac:(lia)) as [Ha Hr].
    rewrite Ha in Hd. inversion Hd; subst d.
    pose proof (fromordinal_in_range _ Hr) as [Hy [Hm Hdd]].
    assert (Hp : 1000 <= PyDate.year (PyDate.fromordinal
                                        (PyDate.toordinal base + (Z.of_nat k - 15))))
      by (apply fromordinal_year_padded; lia).
    rewrite get_daily_at in Hs by assumption. split; [exact Hs | exact Hr]. }
  exists base. split; [exact Hb|]. split; [exact Hvalid|]. split.
  - intros k Hlt. destruct (Hday k Hlt) as [Hs Hr].
    destruct (toordinal_fromordinal _ Hr) as [Hv Ho].
    eexists. split; [exact Hv|]. split; [exact Ho | exact Hs].
  - destruct (Hday 15%nat ltac:(lia)) as [Hs _].
    change (Z.of_nat 15 - 15) with 0 in Hs. rewrite Z.add_0_r in Hs.
    rewrite (fromordinal_toordinal base Hvalid) in Hs. exact Hs.
Qed.

Lemma window_is_31_consecutive_days_witness :
  window_dates_exist sample_fix
  /\ exists vals,
       Pipeline.sample_window Pipeline.oisst_config constant_500 sample_fix = Returned vals
       /\ exists base,
            PyDate.strptime (ymd sample_fix) = Returned base
            /\ valid_date base
            /\ (forall k, (k < 31)%nat ->
                  exists dt,
                    valid_date dt
                    /\ PyDate.toordinal dt = PyDate.toordinal base + (Z.of_nat k - 15)
                    /\ sample_at Pipeline.oisst_config constant_500
                                 (PyDate.year dt) (PyDate.month dt) (PyDate.day dt)
                                 (lon sample_fix) (lat sample_fix)
                       = Returned (nth k vals PyFloat.nan))
            /\ sample_at Pipeline.oisst_config constant_500
                         (PyDate.year base) (PyDate.month base) (PyDate.day base)
                         (lon sample_fix) (lat sample_fix)
               = Returned (nth 15 vals PyFloat.nan).
Proof.
  split; [exact sample_fix_window|].
  eexists. split; [vm_compute; reflexivity|].
  apply (window_is_31_consecutive_days Pipeline.oisst_config constant_500 sample_fix).
  - exact sample_fix_window.
  - vm_compute. reflexivity.
Defined.

(** ** The date of a fix *)

Lemma digit_is_dchar c :
  is_digit c = true -> exists n, 0 <= n < 10 /\ c = PyDate.dchar n.
Proof.
  intros H. exists (PyDate.dval c).
  destruct c as [[|] [|] [|] [|] [|] [|] [|] [|]]; try discriminate H;
    vm_compute; (split; [split; [discriminate | reflexivity] | reflexivity]).
Qed.

Lemma digit_plain c :
  is_digit c = true -> is_space c = false /\ Ascii.eqb comma c = false.
Proof.
  intros H. destruct c as [[|] [|] [|] [|] [|] [|] [|] [|]]; try discriminate H;
    split; reflexivity.
Qed.

Lemma digits_plain d :
  all_chars is_digit d = true -> strip d = d /\ mem comma d = false.
Proof.
  intros H. split.
  - unfold strip. rewrite rstrip_none, lstrip_none; [reflexivity| |];
      (eapply all_chars_impl; [|exact H]); intros c Hc;
      rewrite (proj1 (digit_plain c Hc)); reflexivity.
  - apply mem_false_all. eapply all_chars_impl; [|exact H]. intros c Hc.
    rewrite (proj2 (digit_plain c Hc)). reflexivity.
Qed.

Lemma take_app_exact a b : take (String.length a) (a ++ b) = a.
Proof.
  induction a as [|c a IH]; [destruct b; reflexivity|]. cbn [String.length append take].
  rewrite IH. reflexivity.
Qed.

(** The first field of a fix line is its eight digits. *)
Lemma ymd_of_fix l r :
  Pipeline.read_line l = Returned (inr r) ->
  ymd r = take 8 l /\ String.length (ymd r) = 8%nat /\ all_chars is_digit (ymd r) = true.
Proof.
  intros Hrd. pose proof (read_line_is_fix l r Hrd) as Hm.
  destruct (proj1 (date_line_match_spec l) Hm) as [d [rest [Hlen [Hd ->]]]].
  destruct (digits_plain d Hd) as [Hs Hc].
  assert (H0 : index (fields (d ++ String comma rest)) 0 = Returned d).
  { unfold fields. rewrite split_app_sep, (split_no_sep _ _ Hc).
    cbn [List.app map]. unfold index. cbn [nth_error]. rewrite Hs. reflexivity. }
  unfold Pipeline.read_line in Hrd. rewrite Hm, H0 in Hrd. cbn [bind] in Hrd.
  destruct (index _ 4); cbn [bind] in Hrd; [|discriminate].
  destruct (Pipeline.parse_latlon _); cbn [bind] in Hrd; [|discriminate].
  destruct (index _ 5); cbn [bind] in Hrd; [|discriminate].
  destruct (Pipeline.parse_latlon _); cbn [bind] in Hrd; [|discriminate].
  inversion Hrd. cbn [ymd]. rewrite <- Hlen at 1. rewrite take_app_exact.
  split; [reflexivity|]. split; assumption.
Qed.

Lemma mmdd_checked a b c e :
  0 <= a < 10 -> 0 <= b < 10 -> 0 <= c < 10 -> 0 <= e < 10 ->
  mmdd_ok a b c e = true /\ pad4_ok a b c e = true /\ pad2_ok a b = true.
Proof.
  intros Ha Hb Hc He.
  assert (H : forallb (fun a => forallb (fun b => forallb (fun c => forallb (fun e =>
                mmdd_ok a b c e && pad4_ok a b c e && pad2_ok a b)
              (below 10)) (below 10)) (below 10)) (below 10) = true)
    by (vm_compute; reflexivity).
  pose proof (below_forall _ _ H a Ha) as H1. cbv beta in H1.
  pose proof (below_forall _ _ H1 b Hb) as H2. cbv beta in H2.
  pose proof (below_forall _ _ H2 c Hc) as H3. cbv beta in H3.
  pose proof (below_forall _ _ H3 e He) as H4. cbv beta in H4.
  rewrite !andb_true_iff in H4. destruct H4 as [[E1 E2] E3]. auto.
Qed.

Lemma make_out_of_range y m d :
  month_and_day m d = false -> PyDate.make y m d = Raised ValueError.
Proof.
  intros H. unfold PyDate.make.
  destruct (_ && _) eqn:E; [|reflexivity]. exfalso.
  rewrite !andb_true_iff in E. destruct E as [[[[[E1 E2] E3] E4] E5] E6].
  apply Z.leb_le in E3, E4, E5, E6.
  pose proof (month_length_le m (PyDate.is_leap y)) as Hle.
  rewrite <- days_in_month_length in Hle.
  unfold month_and_day in H. rewrite !andb_false_iff in H.
  rewrite !Z.leb_gt in H. lia.
Qed.

Lemma eight_digits s :
  String.length s = 8%nat -> all_chars is_digit s = true ->
  exists y m d,
    s = y ++ m ++ d
    /\ (exists a b c e, (0 <= a < 10 /\ 0 <= b < 10 /\ 0 <= c < 10 /\ 0 <= e < 10)
                        /\ y = four_digits a b c e)
    /\ exists a b c e, (0 <= a < 10 /\ 0 <= b < 10 /\ 0 <= c < 10 /\ 0 <= e < 10)
                       /\ m = two_digits a b /\ d = two_digits c e.
Proof.
  intros Hlen Hd.
  do 8 (destruct s as [|? s]; [discriminate Hlen|]).
  destruct s; [|discriminate Hlen].
  cbn [all_chars] in Hd. rewrite !andb_true_iff in Hd.
  destruct Hd as [H1 [H2 [H3 [H4 [H5 [H6 [H7 [H8 _]]]]]]]].
  destruct (digit_is_dchar _ H1) as [n1 [R1 ->]].
  destruct (digit_is_dchar _ H2) as [n2 [R2 ->]].
  destruct (digit_is_dchar _ H3) as [n3 [R3 ->]].
  destruct (digit_is_dchar _ H4) as [n4 [R4 ->]].
  destruct (digit_is_dchar _ H5) as [n5 [R5 ->]].
  destruct (digit_is_dchar _ H6) as [n6 [R6 ->]].
  destruct (digit_is_dchar _ H7) as [n7 [R7 ->]].
  destruct (digit_is_dchar _ H8) as [n8 [R8 ->]].
  exists (four_digits n1 n2 n3 n4), (two_digits n5 n6), (two_digits n7 n8).
  split; [reflexivity|]. split.
  - exists n1, n2, n3, n4. auto.
  - exists n5, n6, n7, n8. auto.
Qed.

Lemma dchar_digit n : 0 <= n < 10 -> is_digit (PyDate.dchar n) = true.
Proof.
  intros Hn.
  assert (H : forallb (fun n => is_digit (PyDate.dchar n)) (below 10) = true)
    by (vm_compute; reflexivity).
  exact (below_forall _ _ H n Hn).
Qed.

(** [strptime] on eight digits is the constructor on the year, the
    month and the day they spell. *)
Lemma strptime_eight_digits s :
  String.length s = 8%nat -> all_chars is_digit s = true ->
  PyDate.strptime s
  = PyDate.make (digits_int (take 4 s)) (digits_int (take 2 (drop 4 s)))
                (digits_int (drop 6 s))
  /\ PyDate.pad4 (digits_int (take 4 s)) ++ PyDate.pad2 (digits_int (take 2 (drop 4 s)))
     ++ PyDate.pad2 (digits_int (drop 6 s)) = s
  /\ 0 <= digits_int (take 4 s) < 10000.
Proof.
  intros Hlen Hd.
  destruct (eight_digits s Hlen Hd) as [y [m [d [-> [Hyear Hrest]]]]].
  destruct Hyear as [a [b [c [e [[Ha [Hb [Hc He]]] ->]]]]].
  destruct Hrest as [a' [b' [c' [e' [[Ha' [Hb' [Hc' He']]] [-> ->]]]]]].
  destruct (mmdd_checked a b c e Ha Hb Hc He) as [_ [Hy _]].
  destruct (mmdd_checked a' b' c' e' Ha' Hb' Hc' He') as [Hmd [_ Hm]].
  destruct (mmdd_checked c' e' a' b' Hc' He' Ha' Hb') as [_ [_ Hdd]].
  change (take 4 (four_digits a b c e ++ two_digits a' b' ++ two_digits c' e'))
    with (four_digits a b c e).
  change (drop 4 (four_digits a b c e ++ two_digits a' b' ++ two_digits c' e'))
    with (four_digits a' b' c' e').
  change (drop 6 (four_digits a b c e ++ two_digits a' b' ++ two_digits c' e'))
    with (two_digits c' e').
  change (take 2 (four_digits a' b' c' e')) with (two_digits a' b').
  unfold pad4_ok in Hy. apply andb_true_iff in Hy as [Hy Hyv].
  apply String.eqb_eq in Hy. apply Z.eqb_eq in Hyv.
  unfold pad2_ok in Hm, Hdd. apply String.eqb_eq in Hm, Hdd.
  split; [|split; [rewrite Hy, Hm, Hdd; reflexivity | lia]].
  unfold PyDate.strptime.
  change (take 4 (four_digits a b c e ++ two_digits a' b' ++ two_digits c' e'))
    with (four_digits a b c e).
  change (drop 4 (four_digits a b c e ++ two_digits a' b' ++ two_digits c' e'))
    with (four_digits a' b' c' e').
  assert (Hfour : (String.length (four_digits a b c e) =? 4)%nat
                  && all_chars is_digit (four_digits a b c e) = true).
  { unfold four_digits, two_digits. cbn [String.length all_chars Nat.eqb].
    rewrite !dchar_digit by assumption. reflexivity. }
  rewrite Hfour. fold (month_day_matches (four_digits a' b' c' e')).
  fold (digits_int (four_digits a b c e)).
  unfold mmdd_ok in Hmd. cbv zeta in Hmd.
  destruct (month_day_matches (four_digits a' b' c' e')) as [|[[m' d'] rest] tl].
  - symmetry. apply make_out_of_range. apply negb_true_iff. exact Hmd.
  - destruct (is_empty rest).
    + apply andb_true_iff in Hmd as [E1 E2]. apply Z.eqb_eq in E1, E2. subst. reflexivity.
    + symmetry. apply make_out_of_range. apply negb_true_iff. exact Hmd.
Qed.

(** X15. The date of a fix is the eight digits its line starts with:
    [strptime] makes of them the date with the year of the first four
    digits, the month of the next two and the day of the last two, and
    fails exactly when the constructor of dates refuses these three
    numbers; the day-0 query date, formatted again, is the eight digits
    of the line. *)
Theorem fix_date_is_the_eight_digits l r :
  Pipeline.read_line l = Returned (inr r) ->
  ymd r = take 8 l
  /\ PyDate.strptime (ymd r)
     = PyDate.make (digits_int (take 4 (ymd r))) (digits_int (take 2 (drop 4 (ymd r))))
                   (digits_int (drop 6 (ymd r)))
  /\ forall base, PyDate.strptime (ymd r) = Returned base ->
                  1000 <= PyDate.year base ->
                  PyDate.strftime base = ymd r.
Proof.
  intros Hrd. destruct (ymd_of_fix l r Hrd) as [Hy [Hlen Hd]].
  destruct (strptime_eight_digits (ymd r) Hlen Hd) as [Hs [Hpad _]].
  split; [exact Hy|]. split; [exact Hs|].
  intros base Hb Hyear. rewrite Hs in Hb.
  set (Y := digits_int (take 4 (ymd r))) in *.
  set (M := digits_int (take 2 (drop 4 (ymd r)))) in *.
  set (D := digits_int (drop 6 (ymd r))) in *.
  unfold PyDate.make in Hb.
  destruct (_ && _); [|discriminate]. injection Hb as <-.
  unfold PyDate.strftime, PyDate.year_text.
  cbn [PyDate.year PyDate.month PyDate.day] in Hyear |- *.
  destruct (Z.ltb_spec Y 1000) as [Hlt | _]; [lia|].
  exact Hpad.
Qed.

Lemma fix_date_is_the_eight_digits_witness :
  Pipeline.read_line lili_fix = Returned (inr sample_fix)
  /\ ymd sample_fix = take 8 lili_fix
  /\ PyDate.strptime (ymd sample_fix)
     = PyDate.make (digits_int (take 4 (ymd sample_fix)))
                   (digits_int (take 2 (drop 4 (ymd sample_fix))))
                   (digits_int (drop 6 (ymd sample_fix)))
  /\ forall base, PyDate.strptime (ymd sample_fix) = Returned base ->
                  1000 <= PyDate.year base ->
                  PyDate.strftime base = ymd sample_fix.
Proof.
  split; [vm_compute; reflexivity|].
  apply (fix_date_is_the_eight_digits lili_fix sample_fix).
  vm_compute. reflexivity.
Defined.

(** ** Where the output goes *)

Lemma rsplit_dot_none s : mem "." s = false -> FS.rsplit_dot s = None.
Proof.
  induction s as [|c s IH]; [reflexivity|]. cbn [mem FS.rsplit_dot].
  rewrite orb_false_iff. intros [Hc Hs]. rewrite (IH Hs), (Ascii.eqb_sym c "."), Hc.
  reflexivity.
Qed.

Lemma rsplit_dot_last x ext :
  mem "." ext = false -> FS.rsplit_dot (x ++ String "." ext) = Some (x, ext).
Proof.
  intros He. induction x as [|c x IH].
  - cbn [append FS.rsplit_dot]. rewrite (rsplit_dot_none ext He). reflexivity.
  - cbn [append FS.rsplit_dot]. rewrite IH. reflexivity.
Qed.

Lemma stem_of_name p x ext :
  FS.name p = x ++ String "." ext -> x <> "" -> ext <> "" -> mem "." ext = false ->
  FS.stem p = x.
Proof.
  intros Hn Hx He Hd. unfold FS.stem. rewrite Hn, (rsplit_dot_last x ext Hd).
  destruct x; [congruence|]. destruct ext; [congruence|]. reflexivity.
Qed.

Lemma prefixes_made w p w1 :
  FS.mkdir_p w p = Returned w1 -> forall q, In q (FS.prefixes p) -> FS.dirs w1 q = true.
Proof.
  unfold FS.mkdir_p. destruct (existsb _ _); [discriminate|].
  intros H q Hq. inversion H. cbn [FS.dirs].
  apply orb_true_iff. right. apply existsb_exists. exists q. split; [exact Hq|].
  apply path_eqb_refl.
Qed.

(** X16. The output is named after the track: for a track whose name is
    [x.ext] ([x] and [ext] not empty, no dot in [ext]) the output file
    is [x] followed by the suffix of the extractor, in the directory
    [t_data] beside the directory of the track; after a run that
    succeeds this file holds the text extracted from the track, and
    [t_data] and all the directories above it exist. *)
Theorem output_is_named_after_the_track cfg ee p w w1 x ext :
  FS.name p = x ++ String "." ext -> x <> "" -> ext <> "" -> mem "." ext = false ->
  Pipeline.main cfg ee p w = (w1, Returned tt) ->
  Pipeline.out_file cfg p
  = (FS.parent (FS.parent p) ++ ["t_data"; (x ++ Pipeline.suffix cfg)%string])%list
  /\ (exists text out,
        FS.files w p = Some text
        /\ Pipeline.extract cfg ee text = Returned out
        /\ FS.files w1 (Pipeline.out_file cfg p) = Some out)
  /\ forall q, In q (FS.prefixes (FS.parent (FS.parent p) ++ ["t_data"])%list) ->
               FS.dirs w1 q = true.
Proof.
  intros Hn Hx He Hd Hmain.
  destruct (main_returns _ _ _ _ _ Hmain) as [text [wm [out [Ht [Hmk [Hex ->]]]]]].
  split; [|split].
  - unfold Pipeline.out_file, Pipeline.out_dir.
    rewrite (stem_of_name p x ext Hn Hx He Hd), <- app_assoc. reflexivity.
  - exists text, out. split; [exact Ht|]. split; [exact Hex|].
    cbn [FS.files FS.write_text]. rewrite path_eqb_refl. reflexivity.
  - intros q Hq. cbn [FS.dirs FS.write_text]. exact (prefixes_made _ _ _ Hmk q Hq).
Qed.

Lemma output_is_named_after_the_track_witness :
  FS.name track_path = "AL131984" ++ String "." "txt"
  /\ snd (Pipeline.main Pipeline.oisst_config constant_500 track_path
            (one_file track_path track_text)) = Returned tt
  /\ Pipeline.out_file Pipeline.oisst_config track_path
     = ["data"; "t_data"; "AL131984_SST.txt"]
  /\ forall q, In q [[]; ["data"]; ["data"; "t_data"]] ->
               FS.dirs (fst (Pipeline.main Pipeline.oisst_config constant_500 track_path
                               (one_file track_path track_text))) q = true.
Proof.
  assert (H : Pipeline.main Pipeline.oisst_config constant_500 track_path
                (one_file track_path track_text)
              = (fst (Pipeline.main Pipeline.oisst_config constant_500 track_path
                        (one_file track_path track_text)), Returned tt)).
  { rewrite (surjective_pairing (Pipeline.main Pipeline.oisst_config constant_500 track_path
                                   (one_file track_path track_text))) at 1.
    apply f_equal. vm_compute. reflexivity. }
  destruct (output_is_named_after_the_track Pipeline.oisst_config constant_500 track_path
              (one_file track_path track_text) _ "AL131984" "txt"
              eq_refl ltac:(discriminate) ltac:(discriminate) eq_refl H)
    as [Hname [_ Hdirs]].
  split; [reflexivity|]. split; [rewrite H; reflexivity|].
  split; [exact Hname | exact Hdirs].
Defined.

(** * Failures, completion and the missing tokens *)

(** ** What the reader raises *)

Lemma index_raises {A} (xs : list A) i e : index xs i = Raised e -> e = IndexError.
Proof. unfold index. destruct (nth_error xs i); [discriminate | congruence]. Qed.

Lemma parse_latlon_raises token e :
  Pipeline.parse_latlon token = Raised e -> MalformedRecordError e.
Proof.
  unfold Pipeline.parse_latlon, MalformedRecordError.
  destruct (PyFloat.of_string (init token)) as [v|e1] eqn:E1; cbn [bind].
  - destruct (last token) as [c|e2] eqn:E2; cbn [bind]; [discriminate|].
    intros H. inversion H; subst. left.
    clear - E2. induction token as [|c [|c' t] IH]; cbn [last] in E2;
      [congruence | discriminate | auto].
  - intros H. inversion H; subst. right. eapply of_string_raises_ValueError; eauto.
Qed.

Lemma read_line_raises l e :
  Pipeline.read_line l = Raised e -> MalformedRecordError e.
Proof.
  unfold Pipeline.read_line.
  destruct (date_line_match l); [|discriminate].
  destruct (index (fields l) 0) as [p0|e0] eqn:E0; cbn [bind];
    [|intros H; inversion H; subst; left; eapply index_raises; eauto].
  destruct (index (fields l) 4) as [p4|e4] eqn:E4; cbn [bind];
    [|intros H; inversion H; subst; left; eapply index_raises; eauto].
  destruct (Pipeline.parse_latlon p4) as [la|ea] eqn:Ea; cbn [bind];
    [|intros H; inversion H; subst; eapply parse_latlon_raises; eauto].
  destruct (index (fields l) 5) as [p5|e5] eqn:E5; cbn [bind];
    [|intros H; inversion H; subst; left; eapply index_raises; eauto].
  destruct (Pipeline.parse_latlon p5) as [lo|eo] eqn:Eo; cbn [bind];
    [discriminate | intros H; inversion H; subst; eapply parse_latlon_raises; eauto].
Qed.

Lemma for_each_raised {A B} (f : A -> outcome B) xs e :
  for_each f xs = Raised e -> exists x, In x xs /\ f x = Raised e.
Proof.
  induction xs as [|x xs IH]; cbn [for_each]; [discriminate|].
  destruct (f x) as [y|e1] eqn:Ex; cbn [bind].
  - destruct (for_each f xs) as [ys|e2]; cbn [bind]; [discriminate|].
    intros H. inversion H; subst. destruct (IH eq_refl) as [x' [Hin Hx']].
    exists x'. split; [right; exact Hin | exact Hx'].
  - intros H. inversion H; subst. exists x. split; [left; reflexivity | exact Ex].
Qed.

(** With the client initialised, a file with a short fix line ends the
    reading, in either script, with the exception of a malformed
    record. *)
Lemma extract_malformed ee text l :
  EE.initialize ee = Returned tt ->
  In l (readlines text) -> date_line_match l = true ->
  (List.length (fields l) < 6)%nat ->
  exists e, MalformedRecordError e
            /\ forall cfg, Pipeline.extract cfg ee text = Raised e.
Proof.
  intros Hi Hin Hm Hlen.
  destruct (read_line_short l Hm Hlen) as [e0 He0].
  destruct (for_each_raises Pipeline.read_line _ l e0 Hin He0) as [e He].
  exists e. split.
  - destruct (for_each_raised _ _ _ He) as [x [_ Hx]]. exact (read_line_raises x e Hx).
  - intros cfg. unfold Pipeline.extract. rewrite Hi. cbn [bind]. rewrite He. reflexivity.
Qed.

Lemma main_raises_with_extract cfg ee p w text w1 e :
  FS.files w p = Some text ->
  FS.mkdir_p w (Pipeline.out_dir p) = Returned w1 ->
  Pipeline.extract cfg ee text = Raised e ->
  snd (Pipeline.main cfg ee p w) = Raised e.
Proof.
  intros Ht Hd He. unfold Pipeline.main. rewrite Ht, Hd, He. reflexivity.
Qed.

(** C3. A file holding a line that passes the date test with fewer than
    six fields is never written out: either script ends in an exception
    with every file as it was.  Once the client is initialised the
    exception is that of a malformed record, the same in both scripts,
    and it is the outcome of the run when the output directory could be
    made.  For a line of at most four fields, or of five with a fifth
    that parses, and the lines before it read, it is the [IndexError]. *)
Theorem short_fix_line_aborts :
  forall (ee : EE.client) (p : FS.path) (w : FS.world) (text l : string),
    FS.files w p = Some text ->
    In l (readlines text) ->
    date_line_match l = true ->
    (List.length (fields l) < 6)%nat ->
    aborts_without_output (ExtractSST.main ee p w) w
    /\ aborts_without_output (ExtractHYCOM.main ee p w) w
    /\ (EE.initialize ee = Returned tt ->
        exists e,
          MalformedRecordError e
          /\ ExtractSST.extract ee text = Raised e
          /\ ExtractHYCOM.extract ee text = Raised e
          /\ (forall w1, FS.mkdir_p w (ExtractSST.out_dir p) = Returned w1 ->
                snd (ExtractSST.main ee p w) = Raised e
                /\ snd (ExtractHYCOM.main ee p w) = Raised e))
    /\ (forall pre post items,
          EE.initialize ee = Returned tt ->
          readlines text = (pre ++ l :: post)%list ->
          for_each ExtractSST.read_line pre = Returned items ->
          (List.length (fields l) <= 4)%nat
          \/ (exists p4 v, index (fields l) 4 = Returned p4
                           /\ ExtractSST.parse_latlon p4 = Returned v) ->
          ExtractSST.extract ee text = Raised IndexError
          /\ ExtractHYCOM.extract ee text = Raised IndexError).
Proof.
  intros ee p w text l Ht Hin Hm Hlen.
  split; [|split; [|split]].
  - apply (main_aborts Pipeline.oisst_config ee p w text Ht).
    eapply extract_aborts_on_short_line; eauto.
  - apply (main_aborts Pipeline.hycom_config ee p w text Ht).
    eapply extract_aborts_on_short_line; eauto.
  - intros Hi. destruct (extract_malformed ee text l Hi Hin Hm Hlen) as [e [He Hex]].
    exists e. split; [exact He|].
    split; [exact (Hex Pipeline.oisst_config)|].
    split; [exact (Hex Pipeline.hycom_config)|].
    intros w1 Hd. split.
    + exact (main_raises_with_extract Pipeline.oisst_config ee p w text w1 e Ht Hd
               (Hex Pipeline.oisst_config)).
    + exact (main_raises_with_extract Pipeline.hycom_config ee p w text w1 e Ht Hd
               (Hex Pipeline.hycom_config)).
  - intros pre post items Hi Hl Hpre Hcase.
    assert (He : Pipeline.read_line l = Raised IndexError).
    { destruct Hcase as [H4 | [p4 [v [H4 Hv]]]].
      - apply read_line_no_latitude; assumption.
      - eapply read_line_no_longitude; eauto. }
    split.
    + exact (extract_IndexError Pipeline.oisst_config ee text pre l post items Hi Hl Hpre He).
    + exact (extract_IndexError Pipeline.hycom_config ee text pre l post items Hi Hl Hpre He).
Qed.

Lemma short_fix_line_aborts_witness :
  FS.files (one_file track_path short_text) track_path = Some short_text
  /\ In (String.append "19840901,AL,13,HU" (String newline "")) (readlines short_text)
  /\ List.length (fields (String.append "19840901,AL,13,HU" (String newline ""))) = 4%nat
  /\ aborts_without_output
       (ExtractSST.main constant_500 track_path (one_file track_path short_text))
       (one_file track_path short_text)
  /\ (exists e, MalformedRecordError e
                /\ snd (ExtractSST.main constant_500 track_path
                          (one_file track_path short_text)) = Raised e
                /\ snd (ExtractHYCOM.main constant_500 track_path
                          (one_file track_path short_text)) = Raised e)
  /\ ExtractSST.extract constant_500 short_text = Raised IndexError.
Proof.
  pose proof (short_fix_line_aborts constant_500 track_path
                (one_file track_path short_text) short_text
                (String.append "19840901,AL,13,HU" (String newline ""))
                eq_refl (or_intror (or_introl eq_refl)) eq_refl
                (proj1 (Nat.leb_le 5 6) eq_refl)) as [H1 [_ [H3 H4]]].
  split; [reflexivity|]. split; [right; left; reflexivity|]. split; [reflexivity|].
  split; [exact H1|]. split.
  - destruct (H3 eq_refl) as [e [He [_ [_ Hmain]]]].
    exists e. split; [exact He|]. exact (Hmain _ eq_refl).
  - exact (proj1 (H4 [String.append "HEADER" (String newline "")] [] [inl "HEADER"]
                    eq_refl eq_refl eq_refl (or_introl (proj1 (Nat.leb_le 4 4) eq_refl)))).
Defined.

(** ** Exceptions outside the [try] *)








(** ** Tracks without a fix *)








(** ** The missing tokens *)

(** ** Trimming *)

Lemma rstrip_decompose p s :
  exists b, s = rstrip_with p s ++ b /\ all_chars p b = true.
Proof.
  induction s as [|c s [b [Hs Hb]]]; [exists ""; split; reflexivity|].
  cbn [rstrip_with]. destruct (rstrip_with p s) as [|c' r'] eqn:E.
  - cbn [append] in Hs. subst s. destruct (p c) eqn:Hc.
    + exists (String c b). split; [reflexivity|]. cbn [all_chars]. rewrite Hc. exact Hb.
    + exists b. split; [reflexivity | exact Hb].
  - exists b. split; [|exact Hb]. cbn [append]. f_equal. exact Hs.
Qed.

Lemma lstrip_decompose p s :
  exists a, s = a ++ lstrip_with p s /\ all_chars p a = true.
Proof.
  induction s as [|c s [a [Hs Ha]]]; [exists ""; split; reflexivity|].
  cbn [lstrip_with]. destruct (p c) eqn:Hc.
  - exists (String c a). split; [cbn [append]; rewrite <- Hs; reflexivity|].
    cbn [all_chars]. rewrite Hc. exact Ha.
  - exists "". split; reflexivity.
Qed.

Lemma append_assoc (a b c : string) : (a ++ b) ++ c = a ++ b ++ c.
Proof. induction a as [|x a IH]; [reflexivity|]. cbn [append]. rewrite IH. reflexivity. Qed.

(** What [strip] takes away is white space at the two ends. *)
Lemma strip_decompose tok :
  exists a b, tok = a ++ strip tok ++ b
              /\ all_chars is_space a = true /\ all_chars is_space b = true.
Proof.
  destruct (rstrip_decompose is_space tok) as [b [Hb1 Hb2]].
  destruct (lstrip_decompose is_space (rstrip_with is_space tok)) as [a [Ha1 Ha2]].
  exists a, b. split; [|split; assumption].
  unfold strip. rewrite <- append_assoc, <- Ha1. exact Hb1.
Qed.

Lemma lstrip_app_all p a s :
  all_chars p a = true -> lstrip_with p (a ++ s) = lstrip_with p s.
Proof.
  induction a as [|c a IH]; [reflexivity|]. cbn [all_chars append lstrip_with].
  rewrite andb_true_iff. intros [-> Ha]. apply IH, Ha.
Qed.

Lemma rstrip_app_keep p a core :
  core <> "" -> rstrip_with p core = core -> rstrip_with p (a ++ core) = a ++ core.
Proof.
  intros Hne Hc. induction a as [|c a IH]; [exact Hc|].
  cbn [append rstrip_with]. rewrite IH.
  destruct (a ++ core) eqn:E; [|reflexivity].
  destruct a; [cbn [append] in E; congruence | discriminate E].
Qed.

(** A core that neither starts nor ends with white space is what [strip]
    leaves of it with white space around. *)
Lemma strip_of_padded a core b :
  all_chars is_space a = true -> all_chars is_space b = true ->
  lstrip_with is_space core = core -> rstrip_with is_space core = core ->
  strip (a ++ core ++ b) = core.
Proof.
  intros Ha Hb Hl Hr. unfold strip.
  rewrite <- append_assoc, rstrip_app_all by exact Hb.
  destruct core as [|c core].
  - rewrite append_nil_r, rstrip_all by exact Ha. reflexivity.
  - rewrite rstrip_app_keep by (discriminate || exact Hr).
    rewrite lstrip_app_all by exact Ha. exact Hl.
Qed.

(** ** Letters and their lower case *)

Lemma lower_char_n c : lower_char c = "n"%char -> c = "n"%char \/ c = "N"%char.
Proof.
  destruct c as [[|] [|] [|] [|] [|] [|] [|] [|]]; vm_compute; intros H;
    try discriminate H; auto.
Qed.

Lemma lower_char_a c : lower_char c = "a"%char -> c = "a"%char \/ c = "A"%char.
Proof.
  destruct c as [[|] [|] [|] [|] [|] [|] [|] [|]]; vm_compute; intros H;
    try discriminate H; auto.
Qed.

Lemma lower_char_minus c : lower_char c = "-"%char -> c = "-"%char.
Proof.
  destruct c as [[|] [|] [|] [|] [|] [|] [|] [|]]; vm_compute; intros H;
    try discriminate H; auto.
Qed.

Lemma lower_char_9 c : lower_char c = "9"%char -> c = "9"%char.
Proof.
  destruct c as [[|] [|] [|] [|] [|] [|] [|] [|]]; vm_compute; intros H;
    try discriminate H; auto.
Qed.

Lemma lower_nan s : lower s = "nan" -> In s nan_spellings.
Proof.
  unfold lower.
  destruct s as [|c1 [|c2 [|c3 [|c4 s]]]]; cbn [map_chars]; intros H; try discriminate H.
  injection H as H1 H2 H3.
  apply lower_char_n in H1, H3. apply lower_char_a in H2.
  destruct H1 as [-> | ->], H2 as [-> | ->], H3 as [-> | ->]; cbn; tauto.
Qed.

Lemma lower_999 s : lower s = "-999" -> s = "-999".
Proof.
  unfold lower.
  destruct s as [|c1 [|c2 [|c3 [|c4 [|c5 s]]]]]; cbn [map_chars]; intros H;
    try discriminate H.
  injection H as H1 H2 H3 H4.
  apply lower_char_minus in H1. apply lower_char_9 in H2, H3, H4. subst. reflexivity.
Qed.

Lemma lower_empty s : lower s = "" -> s = "".
Proof. destruct s; [reflexivity | discriminate]. Qed.

Lemma missing_core_tight core :
  missing_core core ->
  lstrip_with is_space core = core /\ rstrip_with is_space core = core
  /\ existsb (String.eqb (lower core)) FindMixed.MISSING_STRINGS = true.
Proof.
  unfold missing_core, nan_spellings. cbn [In].
  intros H. repeat (destruct H as [H | H]; [subst core; repeat split; reflexivity|]).
  destruct H.
Qed.

(** The scanner's [is_missing] accepts exactly the missing tokens of the
    specification. *)
Lemma is_missing_spec tok : FindMixed.is_missing tok = true <-> missing_token tok.
Proof.
  unfold FindMixed.is_missing. split.
  - intros H. destruct (strip_decompose tok) as [a [b [Ht [Ha Hb]]]].
    exists a, (strip tok), b. split; [exact Ht|]. split; [exact Ha|]. split; [exact Hb|].
    unfold FindMixed.MISSING_STRINGS in H. cbn [existsb] in H.
    rewrite !orb_true_iff in H. unfold missing_core.
    destruct H as [H | [H | [H | H]]]; [| | |discriminate H];
      apply String.eqb_eq in H.
    + right. right. apply lower_nan. exact H.
    + left. apply lower_empty. exact H.
    + right. left. apply lower_999. exact H.
  - intros [a [core [b [-> [Ha [Hb Hc]]]]]].
    destruct (missing_core_tight core Hc) as [Hl [Hr Hm]].
    rewrite (strip_of_padded a core b Ha Hb Hl Hr). exact Hm.
Qed.

Lemma is_missing_false tok : FindMixed.is_missing tok = false <-> ~ missing_token tok.
Proof.
  rewrite <- is_missing_spec. destruct (FindMixed.is_missing tok); split; intros H;
    try reflexivity; try discriminate; try (intros H'; discriminate H'); exfalso; auto.
Qed.

(** C9. A token is missing for the scanner exactly when, trimmed, it is
    empty, the literal ["-999"], or ["nan"] in any case.  The scanner
    yields a line exactly when the line passes the date test, has at
    least 31 fields, and its last 31 fields hold a missing token and a
    token that is not missing; it reports such a line under its 1-based
    number.  A fix followed by [NaN, 5.0, ..., 5.0] is yielded, and so
    is one whose first value is [-999] or empty; a fix followed by 31
    times [NaN], or by 31 numbers, is not.  On a fix line as the
    extractor writes it, the line is yielded when some of the 31 values
    are NaN and some are not. *)
Theorem scanner_flags_exactly_mixed_rows :
  (forall tok, FindMixed.is_missing tok = true <-> missing_token tok)
  /\ (forall line,
        FindMixed.yields line = true <->
        date_line_match line = true
        /\ (31 <= List.length (fields line))%nat
        /\ (exists t, In t (last_n 31 (fields line)) /\ missing_token t)
        /\ (exists t, In t (last_n 31 (fields line)) /\ ~ missing_token t))
  /\ (forall text n s,
        In (n, s) (FindMixed.mixed_rows text) <->
        exists i line, nth_error (readlines text) i = Some line /\ n = S i
                       /\ s = rstrip_nl line /\ FindMixed.yields line = true)
  /\ (FindMixed.yields (fix_with_tokens ("NaN" :: repeat "5.0" 30)) = true
      /\ FindMixed.yields (fix_with_tokens ("-999" :: repeat "5.0" 30)) = true
      /\ FindMixed.yields (fix_with_tokens ("" :: repeat "5.0" 30)) = true
      /\ FindMixed.yields (fix_with_tokens (repeat "NaN" 31)) = false
      /\ FindMixed.yields (fix_with_tokens (repeat "5.0" 31)) = false)
  /\ (forall r vals,
        date_line_match (raw r) = true -> List.length vals = 31%nat ->
        FindMixed.yields (ExtractSST.fix_line r vals)
        = existsb PyFloat.is_nan vals && negb (forallb PyFloat.is_nan vals))
  /\ FindMixed.yields (ExtractSST.fix_line sample_fix (PyFloat.nan :: repeat f_5 30)) = true
  /\ FindMixed.yields (ExtractSST.fix_line sample_fix (repeat PyFloat.nan 31)) = false
  /\ FindMixed.yields (ExtractSST.fix_line sample_fix (repeat f_5 31)) = false.
Proof.
  split; [exact is_missing_spec|].
  split; [ | split; [ | split; [ | split; [ | repeat split; vm_compute; reflexivity ] ] ] ].
  - intros line. unfold FindMixed.yields.
    destruct (date_line_match line); simpl.
    2:{ split; [discriminate | intros [H _]; discriminate]. }
    destruct (Nat.ltb_spec (List.length (fields line)) 31) as [Hlt | Hge].
    + split; [discriminate | intros [_ [H _]]; lia].
    + rewrite andb_true_iff, negb_true_iff, any_map_true, all_map_false.
      split.
      * intros [[t [Ht Hm]] [t' [Ht' Hm']]]. split; [reflexivity|]. split; [exact Hge|].
        split; [exists t | exists t']; split; auto.
        -- apply is_missing_spec. exact Hm.
        -- apply is_missing_false. exact Hm'.
      * intros [_ [_ [[t [Ht Hm]] [t' [Ht' Hm']]]]].
        split; [exists t | exists t']; split; auto.
        -- apply is_missing_spec. exact Hm.
        -- apply is_missing_false. exact Hm'.
  - intros text n s. unfold FindMixed.mixed_rows.
    rewrite mixed_rows_from_spec. reflexivity.
  - repeat split; vm_compute; reflexivity.
  - exact scanner_on_written_line.
Qed.
